(** * Tool search: ranking engines, embedding formats and the search router

    A shallow embedding of the TypeScript sources
      - [src/search/types.ts]     (data model),
      - [src/search/formats.ts]   (embedding text formats),
      - [src/rewriter.ts]         (class [BM25SearchEngine]),
      - [src/search/embedding.ts] (class [EmbeddingSearchEngine]),
      - [src/search/regex.ts]     (class [RegexSearchEngine]),
      - [src/search/index.ts]     (class [UnifiedSearchService]).

    Conventions of the embedding.
      - The program computes its scores in IEEE 754 double precision.
        The scoring functions are read twice.  The modules [BM25],
        [Embedding] and [Regex] read a score as a real number: this is the
        exact arithmetic of the formulas of the specification, without
        rounding, overflow or NaN.  The modules [Float64], [BM25Float]
        and [EmbeddingFloat] read the same source lines on the primitive
        double-precision numbers of Rocq, operation by operation: they
        settle what depends on rounding, on overflow or on NaN.  Counters
        and lengths are [nat]; [topK] is an integer ([Z]), so that negative
        values reach [Array.prototype.slice] as they do in the source.
      - A JavaScript string is a [string] of code units below 256 (the
        Latin-1 range); the character classes [\w] and [\s] and
        [toLowerCase] are those of JavaScript on that range.
      - A [Map<string, _>] is a [gmap string _]; an object used as a record
        of properties is an association list in enumeration order.
      - A class instance is a record of its fields, a method is a function
        from the old record to the new one, an exception is an [Err] result.
      - The embedding provider (the [ollama] client) is an explicit
        argument: a function that may fail. *)

From Stdlib Require Import Floats.
From Stdlib Require Import Reals Lra Lia ZArith Ascii String Sorted.
From stdpp Require Import gmap strings list.

Local Open Scope R_scope.

(** A decimal literal of a double denotes the nearest double, as it
    does in JavaScript. *)
Set Warnings "-inexact-float".

(** Comparisons of scores ([r.score > 0], [denominator === 0]). *)
#[global] Instance Rlt_decision (x y : R) : Decision (x < y) := Rlt_dec x y.
#[global] Instance Req_decision : EqDecision R := Req_dec_T.

(** ** JavaScript primitives used by the engines *)

Module JS.

Definition number : Type := R.

(** Errors thrown by the engines and the service. *)
Inductive error : Type :=
| NotInitialized (engine : string)
| VectorLengthMismatch
| TypeError
| ProviderUnavailable
| MethodNotRegistered
| EngineNotReady
| ScoreNotReal.

Inductive result (A : Type) : Type :=
| Ok (a : A)
| Err (e : error).
Arguments Ok {A} a.
Arguments Err {A} e.

Definition bind {A B : Type} (r : result A) (k : A -> result B) : result B :=
  match r with
  | Ok a => k a
  | Err e => Err e
  end.

(** [Array.prototype.map] with a callback that may throw: the first
    exception aborts the whole map. *)
Fixpoint mapM {A B : Type} (f : A -> result B) (l : list A) : result (list B) :=
  match l with
  | [] => Ok []
  | x :: l' =>
      bind (f x) (fun y => bind (mapM f l') (fun ys => Ok (y :: ys)))
  end.

(** [Array.prototype.slice(start, end)] on integer arguments: a negative
    index counts from the end, and both indices are clamped. *)
Definition slice {A : Type} (l : list A) (start stop : Z) : list A :=
  let len := Z.of_nat (length l) in
  let from := if (start <? 0)%Z then Z.max (len + start) 0 else Z.min start len in
  let to := if (stop <? 0)%Z then Z.max (len + stop) 0 else Z.min stop len in
  take (Z.to_nat (to - from)) (drop (Z.to_nat from) l).

(** [Array.prototype.sort(compare)].  ECMAScript requires the sort to be
    stable; [compare x y < 0] places [x] before [y].  The order of the
    result is fixed by these two requirements whenever [compare] is
    consistent, and the insertion sort below computes it: an element is
    moved behind exactly those elements that compare strictly before it. *)
Fixpoint sortInsert {A : Type} (compare : A -> A -> number) (x : A) (l : list A) : list A :=
  match l with
  | [] => [x]
  | y :: l' =>
      if Rlt_dec (compare y x) 0
      then y :: sortInsert compare x l'
      else x :: y :: l'
  end.

Definition sort {A : Type} (compare : A -> A -> number) (l : list A) : list A :=
  foldr (sortInsert compare) [] l.

(** *** Strings *)

Definition code (c : ascii) : nat := nat_of_ascii c.

Definition isUpper (c : ascii) : bool := (65 <=? code c)%nat && (code c <=? 90)%nat.
Definition isLower (c : ascii) : bool := (97 <=? code c)%nat && (code c <=? 122)%nat.
Definition isDigit (c : ascii) : bool := (48 <=? code c)%nat && (code c <=? 57)%nat.

(** The class [\w]: letters, digits and the underscore. *)
Definition isWordChar (c : ascii) : bool :=
  isUpper c || isLower c || isDigit c || (code c =? 95)%nat.

(** The class [\s] on the code units below 256: tab, line feed, vertical
    tab, form feed, carriage return, space and the no-break space
    (U+00A0). *)
Definition isSpace (c : ascii) : bool :=
  ((9 <=? code c)%nat && (code c <=? 13)%nat) || (code c =? 32)%nat
  || (code c =? 160)%nat.

Definition isUnderscore (c : ascii) : bool := (code c =? 95)%nat.
Definition isHyphen (c : ascii) : bool := (code c =? 45)%nat.

(** The capital letters of Latin-1: U+00C0 to U+00DE without the
    multiplication sign U+00D7. *)
Definition isUpperLatin1 (c : ascii) : bool :=
  (192 <=? code c)%nat && (code c <=? 222)%nat && negb (code c =? 215)%nat.

(** [toLowerCase] on one code unit below 256: a capital letter, ASCII or
    Latin-1, is moved 32 places up; every other code unit is kept. *)
Definition lowerChar (c : ascii) : ascii :=
  if isUpper c || isUpperLatin1 c then ascii_of_nat (code c + 32) else c.

Fixpoint mapChars (f : ascii -> ascii) (s : string) : string :=
  match s with
  | EmptyString => EmptyString
  | String c s' => String (f c) (mapChars f s')
  end.

Definition toLowerCase (s : string) : string := mapChars lowerChar s.

(** [s.replace(/[class]/g, " ")]: every code unit of the class becomes a
    space. *)
Definition replaceWithSpace (class : ascii -> bool) (s : string) : string :=
  mapChars (fun c => if class c then " "%char else c) s.

Definition startsWithSep (sep : ascii -> bool) (s : string) : bool :=
  match s with
  | EmptyString => false
  | String c _ => sep c
  end.

(** [s.split(/[sep]/)] when [runs] is false and [s.split(/[sep]+/)] when
    it is true.  Empty pieces are kept, as in JavaScript: a leading or a
    trailing separator yields an empty first or last piece, and the
    empty string splits into one empty piece. *)
Fixpoint split (sep : ascii -> bool) (runs : bool) (s : string) : list string :=
  match s with
  | EmptyString => [EmptyString]
  | String c s' =>
      let rest := split sep runs s' in
      if sep c then
        if runs && startsWithSep sep s' then rest else EmptyString :: rest
      else
        match rest with
        | piece :: pieces => String c piece :: pieces
        | [] => [String c EmptyString]
        end
  end.

(** [parts.join(sep)] *)
Definition join (sep : string) (parts : list string) : string :=
  String.concat sep parts.

(** [s.startsWith(w)] and [s.includes(w)] *)
Definition startsWith (s w : string) : bool := String.prefix w s.

Fixpoint includes (s w : string) : bool :=
  String.prefix w s ||
  match s with
  | EmptyString => false
  | String _ s' => includes s' w
  end.

Definition wordBefore (prev : option ascii) : bool :=
  match prev with
  | Some c => isWordChar c
  | None => false
  end.

Definition firstChar (s : string) : option ascii :=
  match s with
  | EmptyString => None
  | String c _ => Some c
  end.

Fixpoint lastChar (s : string) : option ascii :=
  match s with
  | EmptyString => None
  | String c EmptyString => Some c
  | String _ s' => lastChar s'
  end.

Fixpoint dropChars (n : nat) (s : string) : string :=
  match n, s with
  | O, _ => s
  | S n', String _ s' => dropChars n' s'
  | S _, EmptyString => EmptyString
  end.

(** The assertion [\b] between two neighbours: exactly one of them is a
    word character (the ends of the text count as non-word). *)
Definition wordBoundary (left right : option ascii) : bool :=
  xorb (wordBefore left) (wordBefore right).

(** Does the regular expression [\bw\b] (with [w] taken literally) match
    at the start of [s], the code unit before [s] being [prev]? *)
Definition matchesWordAt (prev : option ascii) (s w : string) : bool :=
  String.prefix w s
  && wordBoundary prev (firstChar s)
  && wordBoundary (lastChar w) (firstChar (dropChars (String.length w) s)).

(** [text.match(new RegExp("\\b" + escapeRegex(w) + "\\b", "gi"))]: the
    number of matches found by the global scan, which resumes after the
    end of each match ([skip] code units are still covered by the last
    match).  [w] is not empty.  The text and the word are lower case
    when the engine calls this, so the [i] flag changes nothing. *)
Fixpoint countWordMatches (skip : nat) (prev : option ascii) (s w : string) : nat :=
  match s with
  | EmptyString => O
  | String c s' =>
      match skip with
      | S skip' => countWordMatches skip' (Some c) s' w
      | O =>
          if matchesWordAt prev s w
          then S (countWordMatches (String.length w - 1) (Some c) s' w)
          else countWordMatches O (Some c) s' w
      end
  end.

End JS.

(** ** The data model ([src/search/types.ts]) *)

Module Types.

(** A value of [input_schema.properties]: typed [unknown] in the source.
    The engines only distinguish a non-null object, with or without a
    [description] key, from any other value. *)
Inductive SchemaValue : Type :=
| SchemaObject (description : option string)
| SchemaOther.

Record ToolDefinition : Type := {
  name : string;
  description : string;
  (** [input_schema.properties], in the order of [Object.keys] *)
  properties : list (string * SchemaValue);
  (** [input_schema.required] *)
  required : option (list string)
}.

Record SearchResult : Type := {
  result_name : string;
  result_description : string;
  score : JS.number
}.

Inductive SearchMethod : Type := embedding | bm25 | regex.

Inductive EmbeddingFormat : Type := minimal | standard | rich | verbose | structured.

Record BM25Config : Type := {
  cfg_k1 : option JS.number;
  cfg_b : option JS.number
}.

Record SearchEngineConfig : Type := {
  cfg_model : option string;
  cfg_format : option EmbeddingFormat;
  cfg_bm25 : option BM25Config
}.

Record SearchRequest : Type := {
  query : string;
  topK : option Z;
  method : option SearchMethod
}.

Record SearchResponse : Type := {
  results : list SearchResult;
  response_method : SearchMethod
}.

#[export] Instance SearchMethod_eq_dec : EqDecision SearchMethod.
Proof. solve_decision. Defined.

(** The comparator of every engine: [(a, b) => b.score - a.score]. *)
Definition byScoreDesc (a b : SearchResult) : JS.number := score b - score a.

Definition keys (t : ToolDefinition) : list string := map fst (properties t).

End Types.

(** ** Embedding formats ([src/search/formats.ts]) *)

Module Formats.
Import Types.
Local Open Scope string_scope.

Definition formatMinimal (tool : ToolDefinition) : string :=
  description tool.

Definition formatStandard (tool : ToolDefinition) : string :=
  let nameParts := JS.replaceWithSpace JS.isUnderscore (name tool) in
  nameParts ++ ": " ++ description tool.

Definition formatRich (tool : ToolDefinition) : string :=
  let nameParts := JS.replaceWithSpace JS.isUnderscore (name tool) in
  let paramNames := JS.join ", " (keys tool) in
  let text := nameParts ++ " - " ++ name tool ++ ": " ++ description tool in
  if String.eqb paramNames "" then text
  else text ++ ". Parameters: " ++ paramNames.

(** The loop body of [formatVerbose]: a property whose value is not an
    object contributes nothing. *)
Definition verboseParam (entry : string * SchemaValue) : list string :=
  match entry with
  | (key, SchemaObject (Some desc)) =>
      if String.eqb desc "" then [key] else [key ++ ": " ++ desc]
  | (key, SchemaObject None) => [key]
  | (_, SchemaOther) => []
  end.

Definition formatVerbose (tool : ToolDefinition) : string :=
  let nameParts := JS.replaceWithSpace JS.isUnderscore (name tool) in
  let paramDescriptions := flat_map verboseParam (properties tool) in
  let text := nameParts ++ " - " ++ name tool ++ ": " ++ description tool in
  match paramDescriptions with
  | [] => text
  | _ :: _ => text ++ ". Parameters: " ++ JS.join "; " paramDescriptions
  end.

Definition isRequired (tool : ToolDefinition) (key : string) : bool :=
  match required tool with
  | Some names => existsb (String.eqb key) names
  | None => false
  end.

Definition structuredParam (tool : ToolDefinition) (entry : string * SchemaValue) : string :=
  let (key, value) := entry in
  let desc := match value with
              | SchemaObject (Some d) => d
              | _ => ""
              end in
  "  " ++ key ++ (if isRequired tool key then "*" else "") ++ ": " ++ desc.

Definition newline : string := String (ascii_of_nat 10) EmptyString.

Definition formatStructured (tool : ToolDefinition) : string :=
  let params := map (structuredParam tool) (properties tool) in
  let text := "Tool: " ++ name tool ++ newline ++ "Description: " ++ description tool in
  match params with
  | [] => text
  | _ :: _ => text ++ newline ++ "Parameters:" ++ newline ++ JS.join newline params
  end.

Definition formatToolForEmbedding (tool : ToolDefinition) (format : EmbeddingFormat) : string :=
  match format with
  | minimal => formatMinimal tool
  | standard => formatStandard tool
  | rich => formatRich tool
  | verbose => formatVerbose tool
  | structured => formatStructured tool
  end.

(** [Math.ceil(text.length / 4)] *)
Definition estimateFormatTokens (tool : ToolDefinition) (format : EmbeddingFormat) : nat :=
  let text := formatToolForEmbedding tool format in
  (String.length text + 3) / 4.

End Formats.

(** ** The BM25 engine (class [BM25SearchEngine], [src/rewriter.ts]) *)

Module BM25.
Import Types.

Record BM25Params : Type := { k1 : JS.number; b : JS.number }.

(** The source's [IndexedDocument]; its field [length] is [docLength]
    here. *)
Record IndexedDocument : Type := {
  tool : ToolDefinition;
  tokens : list string;
  termFrequencies : gmap string nat;
  docLength : nat
}.

Record BM25SearchEngine : Type := {
  params : BM25Params;
  documents : list IndexedDocument;
  idf : gmap string JS.number;
  avgDocLength : JS.number;
  initialized : bool;
  tools : list ToolDefinition
}.

(** The field initialisers of the class. *)
Definition new : BM25SearchEngine :=
  {| params := {| k1 := 1.5; b := 0.75 |};
     documents := [];
     idf := ∅;
     avgDocLength := 0;
     initialized := false;
     tools := [] |}.

Definition tokenize (text : string) : list string :=
  let lowered := JS.toLowerCase text in
  let spaced := JS.replaceWithSpace (fun c => JS.isUnderscore c || JS.isHyphen c) lowered in
  let cleaned := JS.replaceWithSpace (fun c => negb (JS.isWordChar c || JS.isSpace c)) spaced in
  List.filter (fun token => (1 <? String.length token)%nat) (JS.split JS.isSpace true cleaned).

Definition propertyParts (entry : string * SchemaValue) : list string :=
  match entry with
  | (key, SchemaObject (Some desc)) => [desc; key]
  | (key, _) => [key]
  end.

Definition buildDocumentText (tool : ToolDefinition) : string :=
  let parts :=
    [JS.replaceWithSpace JS.isUnderscore (name tool); name tool; description tool]
      ++ keys tool
      ++ flat_map propertyParts (properties tool) in
  JS.join " " parts.

Definition calculateTermFrequencies (tokens : list string) : gmap string nat :=
  foldl (fun frequencies token =>
           <[token := (default 0 (frequencies !! token) + 1)%nat]> frequencies)
        ∅ tokens.

(** [new Set(tokens)], in insertion order. *)
Definition setAdd (set : list string) (x : string) : list string :=
  if decide (x ∈ set) then set else set ++ [x].

Definition uniqueTerms (tokens : list string) : list string :=
  foldl setAdd [] tokens.

(** The body of the first loop of [calculateIDF], for one document. *)
Definition countDocument (termDocCounts : gmap string nat) (doc : IndexedDocument)
  : gmap string nat :=
  foldl (fun counts term =>
           <[term := (default 0 (counts !! term) + 1)%nat]> counts)
        termDocCounts (uniqueTerms (tokens doc)).

Definition termDocCounts (docs : list IndexedDocument) : gmap string nat :=
  foldl countDocument ∅ docs.

(** [Math.log((docCount - docFreq + 0.5) / (docFreq + 0.5) + 1)] *)
Definition idfValue (docCount docFreq : nat) : JS.number :=
  ln ((INR docCount - INR docFreq + 0.5) / (INR docFreq + 0.5) + 1).

(** [calculateIDF]: the entries of [this.idf] are set term by term; the
    map is not cleared here, so entries of an earlier corpus stay for
    the terms the new corpus does not have. *)
Definition calculateIDF (docs : list IndexedDocument) (idf0 : gmap string JS.number)
  : gmap string JS.number :=
  let docCount := length docs in
  map_fold (fun term docFreq acc => <[term := idfValue docCount docFreq]> acc)
           idf0 (termDocCounts docs).

Definition calculateScore (self : BM25SearchEngine) (doc : IndexedDocument)
           (queryTokens : list string) : JS.number :=
  foldl (fun score term =>
           let tf := default 0%nat (termFrequencies doc !! term) in
           if (tf =? 0)%nat then score
           else
             let idf := default 0 (idf self !! term) in
             let numerator := INR tf * (k1 (params self) + 1) in
             let denominator :=
               INR tf + k1 (params self)
                        * (1 - b (params self)
                           + (b (params self) * INR (docLength doc)) / avgDocLength self) in
             score + idf * (numerator / denominator))
        0 queryTokens.

(** [{ ...this.params, ...config.bm25 }] *)
Definition mergeParams (p : BM25Params) (config : option SearchEngineConfig) : BM25Params :=
  match config with
  | Some c =>
      match cfg_bm25 c with
      | Some o => {| k1 := default (k1 p) (cfg_k1 o); b := default (b p) (cfg_b o) |}
      | None => p
      end
  | None => p
  end.

Definition indexDocument (tool : ToolDefinition) : IndexedDocument :=
  let text := buildDocumentText tool in
  let tokens := tokenize text in
  {| tool := tool;
     tokens := tokens;
     termFrequencies := calculateTermFrequencies tokens;
     docLength := length tokens |}.

Definition totalLength (docs : list IndexedDocument) : nat :=
  foldl (fun sum doc => (sum + docLength doc)%nat) 0%nat docs.

Definition initialize (self : BM25SearchEngine) (tools : list ToolDefinition)
           (config : option SearchEngineConfig) : BM25SearchEngine :=
  let docs := map indexDocument tools in
  {| params := mergeParams (params self) config;
     documents := docs;
     idf := calculateIDF docs (idf self);
     avgDocLength := INR (totalLength docs) / INR (Nat.max (length docs) 1);
     initialized := true;
     tools := tools |}.

Definition toResult (self : BM25SearchEngine) (queryTokens : list string)
           (doc : IndexedDocument) : SearchResult :=
  {| result_name := name (tool doc);
     result_description := description (tool doc);
     score := calculateScore self doc queryTokens |}.

(** The array [results] of [search], before it is sorted. *)
Definition scored (self : BM25SearchEngine) (query : string) : list SearchResult :=
  map (toResult self (tokenize query)) (documents self).

Definition search (self : BM25SearchEngine) (query : string) (topK : Z)
  : JS.result (list SearchResult) :=
  if initialized self then
    JS.Ok (JS.slice (JS.sort byScoreDesc (scored self query)) 0 topK)
  else JS.Err (JS.NotInitialized "BM25").

Definition isReady (self : BM25SearchEngine) : bool := initialized self.

Definition getAllTools (self : BM25SearchEngine) : list ToolDefinition := tools self.

Definition reload (self : BM25SearchEngine) (tools : list ToolDefinition)
           (config : option SearchEngineConfig) : BM25SearchEngine :=
  initialize
    {| params := params self; documents := []; idf := ∅;
       avgDocLength := avgDocLength self; initialized := false;
       tools := BM25.tools self |}
    tools config.

End BM25.

(** ** The embedding engine ([src/search/embedding.ts]) *)

Module Embedding.
Import Types.

(** [ollama.embed({ model, input })]: the vectors of the response, or
    [None] when the call is rejected. *)
Definition Provider : Type := string -> list string -> option (list (list JS.number)).

Record IndexedTool : Type := {
  tool : ToolDefinition;
  (** [embeddings[index]]: undefined when the response is too short *)
  embedding : option (list JS.number);
  formattedText : string
}.

Record EmbeddingSearchEngine : Type := {
  indexedTools : list IndexedTool;
  tools : list ToolDefinition;
  initialized : bool;
  currentModel : string;
  currentFormat : EmbeddingFormat
}.

(** A string is truthy when it is not empty. *)
Definition truthy (s : option string) : option string :=
  match s with
  | Some x => if String.eqb x "" then None else Some x
  | None => None
  end.

(** The constructor; [env] is [process.env.OLLAMA_MODEL]. *)
Definition new (model env : option string) (format : option EmbeddingFormat)
  : EmbeddingSearchEngine :=
  {| indexedTools := [];
     tools := [];
     initialized := false;
     currentModel :=
       default (default "nomic-embed-text-v2-moe"%string (truthy env)) (truthy model);
     currentFormat := default rich format |}.

Definition generateEmbedding (ollama : Provider) (self : EmbeddingSearchEngine)
           (text : string) : JS.result (option (list JS.number)) :=
  match ollama (currentModel self) [text] with
  | Some embeddings => JS.Ok (embeddings !! 0%nat)
  | None => JS.Err JS.ProviderUnavailable
  end.

Definition generateEmbeddings (ollama : Provider) (self : EmbeddingSearchEngine)
           (texts : list string) : JS.result (list (list JS.number)) :=
  match ollama (currentModel self) texts with
  | Some embeddings => JS.Ok embeddings
  | None => JS.Err JS.ProviderUnavailable
  end.

(** The three accumulators of the loop of [cosineSimilarity]. *)
Definition dotProduct (a b : list JS.number) : JS.number :=
  foldl (fun acc xy => acc + fst xy * snd xy) 0 (zip a b).

Definition squaredNorm (a : list JS.number) : JS.number :=
  foldl (fun acc x => acc + x * x) 0 a.

(** A quotient whose divisor is zero is not a real number (JavaScript
    yields NaN or an infinity): the model gives it the value [None]. *)
Definition quotient (x y : JS.number) : option JS.number :=
  if decide (y = 0) then None else Some (x / y).

(** [cosineSimilarity]: [Err] for the thrown exception, [Ok None] for a
    value that is not a real number. *)
Definition cosineSimilarity (a b : list JS.number) : JS.result (option JS.number) :=
  if decide (length a = length b) then
    let denominator := sqrt (squaredNorm a) * sqrt (squaredNorm b) in
    if decide (denominator = 0) then JS.Ok (Some 0)
    else JS.Ok (quotient (dotProduct a b) denominator)
  else JS.Err JS.VectorLengthMismatch.

Definition applyConfig (self : EmbeddingSearchEngine) (tools : list ToolDefinition)
           (config : option SearchEngineConfig) : EmbeddingSearchEngine :=
  {| indexedTools := indexedTools self;
     tools := tools;
     initialized := initialized self;
     currentModel :=
       default (currentModel self) (truthy (config ≫= cfg_model));
     currentFormat := default (currentFormat self) (config ≫= cfg_format) |}.

(** [initialize]: the outcome of the promise and the instance once the
    promise has settled. *)
Definition initialize (ollama : Provider) (self : EmbeddingSearchEngine)
           (tools : list ToolDefinition) (config : option SearchEngineConfig)
  : JS.result unit * EmbeddingSearchEngine :=
  let self1 := applyConfig self tools config in
  let formattedTexts :=
    map (fun tool => Formats.formatToolForEmbedding tool (currentFormat self1)) tools in
  match generateEmbeddings ollama self1 formattedTexts with
  | JS.Err e => (JS.Err e, self1)
  | JS.Ok embeddings =>
      (JS.Ok tt,
       {| indexedTools :=
            imap (fun index tool =>
                    {| tool := tool;
                       embedding := embeddings !! index;
                       formattedText := default ""%string (formattedTexts !! index) |})
                 tools;
          tools := tools;
          initialized := true;
          currentModel := currentModel self1;
          currentFormat := currentFormat self1 |})
  end.

(** The callback of [indexedTools.map] in [search].  Reading [length]
    of an undefined vector throws; a score that is not a real number
    cannot be stored in a [SearchResult] of the model. *)
Definition toResult (queryEmbedding : option (list JS.number)) (indexed : IndexedTool)
  : JS.result SearchResult :=
  match queryEmbedding, embedding indexed with
  | Some a, Some b =>
      JS.bind (cosineSimilarity a b) (fun s =>
        match s with
        | Some s =>
            JS.Ok {| result_name := name (tool indexed);
                     result_description := description (tool indexed);
                     score := s |}
        | None => JS.Err JS.ScoreNotReal
        end)
  | _, _ => JS.Err JS.TypeError
  end.

(** The array [results] of [search], before it is sorted. *)
Definition scored (ollama : Provider) (self : EmbeddingSearchEngine) (query : string)
  : JS.result (list SearchResult) :=
  JS.bind (generateEmbedding ollama self query) (fun queryEmbedding =>
    JS.mapM (toResult queryEmbedding) (indexedTools self)).

Definition search (ollama : Provider) (self : EmbeddingSearchEngine)
           (query : string) (topK : Z) : JS.result (list SearchResult) :=
  if initialized self then
    JS.bind (scored ollama self query) (fun results =>
      JS.Ok (JS.slice (JS.sort byScoreDesc results) 0 topK))
  else JS.Err (JS.NotInitialized "Embedding").

Definition isReady (self : EmbeddingSearchEngine) : bool := initialized self.

Definition getAllTools (self : EmbeddingSearchEngine) : list ToolDefinition := tools self.

Definition reload (ollama : Provider) (self : EmbeddingSearchEngine)
           (tools : list ToolDefinition) (config : option SearchEngineConfig)
  : JS.result unit * EmbeddingSearchEngine :=
  initialize ollama
    {| indexedTools := []; tools := Embedding.tools self; initialized := false;
       currentModel := currentModel self; currentFormat := currentFormat self |}
    tools config.

End Embedding.

(** ** The regex engine ([src/search/regex.ts]) *)

Module Regex.
Import Types.

Record IndexedDocument : Type := {
  tool : ToolDefinition;
  searchText : string;
  nameParts : list string
}.

Record RegexSearchEngine : Type := {
  documents : list IndexedDocument;
  initialized : bool;
  tools : list ToolDefinition
}.

Definition new : RegexSearchEngine :=
  {| documents := []; initialized := false; tools := [] |}.

Definition propertyDescription (entry : string * SchemaValue) : list string :=
  match entry with
  | (_, SchemaObject (Some desc)) => [desc]
  | _ => []
  end.

Definition buildSearchText (tool : ToolDefinition) : string :=
  let parts :=
    [name tool; JS.replaceWithSpace JS.isUnderscore (name tool); description tool]
      ++ keys tool
      ++ flat_map propertyDescription (properties tool) in
  JS.toLowerCase (JS.join " " parts).

Definition extractNameParts (name : string) : list string :=
  List.filter (fun part => (0 <? String.length part)%nat)
              (JS.split (fun c => JS.isUnderscore c || JS.isHyphen c) false
                        (JS.toLowerCase name)).

(** [queryLower.replace(/\s+/g, "_")]: every run of white space becomes
    one underscore. *)
Fixpoint replaceRuns (s : string) : string :=
  match s with
  | EmptyString => EmptyString
  | String c s' =>
      if JS.isSpace c then
        if JS.startsWithSep JS.isSpace s' then replaceRuns s'
        else String "_"%char (replaceRuns s')
      else String c (replaceRuns s')
  end.

Definition queryWords (query : string) : list string :=
  List.filter (fun w => (1 <? String.length w)%nat)
              (JS.split JS.isSpace true (JS.toLowerCase query)).

Definition namePartScore (word namePart : string) : nat :=
  if String.eqb namePart word then 20
  else if JS.includes namePart word then 10
  else if JS.includes word namePart then 5
  else 0.

(** The body of the first loop over the query words.  The word is
    escaped before it is made a regular expression, so the expression
    is always valid and matches the word literally. *)
Definition wordScore (doc : IndexedDocument) (word : string) : nat :=
  list_sum (map (namePartScore word) (nameParts doc))
  + JS.countWordMatches 0 None (searchText doc) word * 3
  + (if JS.includes (searchText doc) word then 1 else 0).

Definition descriptionBonus (doc : IndexedDocument) (word : string) : nat :=
  if JS.startsWith (JS.toLowerCase (description (tool doc))) word then 5 else 0.

(** The value of [score] before it is normalised. *)
Definition rawScore (doc : IndexedDocument) (query : string) : nat :=
  let queryLower := JS.toLowerCase query in
  (if String.eqb (JS.toLowerCase (name (tool doc))) (replaceRuns queryLower)
   then 100 else 0)
  + list_sum (map (wordScore doc) (queryWords query))
  + list_sum (map (descriptionBonus doc) (queryWords query)).

Definition calculateScore (doc : IndexedDocument) (query : string) : JS.number :=
  INR (rawScore doc query) / INR (Nat.max (length (queryWords query)) 1).

Definition indexDocument (tool : ToolDefinition) : IndexedDocument :=
  {| tool := tool;
     searchText := buildSearchText tool;
     nameParts := extractNameParts (name tool) |}.

Definition initialize (self : RegexSearchEngine) (tools : list ToolDefinition)
           (config : option SearchEngineConfig) : RegexSearchEngine :=
  {| documents := map indexDocument tools;
     initialized := true;
     tools := tools |}.

Definition toResult (query : string) (doc : IndexedDocument) : SearchResult :=
  {| result_name := name (tool doc);
     result_description := description (tool doc);
     score := calculateScore doc query |}.

(** The array [results] of [search]. *)
Definition scored (self : RegexSearchEngine) (query : string) : list SearchResult :=
  map (toResult query) (documents self).

Definition search (self : RegexSearchEngine) (query : string) (topK : Z)
  : JS.result (list SearchResult) :=
  if initialized self then
    let results := scored self query in
    let filteredResults :=
      JS.sort byScoreDesc (filter (fun r => 0 < score r) results) in
    if (length filteredResults =? 0)%nat
    then JS.Ok (JS.slice results 0 topK)
    else JS.Ok (JS.slice filteredResults 0 topK)
  else JS.Err (JS.NotInitialized "Regex").

Definition isReady (self : RegexSearchEngine) : bool := initialized self.

Definition getAllTools (self : RegexSearchEngine) : list ToolDefinition := tools self.

Definition reload (self : RegexSearchEngine) (tools : list ToolDefinition)
           (config : option SearchEngineConfig) : RegexSearchEngine :=
  initialize
    {| documents := []; initialized := false; tools := Regex.tools self |}
    tools config.

End Regex.

(** ** The unified search service ([src/search/index.ts]) *)

Module Service.
Import Types.

(** The interface [SearchEngine] has three implementations in the
    repository; an instance of the interface is one of them. *)
Inductive SearchEngine : Type :=
| BM25Engine (e : BM25.BM25SearchEngine)
| EmbeddingEngine (e : Embedding.EmbeddingSearchEngine)
| RegexEngine (e : Regex.RegexSearchEngine).

Definition engineMethod (engine : SearchEngine) : SearchMethod :=
  match engine with
  | BM25Engine _ => bm25
  | EmbeddingEngine _ => embedding
  | RegexEngine _ => regex
  end.

Definition engineInitialize (ollama : Embedding.Provider) (engine : SearchEngine)
           (tools : list ToolDefinition) (config : option SearchEngineConfig)
  : JS.result unit * SearchEngine :=
  match engine with
  | BM25Engine e => (JS.Ok tt, BM25Engine (BM25.initialize e tools config))
  | EmbeddingEngine e =>
      let (outcome, e') := Embedding.initialize ollama e tools config in
      (outcome, EmbeddingEngine e')
  | RegexEngine e => (JS.Ok tt, RegexEngine (Regex.initialize e tools config))
  end.

Definition engineReload (ollama : Embedding.Provider) (engine : SearchEngine)
           (tools : list ToolDefinition) (config : option SearchEngineConfig)
  : JS.result unit * SearchEngine :=
  match engine with
  | BM25Engine e => (JS.Ok tt, BM25Engine (BM25.reload e tools config))
  | EmbeddingEngine e =>
      let (outcome, e') := Embedding.reload ollama e tools config in
      (outcome, EmbeddingEngine e')
  | RegexEngine e => (JS.Ok tt, RegexEngine (Regex.reload e tools config))
  end.

Definition engineSearch (ollama : Embedding.Provider) (engine : SearchEngine)
           (query : string) (topK : Z) : JS.result (list SearchResult) :=
  match engine with
  | BM25Engine e => BM25.search e query topK
  | EmbeddingEngine e => Embedding.search ollama e query topK
  | RegexEngine e => Regex.search e query topK
  end.

Definition engineIsReady (engine : SearchEngine) : bool :=
  match engine with
  | BM25Engine e => BM25.isReady e
  | EmbeddingEngine e => Embedding.isReady e
  | RegexEngine e => Regex.isReady e
  end.

(** The array [results] of the engine's [search], in corpus order. *)
Definition engineScored (ollama : Embedding.Provider) (engine : SearchEngine)
           (query : string) : JS.result (list SearchResult) :=
  match engine with
  | BM25Engine e => JS.Ok (BM25.scored e query)
  | EmbeddingEngine e => Embedding.scored ollama e query
  | RegexEngine e => JS.Ok (Regex.scored e query)
  end.

Definition engineCorpusSize (engine : SearchEngine) : nat :=
  match engine with
  | BM25Engine e => length (BM25.documents e)
  | EmbeddingEngine e => length (Embedding.indexedTools e)
  | RegexEngine e => length (Regex.documents e)
  end.

(** [engines] is a [Map]: its entries are kept in insertion order, and
    setting an existing key keeps the position of the entry. *)
Record UnifiedSearchService : Type := {
  engines : list (SearchMethod * SearchEngine);
  defaultMethod : SearchMethod;
  tools : list ToolDefinition
}.

Definition new : UnifiedSearchService :=
  {| engines := []; defaultMethod := embedding; tools := [] |}.

Fixpoint mapSet (entries : list (SearchMethod * SearchEngine))
         (key : SearchMethod) (value : SearchEngine)
  : list (SearchMethod * SearchEngine) :=
  match entries with
  | [] => [(key, value)]
  | (k, v) :: entries' =>
      if decide (k = key) then (key, value) :: entries'
      else (k, v) :: mapSet entries' key value
  end.

Fixpoint mapGet (entries : list (SearchMethod * SearchEngine)) (key : SearchMethod)
  : option SearchEngine :=
  match entries with
  | [] => None
  | (k, v) :: entries' => if decide (k = key) then Some v else mapGet entries' key
  end.

Definition registerEngine (self : UnifiedSearchService) (engine : SearchEngine)
  : UnifiedSearchService :=
  {| engines := mapSet (engines self) (engineMethod engine) engine;
     defaultMethod := defaultMethod self;
     tools := tools self |}.

Definition setDefaultMethod (self : UnifiedSearchService) (method : SearchMethod)
  : JS.result UnifiedSearchService :=
  match mapGet (engines self) method with
  | None => JS.Err JS.MethodNotRegistered
  | Some _ =>
      JS.Ok {| engines := engines self; defaultMethod := method; tools := tools self |}
  end.

Definition getAvailableMethods (self : UnifiedSearchService) : list SearchMethod :=
  map fst (engines self).

(** [Promise.all]: fulfilled when every promise is, rejected with the
    reason of a rejected one otherwise.  At most one engine of the
    registry suspends, so at most one promise is rejected. *)
Fixpoint promiseAll (outcomes : list (JS.result unit)) : JS.result unit :=
  match outcomes with
  | [] => JS.Ok tt
  | JS.Ok _ :: outcomes' => promiseAll outcomes'
  | JS.Err e :: _ => JS.Err e
  end.

(** The fan-out of [initialize] and [reload]: [this.tools] is assigned
    first, then every engine is started; the pair is the outcome of
    the returned promise and the service once every engine has
    settled. *)
Definition fanOut
           (start : SearchEngine -> list ToolDefinition -> option SearchEngineConfig ->
                    JS.result unit * SearchEngine)
           (self : UnifiedSearchService) (tools : list ToolDefinition)
           (config : option SearchEngineConfig)
  : JS.result unit * UnifiedSearchService :=
  let settled := map (fun entry => (fst entry, start (snd entry) tools config))
                     (engines self) in
  (promiseAll (map (fun entry => fst (snd entry)) settled),
   {| engines := map (fun entry => (fst entry, snd (snd entry))) settled;
      defaultMethod := defaultMethod self;
      tools := tools |}).

Definition initialize (ollama : Embedding.Provider) (self : UnifiedSearchService)
           (tools : list ToolDefinition) (config : option SearchEngineConfig)
  : JS.result unit * UnifiedSearchService :=
  fanOut (engineInitialize ollama) self tools config.

Definition reload (ollama : Embedding.Provider) (self : UnifiedSearchService)
           (tools : list ToolDefinition) (config : option SearchEngineConfig)
  : JS.result unit * UnifiedSearchService :=
  fanOut (engineReload ollama) self tools config.

(** [initializeEngine]: the method is looked up before [this.tools] is
    assigned; the engine found is initialised in place. *)
Definition initializeEngine (ollama : Embedding.Provider) (self : UnifiedSearchService)
           (method : SearchMethod) (tools : list ToolDefinition)
           (config : option SearchEngineConfig)
  : JS.result unit * UnifiedSearchService :=
  match mapGet (engines self) method with
  | None => (JS.Err JS.MethodNotRegistered, self)
  | Some engine =>
      let (outcome, engine') := engineInitialize ollama engine tools config in
      (outcome,
       {| engines := map (fun entry => if decide (fst entry = method)
                                       then (fst entry, engine') else entry)
                         (engines self);
          defaultMethod := defaultMethod self;
          tools := tools |})
  end.

(** [getAllTools] of an engine. *)
Definition engineGetAllTools (engine : SearchEngine) : list ToolDefinition :=
  match engine with
  | BM25Engine e => BM25.getAllTools e
  | EmbeddingEngine e => Embedding.getAllTools e
  | RegexEngine e => Regex.getAllTools e
  end.

(** [request.topK || 5]: zero is falsy. *)
Definition resolveTopK (topK : option Z) : Z :=
  match topK with
  | Some k => if (k =? 0)%Z then 5%Z else k
  | None => 5%Z
  end.

(** [search]; the field [took] of the response is a clock reading and
    is left out. *)
Definition search (ollama : Embedding.Provider) (self : UnifiedSearchService)
           (request : SearchRequest) : JS.result SearchResponse :=
  let method := default (defaultMethod self) (method request) in
  let topK := resolveTopK (topK request) in
  match mapGet (engines self) method with
  | None => JS.Err JS.MethodNotRegistered
  | Some engine =>
      if engineIsReady engine then
        JS.bind (engineSearch ollama engine (query request) topK) (fun results =>
          JS.Ok {| results := results; response_method := method |})
      else JS.Err JS.EngineNotReady
  end.

(** [searchWith(method, query, topK = 5)] *)
Definition searchWith (ollama : Embedding.Provider) (self : UnifiedSearchService)
           (method : SearchMethod) (query : string) (topK : option Z)
  : JS.result (list SearchResult) :=
  JS.bind (search ollama self
             {| query := query; topK := Some (default 5%Z topK); method := Some method |})
          (fun response => JS.Ok (results response)).

Definition getEngine (self : UnifiedSearchService) (method : SearchMethod)
  : option SearchEngine :=
  mapGet (engines self) method.

Definition getAllTools (self : UnifiedSearchService) : list ToolDefinition := tools self.

Definition getToolsCount (self : UnifiedSearchService) : nat := length (tools self).

Definition getToolNames (self : UnifiedSearchService) : list string :=
  map name (tools self).

Definition isReady (self : UnifiedSearchService) : bool :=
  existsb (fun entry => engineIsReady (snd entry)) (engines self).

Definition isEngineReady (self : UnifiedSearchService) (method : SearchMethod) : bool :=
  match mapGet (engines self) method with
  | Some engine => engineIsReady engine
  | None => false
  end.

End Service.

(** ** The description rewriter (class [ToolDescriptionRewriter], [src/rewriter.ts])

    The cache file and the clock are outside the model: [loadCache] and
    [saveCache] are left out, and [Date.now()] is an argument.
    [hashString] (the first 16 hexadecimal digits of a SHA-256 digest)
    is a parameter of the section. *)

Module Rewriter.
Import Types.

Record RewriteOptions : Type := {
  enabled : bool;
  cacheResults : bool;
  cachePath : option string
}.

Record CacheEntry : Type := {
  originalHash : string;
  rewrittenDescription : string;
  timestamp : Z
}.

Record DescriptionCache : Type := {
  version : string;
  entries : gmap string CacheEntry
}.

Record ToolDescriptionRewriter : Type := {
  options : RewriteOptions;
  cache : option DescriptionCache
}.

Definition CACHE_VERSION : string := "1.0".

(** [{ ...tool, description: newDescription }] *)
Definition applyRewrittenDescription (tool : ToolDefinition) (newDescription : string)
  : ToolDefinition :=
  {| name := name tool;
     description := newDescription;
     properties := properties tool;
     required := required tool |}.

Definition isEnabled (self : ToolDescriptionRewriter) : bool := enabled (options self).

Section Hash.
Variable hashString : string -> string.

Definition getCachedDescription (self : ToolDescriptionRewriter) (tool : ToolDefinition)
  : option string :=
  match cache self with
  | None => None
  | Some c =>
      match entries c !! name tool with
      | None => None
      | Some entry =>
          if String.eqb (originalHash entry) (hashString (description tool))
          then Some (rewrittenDescription entry)
          else None
      end
  end.

Definition cacheDescription (self : ToolDescriptionRewriter) (tool : ToolDefinition)
           (newDescription : string) (now : Z) : ToolDescriptionRewriter :=
  let c := default {| version := CACHE_VERSION; entries := ∅ |} (cache self) in
  {| options := options self;
     cache :=
       Some {| version := version c;
               entries :=
                 <[name tool := {| originalHash := hashString (description tool);
                                   rewrittenDescription := newDescription;
                                   timestamp := now |}]> (entries c) |} |}.

Definition needsRewrite (self : ToolDescriptionRewriter) (tool : ToolDefinition) : bool :=
  match getCachedDescription self tool with
  | None => true
  | Some _ => false
  end.

Definition getToolsNeedingRewrite (self : ToolDescriptionRewriter)
           (tools : list ToolDefinition) : list ToolDefinition :=
  List.filter (needsRewrite self) tools.

(** The callback of [applyCache]: an empty cached description is falsy
    and leaves the tool as it is. *)
Definition applyCached (self : ToolDescriptionRewriter) (tool : ToolDefinition)
  : ToolDefinition :=
  match getCachedDescription self tool with
  | Some cached =>
      if String.eqb cached "" then tool else applyRewrittenDescription tool cached
  | None => tool
  end.

Definition applyCache (self : ToolDescriptionRewriter) (tools : list ToolDefinition)
  : list ToolDefinition :=
  map (applyCached self) tools.

End Hash.

End Rewriter.

(** ** Numbers in double precision

  The program computes its scores in IEEE 754 double precision.  The
  modules [BM25] and [Embedding] above read the arithmetic of the
  scoring functions over the real numbers, which is what the formulas
  of the specification speak of; the modules below read the same source
  lines in double precision, which is what the program performs:
  rounding, overflow to an infinity and NaN are those of the machine. *)

Module Float64.
Local Open Scope float_scope.

Definition number : Type := float.

(** A length or a count as a number.  Lengths of arrays are below 2^32,
    so the conversion is exact. *)
Definition ofNat (n : nat) : number := of_uint63 (Uint63.of_Z (Z.of_nat n)).

(** [x || 0] on a number: NaN and both zeros are falsy. *)
Definition orZero (x : number) : number :=
  if is_nan x || (x =? 0) then 0 else x.

Record SearchResult : Type := {
  result_name : string;
  result_description : string;
  score : number
}.

(** The comparator of every engine: [(a, b) => b.score - a.score]. *)
Definition byScoreDesc (a b : SearchResult) : number := score b - score a.

(** [Array.prototype.sort(compare)]: the stable insertion sort of
    [JS.sort], on a comparator whose value is a double.  A NaN returned
    by [compare] counts as 0.  The order of the result is fixed by
    ECMAScript when [compare] is consistent, which it is on scores that
    are not NaN. *)
Fixpoint sortInsert {A : Type} (compare : A -> A -> number) (x : A) (l : list A) : list A :=
  match l with
  | [] => [x]
  | y :: l' =>
      if compare y x <? 0
      then y :: sortInsert compare x l'
      else x :: y :: l'
  end.

Definition sort {A : Type} (compare : A -> A -> number) (l : list A) : list A :=
  foldr (sortInsert compare) [] l.

Record BM25Config : Type := {
  cfg_k1 : option number;
  cfg_b : option number
}.

Record SearchEngineConfig : Type := {
  cfg_model : option string;
  cfg_format : option Types.EmbeddingFormat;
  cfg_bm25 : option BM25Config
}.

(** *** The order of the comparisons

  [<], [<=] and [===] order the numbers that are not NaN as the
  lexicographic order of the integers orders their keys: the sign, then
  the exponent, then the mantissa. *)

Definition key (x : spec_float) : Z * Z * Z :=
  match x with
  | S754_zero _ | S754_nan => (0, 0, 0)%Z
  | S754_infinity s => (if s then -2 else 2, 0, 0)%Z
  | S754_finite s m e => if s then (-1, - e, Zneg m)%Z else (1, e, Zpos m)%Z
  end.

Definition lex (k k' : Z * Z * Z) : comparison :=
  let '(a, b, c) := k in
  let '(a', b', c') := k' in
  match (a ?= a')%Z with
  | Eq => match (b ?= b')%Z with Eq => (c ?= c')%Z | r => r end
  | r => r
  end.

Definition lexlt (k k' : Z * Z * Z) : Prop :=
  let '(a, b, c) := k in
  let '(a', b', c') := k' in
  (a < a' \/ (a = a' /\ (b < b' \/ (b = b' /\ c < c'))))%Z.

Definition rank (a : number) : Z * Z * Z := key (Prim2SF a).

(** A number of the given sign that is neither zero nor NaN. *)
Definition signed (s : bool) (x : spec_float) : Prop :=
  match x with
  | S754_finite s' _ _ | S754_infinity s' => s' = s
  | _ => False
  end.

(** A number of the given sign, zero included. *)
Definition weakly_signed (s : bool) (x : spec_float) : Prop :=
  match x with
  | S754_finite s' _ _ | S754_infinity s' | S754_zero s' => s' = s
  | S754_nan => False
  end.

Definition finite_or_zero (x : spec_float) : Prop :=
  match x with
  | S754_zero _ | S754_finite _ _ _ => True
  | _ => False
  end.

End Float64.

(** ** The BM25 engine in double precision ([src/rewriter.ts]) *)

Module BM25Float.
Import Types.
Local Open Scope float_scope.

Record BM25Params : Type := { k1 : Float64.number; b : Float64.number }.

(** The documents are those of [BM25]: tokens, frequencies and lengths
    are integers. *)
Record BM25SearchEngine : Type := {
  params : BM25Params;
  documents : list BM25.IndexedDocument;
  idf : gmap string Float64.number;
  avgDocLength : Float64.number;
  initialized : bool;
  tools : list ToolDefinition
}.

Definition new : BM25SearchEngine :=
  {| params := {| k1 := 1.5; b := 0.75 |};
     documents := [];
     idf := ∅;
     avgDocLength := 0;
     initialized := false;
     tools := [] |}.

Definition calculateScore (self : BM25SearchEngine) (doc : BM25.IndexedDocument)
           (queryTokens : list string) : Float64.number :=
  foldl (fun score term =>
           let tf := default 0%nat (BM25.termFrequencies doc !! term) in
           if (tf =? 0)%nat then score
           else
             let idf := Float64.orZero (default 0 (idf self !! term)) in
             let numerator := Float64.ofNat tf * (k1 (params self) + 1) in
             let denominator :=
               Float64.ofNat tf
               + k1 (params self)
                 * (1 - b (params self)
                    + (b (params self) * Float64.ofNat (BM25.docLength doc))
                      / avgDocLength self) in
             score + idf * (numerator / denominator))
        0 queryTokens.

(** [{ ...this.params, ...config.bm25 }] *)
Definition mergeParams (p : BM25Params) (config : option Float64.SearchEngineConfig)
  : BM25Params :=
  match config with
  | Some c =>
      match Float64.cfg_bm25 c with
      | Some o =>
          {| k1 := default (k1 p) (Float64.cfg_k1 o);
             b := default (b p) (Float64.cfg_b o) |}
      | None => p
      end
  | None => p
  end.

Section MathLog.

(** [Math.log]: ECMAScript leaves its value to the implementation, up
    to an approximation of the natural logarithm. *)
Variable log : Float64.number -> Float64.number.

(** [Math.log((docCount - docFreq + 0.5) / (docFreq + 0.5) + 1)] *)
Definition idfValue (docCount docFreq : nat) : Float64.number :=
  log ((Float64.ofNat docCount - Float64.ofNat docFreq + 0.5)
       / (Float64.ofNat docFreq + 0.5) + 1).

Definition calculateIDF (docs : list BM25.IndexedDocument)
           (idf0 : gmap string Float64.number) : gmap string Float64.number :=
  let docCount := length docs in
  map_fold (fun term docFreq acc => <[term := idfValue docCount docFreq]> acc)
           idf0 (BM25.termDocCounts docs).

Definition initialize (self : BM25SearchEngine) (tools : list ToolDefinition)
           (config : option Float64.SearchEngineConfig) : BM25SearchEngine :=
  let docs := map BM25.indexDocument tools in
  {| params := mergeParams (params self) config;
     documents := docs;
     idf := calculateIDF docs (idf self);
     avgDocLength :=
       Float64.ofNat (BM25.totalLength docs) / Float64.ofNat (Nat.max (length docs) 1);
     initialized := true;
     tools := tools |}.

End MathLog.

Definition toResult (self : BM25SearchEngine) (queryTokens : list string)
           (doc : BM25.IndexedDocument) : Float64.SearchResult :=
  {| Float64.result_name := name (BM25.tool doc);
     Float64.result_description := description (BM25.tool doc);
     Float64.score := calculateScore self doc queryTokens |}.

(** The array [results] of [search], before it is sorted. *)
Definition scored (self : BM25SearchEngine) (query : string) : list Float64.SearchResult :=
  map (toResult self (BM25.tokenize query)) (documents self).

Definition search (self : BM25SearchEngine) (query : string) (topK : Z)
  : JS.result (list Float64.SearchResult) :=
  if initialized self then
    JS.Ok (JS.slice (Float64.sort Float64.byScoreDesc (scored self query)) 0 topK)
  else JS.Err (JS.NotInitialized "BM25").

End BM25Float.

(** ** The embedding engine in double precision
    ([src/search/embedding.ts]) *)

Module EmbeddingFloat.
Import Types.
Local Open Scope float_scope.

Definition Provider : Type :=
  string -> list string -> option (list (list Float64.number)).

Record IndexedTool : Type := {
  tool : ToolDefinition;
  embedding : option (list Float64.number);
  formattedText : string
}.

Record EmbeddingSearchEngine : Type := {
  indexedTools : list IndexedTool;
  tools : list ToolDefinition;
  initialized : bool;
  currentModel : string;
  currentFormat : EmbeddingFormat
}.

(** The three accumulators of the loop of [cosineSimilarity]. *)
Definition dotProduct (a b : list Float64.number) : Float64.number :=
  foldl (fun acc xy => acc + fst xy * snd xy) 0 (zip a b).

Definition squaredNorm (a : list Float64.number) : Float64.number :=
  foldl (fun acc x => acc + x * x) 0 a.

(** [Math.sqrt(normA) * Math.sqrt(normB)]; [Math.sqrt] is the correctly
    rounded square root. *)
Definition normProduct (a b : list Float64.number) : Float64.number :=
  PrimFloat.sqrt (squaredNorm a) * PrimFloat.sqrt (squaredNorm b).

Definition cosineSimilarity (a b : list Float64.number) : JS.result Float64.number :=
  if decide (length a = length b) then
    let denominator := normProduct a b in
    if denominator =? 0 then JS.Ok 0
    else JS.Ok (dotProduct a b / denominator)
  else JS.Err JS.VectorLengthMismatch.

Definition generateEmbedding (ollama : Provider) (self : EmbeddingSearchEngine)
           (text : string) : JS.result (option (list Float64.number)) :=
  match ollama (currentModel self) [text] with
  | Some embeddings => JS.Ok (embeddings !! 0%nat)
  | None => JS.Err JS.ProviderUnavailable
  end.

(** The callback of [indexedTools.map] in [search]; reading [length] of
    an undefined vector throws. *)
Definition toResult (queryEmbedding : option (list Float64.number)) (indexed : IndexedTool)
  : JS.result Float64.SearchResult :=
  match queryEmbedding, embedding indexed with
  | Some a, Some b =>
      JS.bind (cosineSimilarity a b) (fun s =>
        JS.Ok {| Float64.result_name := name (tool indexed);
                 Float64.result_description := description (tool indexed);
                 Float64.score := s |})
  | _, _ => JS.Err JS.TypeError
  end.

(** The array [results] of [search], before it is sorted. *)
Definition scored (ollama : Provider) (self : EmbeddingSearchEngine) (query : string)
  : JS.result (list Float64.SearchResult) :=
  JS.bind (generateEmbedding ollama self query) (fun queryEmbedding =>
    JS.mapM (toResult queryEmbedding) (indexedTools self)).

Definition search (ollama : Provider) (self : EmbeddingSearchEngine)
           (query : string) (topK : Z) : JS.result (list Float64.SearchResult) :=
  if initialized self then
    JS.bind (scored ollama self query) (fun results =>
      JS.Ok (JS.slice (Float64.sort Float64.byScoreDesc results) 0 topK))
  else JS.Err (JS.NotInitialized "Embedding").

End EmbeddingFloat.

(** ** The vocabulary of the specification

  The definitions of this module follow the words of the specification;
  the theorems compare them with the code above. *)

Module Spec.
Import Types.

Definition sumR (l : list R) : R := foldr Rplus 0 l.

(** "sorted by score in non-increasing order" *)
Definition descending (a b : SearchResult) : Prop := score b <= score a.

Definition sortedByScore (l : list SearchResult) : Prop :=
  StronglySorted descending l.

(** The results of one score, in the order of the list. *)
Definition withScore (s : R) (l : list SearchResult) : list SearchResult :=
  filter (fun r => score r = s) l.

(** "results with equal scores appear in the original corpus order":
    for every score, the results of that score are an initial segment
    of the corpus entries of that score, in corpus order. *)
Definition stableWrt (corpus results : list SearchResult) : Prop :=
  forall s : R, withScore s results `prefix_of` withScore s corpus.

(** The number of elements that [slice(0, stop)] keeps of [len]. *)
Definition sliceCount (len : nat) (stop : Z) : nat :=
  Z.to_nat (if (stop <? 0)%Z then Z.max (Z.of_nat len + stop) 0
            else Z.min stop (Z.of_nat len)).

(** The tail of every [search]: [results.sort(...).slice(0, topK)]. *)
Definition ranked (corpus : list SearchResult) (topK : Z) : list SearchResult :=
  JS.slice (JS.sort byScoreDesc corpus) 0 topK.

(** *** BM25 *)

(** "tf is the term's frequency in the document" *)
Definition tf (doc : BM25.IndexedDocument) (term : string) : nat :=
  length (filter (fun t => t = term) (BM25.tokens doc)).

(** "df the number of documents containing the term" *)
Definition df (docs : list BM25.IndexedDocument) (term : string) : nat :=
  length (filter (fun doc => term ∈ BM25.tokens doc) docs).

Definition docLen (doc : BM25.IndexedDocument) : nat := length (BM25.tokens doc).

(** A document as [initialize] builds it: the frequencies and the
    length are those of its tokens. *)
Definition indexed (doc : BM25.IndexedDocument) : Prop :=
  BM25.termFrequencies doc = BM25.calculateTermFrequencies (BM25.tokens doc)
  /\ BM25.docLength doc = length (BM25.tokens doc).



(** "corpus-wide average document length" *)
Definition avgDocLen (docs : list BM25.IndexedDocument) : R :=
  sumR (map (fun doc => INR (docLen doc)) docs) / INR (length docs).

(** "idf(term) = ln((N - df + 0.5)/(df + 0.5) + 1)" *)
Definition idf (docs : list BM25.IndexedDocument) (term : string) : R :=
  let N := INR (length docs) in
  let n := INR (df docs term) in
  ln ((N - n + 0.5) / (n + 0.5) + 1).



(** *** Format strategies *)

(** Every property of the schema is a (non-null) object. *)
Definition objectSchema (tool : ToolDefinition) : Prop :=
  Forall (fun entry => snd entry <> SchemaOther) (properties tool).

(** *** Strings *)

(** Every code unit of the string is in the class. *)
Fixpoint allChars (class : ascii -> bool) (s : string) : bool :=
  match s with
  | EmptyString => true
  | String c s' => class c && allChars class s'
  end.

(** A lower-case letter or a digit. *)
Definition lowerAlnum (c : ascii) : bool := JS.isLower c || JS.isDigit c.

(** The string has no white space. *)
Definition noSpace (s : string) : bool := allChars (fun c => negb (JS.isSpace c)) s.

End Spec.

(** The same vocabulary for scores in double precision. *)

Module Spec64.
Local Open Scope float_scope.

(** No score of the list is NaN. *)
Definition numbers (l : list Float64.SearchResult) : Prop :=
  Forall (fun r => is_nan (Float64.score r) = false) l.

(** "sorted by score in non-increasing order" *)
Definition descending (a b : Float64.SearchResult) : Prop :=
  (Float64.score b <=? Float64.score a) = true.

Definition sortedByScore (l : list Float64.SearchResult) : Prop :=
  StronglySorted descending l.

(** The results whose score equals [s], in the order of the list. *)
Definition withScore (s : Float64.number) (l : list Float64.SearchResult)
  : list Float64.SearchResult :=
  filter (fun r => (Float64.score r =? s) = true) l.

(** "results with equal scores appear in the original corpus order" *)
Definition stableWrt (corpus results : list Float64.SearchResult) : Prop :=
  forall s : Float64.number, withScore s results `prefix_of` withScore s corpus.

End Spec64.

(** ** Concrete inputs

  The corpus is the one of the end-to-end scenario of the
  specification. *)

Module Examples.
Import Types Service.
Local Open Scope string_scope.

Definition readFile : ToolDefinition :=
  {| name := "read_file"; description := "Read a file from disk";
     properties := []; required := None |}.

Definition writeFile : ToolDefinition :=
  {| name := "write_file"; description := "Write content to a file";
     properties := []; required := None |}.

Definition listDirectory : ToolDefinition :=
  {| name := "list_directory"; description := "List directory contents";
     properties := []; required := None |}.

Definition corpus : list ToolDefinition := [readFile; writeFile; listDirectory].

(** A tool whose schema gives the property [path] a value that is not
    an object, such as the boolean schema [true]. *)
Definition booleanSchemaTool : ToolDefinition :=
  {| name := "read_file"; description := "Read a file from disk";
     properties := [("path", SchemaOther)]; required := None |}.

(** A provider whose every call is rejected. *)
Definition unavailable : Embedding.Provider := fun _ _ => None.

Definition bm25Engine : BM25.BM25SearchEngine := BM25.initialize BM25.new corpus None.

Definition regexEngine : Regex.RegexSearchEngine :=
  Regex.initialize Regex.new corpus None.

(** A service with the three engines registered, nothing loaded. *)
Definition service : UnifiedSearchService :=
  registerEngine
    (registerEngine
       (registerEngine Service.new (EmbeddingEngine (Embedding.new None None None)))
       (BM25Engine BM25.new))
    (RegexEngine Regex.new).

(** A service with the two engines that need no provider, loaded with
    the corpus. *)
Definition lexicalService : UnifiedSearchService :=
  snd (Service.initialize unavailable
         (registerEngine (registerEngine Service.new (BM25Engine BM25.new))
                         (RegexEngine Regex.new))
         corpus None).



(** A tool whose properties are objects, one with a description. *)
Definition describedTool : ToolDefinition :=
  {| name := "read_file"; description := "Read a file from disk";
     properties := [("path", SchemaObject (Some "The path"));
                    ("encoding", SchemaObject None)];
     required := Some ["path"] |}.

(** A provider that answers every call with an empty list of vectors. *)
Definition emptyResponse : Embedding.Provider := fun _ _ => Some [].

(** A provider whose vector for a text has as many components as the
    text has code units. *)
Definition lengthProvider : Embedding.Provider :=
  fun _ texts => Some (map (fun text => repeat 1 (String.length text)) texts).

(** The embedding engine loaded from [lengthProvider] with one tool. *)
Definition embeddingEngine : Embedding.EmbeddingSearchEngine :=
  snd (Embedding.initialize lengthProvider (Embedding.new None None None)
         [readFile] None).

(** *** Inputs in double precision *)

(** [Math.log] at the three arguments that a corpus of three documents
    gives it: the inverse document frequency of a term that one, two or
    three of the documents hold.  The values are the natural logarithms
    rounded to double precision; [w] is the value at the first argument
    (8/3), where the implementations of [Math.log] differ in the last
    place. *)
Definition mathLog (w : Float64.number) (x : Float64.number) : Float64.number :=
  if (x =? 2.5 / 1.5 + 1)%float then w
  else if (x =? 1.5 / 2.5 + 1)%float then 0.47000362924573563%float
  else if (x =? 0.5 / 3.5 + 1)%float then 0.13353139262452257%float
  else 0%float.

(** The two values of [Math.log(8/3)]: the correctly rounded one and its
    successor. *)
Definition log83 : Float64.number := 0.9808292530117263%float.

(** The configuration [{ bm25: { k1, b } }]. *)
Definition bm25Config (k1 b : option Float64.number) : option Float64.SearchEngineConfig :=
  Some {| Float64.cfg_model := None;
          Float64.cfg_format := None;
          Float64.cfg_bm25 := Some {| Float64.cfg_k1 := k1; Float64.cfg_b := b |} |}.

(** The BM25 engine loaded with the corpus, default parameters. *)
Definition doubleEngine : BM25Float.BM25SearchEngine :=
  BM25Float.initialize (mathLog log83) BM25Float.new corpus None.

(** The BM25 engine loaded with the corpus and [{ bm25: { k1: -1, b: 0 } }]. *)
Definition nanEngine : BM25Float.BM25SearchEngine :=
  BM25Float.initialize (mathLog log83) BM25Float.new corpus
                       (bm25Config (Some (-1)%float) (Some 0%float)).


(** A document of 20 tokens, [n] of which are the token "disk". *)
Definition diskDocument (n : nat) : BM25.IndexedDocument :=
  let tokens := (repeat "disk" n ++ repeat "file" (20 - n))%list in
  {| BM25.tool := readFile;
     BM25.tokens := tokens;
     BM25.termFrequencies := BM25.calculateTermFrequencies tokens;
     BM25.docLength := length tokens |}.

(** An embedding engine that holds one vector per tool of the corpus,
    and a provider that embeds every query as [(4, 3)]. *)
Definition vectorEngine : EmbeddingFloat.EmbeddingSearchEngine :=
  {| EmbeddingFloat.indexedTools :=
       [ {| EmbeddingFloat.tool := readFile;
            EmbeddingFloat.embedding := Some [3; 4]%float;
            EmbeddingFloat.formattedText := "" |};
         {| EmbeddingFloat.tool := writeFile;
            EmbeddingFloat.embedding := Some [4; 3]%float;
            EmbeddingFloat.formattedText := "" |};
         {| EmbeddingFloat.tool := listDirectory;
            EmbeddingFloat.embedding := Some [0; 0]%float;
            EmbeddingFloat.formattedText := "" |} ];
     EmbeddingFloat.tools := corpus;
     EmbeddingFloat.initialized := true;
     EmbeddingFloat.currentModel := "nomic-embed-text-v2-moe";
     EmbeddingFloat.currentFormat := rich |}.

Definition vectorProvider : EmbeddingFloat.Provider :=
  fun _ _ => Some [[4; 3]%float].

End Examples.

(** * Properties *)

(** ** Double precision: rounding, order and the sign of a difference

  The facts below are read off the specification of the operations
  ([SpecFloat]), to which the primitive operations conform. *)

Section Rounding.
Import Float64.
Local Open Scope Z_scope.

(** The number of binary digits of a mantissa. *)
Lemma digits2_size m : digits2_pos m = Pos.size m.
Proof. induction m; simpl; congruence. Qed.

Lemma digits2_bounds m :
  2 ^ (Zpos (digits2_pos m) - 1) <= Zpos m < 2 ^ Zpos (digits2_pos m).
Proof.
  rewrite digits2_size.
  pose proof (Pos.size_gt m) as Hgt. pose proof (Pos.size_le m) as Hle.
  apply Pos2Z.pos_lt_pos in Hgt. apply Pos2Z.pos_le_pos in Hle.
  rewrite Pos2Z.inj_pow in Hgt, Hle.
  replace (Zpos (Pos.size m)) with (Z.succ (Zpos (Pos.size m) - 1)) in Hle at 1 by lia.
  rewrite Z.pow_succ_r in Hle by lia. lia.
Qed.

Lemma iter_xO m d : Zpos (Pos.iter xO m d) = Zpos m * 2 ^ Zpos d.
Proof.
  induction d as [|d IH] using Pos.peano_ind.
  - simpl. lia.
  - rewrite Pos.iter_succ, Pos2Z.inj_succ, Z.pow_succ_r by lia.
    change (Zpos (Pos.iter xO m d)~0) with (2 * Zpos (Pos.iter xO m d)). lia.
Qed.

(** Aligning a mantissa on a smaller exponent multiplies it by a power
    of two. *)
Lemma shl_align_fst m e e' :
  e' <= e -> Zpos (fst (shl_align m e e')) = Zpos m * 2 ^ (e - e').
Proof.
  intros Hle. unfold shl_align.
  destruct (e' - e) as [|p|p] eqn:Hd; cbn [fst].
  - replace (e - e') with 0 by lia. rewrite Z.pow_0_r. lia.
  - lia.
  - rewrite iter_xO. f_equal. f_equal. lia.
Qed.

Lemma shl_align_snd m e e' : snd (shl_align m e e') = Z.min e e'.
Proof.
  unfold shl_align. destruct (e' - e) as [|p|p] eqn:Hd; simpl; lia.
Qed.

(** Shifting a mantissa to the right divides it by a power of two. *)
Lemma shr_1_m mrs : 0 <= shr_m mrs -> shr_m (shr_1 mrs) = shr_m mrs / 2.
Proof.
  destruct mrs as [m r s]. cbn [shr_m]. intros Hm.
  destruct m as [|[p|p|]|p]; cbn [shr_1 shr_m]; try lia; try reflexivity.
  - apply Z.div_unique with 1; lia.
  - apply Z.div_unique with 0; lia.
Qed.

Lemma iter_shr_1_m p : forall mrs,
  0 <= shr_m mrs -> shr_m (SpecFloat.iter_pos shr_1 p mrs) = shr_m mrs / 2 ^ Zpos p.
Proof.
  induction p as [p IH|p IH|]; intros mrs Hm; cbn [SpecFloat.iter_pos].
  - assert (H1 : 0 <= shr_m (shr_1 mrs)) by (rewrite shr_1_m by assumption; apply Z.div_pos; lia).
    assert (H2 : 0 <= shr_m (SpecFloat.iter_pos shr_1 p (shr_1 mrs)))
      by (rewrite IH by assumption; apply Z.div_pos; lia).
    rewrite IH, IH, shr_1_m by assumption.
    replace (Zpos p~1) with (1 + Zpos p + Zpos p) by lia.
    rewrite !Z.pow_add_r by lia. rewrite !Z.div_div by lia. f_equal; try ring.
  - assert (H2 : 0 <= shr_m (SpecFloat.iter_pos shr_1 p mrs))
      by (rewrite IH by assumption; apply Z.div_pos; lia).
    rewrite IH, IH by assumption.
    replace (Zpos p~0) with (Zpos p + Zpos p) by lia.
    rewrite !Z.pow_add_r by lia. rewrite !Z.div_div by lia. f_equal; try ring.
  - rewrite shr_1_m by assumption. reflexivity.
Qed.

Lemma shr_record_of_loc_m m l : shr_m (shr_record_of_loc m l) = m.
Proof. destruct l as [|[]]; reflexivity. Qed.

Lemma fexp_ge e : emin <= fexp prec emax e.
Proof. unfold fexp. apply Z.le_max_r. Qed.

(** Shifting to the canonical exponent keeps a non-negative mantissa
    non-negative, and a positive one positive when the exponent is not
    below the least one. *)
Lemma shr_fexp_nonneg m e l :
  0 <= m -> 0 <= shr_m (fst (shr_fexp prec emax m e l)).
Proof.
  intros Hm. unfold shr_fexp, shr.
  destruct (fexp prec emax (Zdigits2 m + e) - e) as [|p|p]; cbn [fst];
    rewrite ?iter_shr_1_m, shr_record_of_loc_m by (rewrite shr_record_of_loc_m; assumption);
    try assumption.
  apply Z.div_pos; lia.
Qed.

Lemma shr_fexp_pos m e l :
  0 < m -> emin <= e ->
  0 < shr_m (fst (shr_fexp prec emax m e l)) /\ emin <= snd (shr_fexp prec emax m e l).
Proof.
  intros Hm He. unfold shr_fexp, shr.
  destruct (fexp prec emax (Zdigits2 m + e) - e) as [|p|p] eqn:Hn; cbn [fst snd];
    rewrite ?shr_record_of_loc_m; try (split; assumption).
  rewrite iter_shr_1_m, shr_record_of_loc_m by (rewrite shr_record_of_loc_m; lia).
  split; [|lia].
  destruct m as [|q|q]; try lia.
  cbn [Zdigits2] in Hn. pose proof (digits2_bounds q) as [Hlo _].
  unfold fexp, SpecFloat.emin, prec, emax in *.
  apply Z.div_str_pos. split; [lia|].
  etransitivity; [|exact Hlo].
  apply Z.pow_le_mono_r; lia.
Qed.

Lemma round_nearest_even_ge m l : m <= round_nearest_even m l.
Proof. destruct l as [|[]]; simpl; try lia. destruct (Z.even m); lia. Qed.

(** Rounding a positive mantissa whose exponent is not below the least
    one gives a number of the same sign that is neither zero nor NaN;
    rounding a non-negative mantissa never gives NaN. *)
Lemma binary_round_aux_signed s m e l :
  0 < m -> emin <= e -> signed s (binary_round_aux prec emax s m e l).
Proof.
  intros Hm He. unfold binary_round_aux.
  pose proof (shr_fexp_pos m e l Hm He) as [H1 H1'].
  destruct (shr_fexp prec emax m e l) as [mrs' e']. cbn [fst snd] in H1, H1'.
  pose proof (round_nearest_even_ge (shr_m mrs') (loc_of_shr_record mrs')) as Hr.
  pose proof (shr_fexp_pos (round_nearest_even (shr_m mrs') (loc_of_shr_record mrs'))
                e' loc_Exact ltac:(lia) H1') as [H2 _].
  destruct (shr_fexp prec emax _ e' loc_Exact) as [mrs'' e'']. cbn [fst] in H2.
  destruct (shr_m mrs'') as [|q|q]; try lia.
  destruct (e'' <=? emax - prec); reflexivity.
Qed.

Lemma binary_round_aux_weakly_signed s m e l :
  0 <= m -> weakly_signed s (binary_round_aux prec emax s m e l).
Proof.
  intros Hm. unfold binary_round_aux.
  pose proof (shr_fexp_nonneg m e l Hm) as H1.
  destruct (shr_fexp prec emax m e l) as [mrs' e']. cbn [fst] in H1.
  pose proof (round_nearest_even_ge (shr_m mrs') (loc_of_shr_record mrs')) as Hr.
  pose proof (shr_fexp_nonneg (round_nearest_even (shr_m mrs') (loc_of_shr_record mrs'))
                e' loc_Exact ltac:(lia)) as H2.
  destruct (shr_fexp prec emax _ e' loc_Exact) as [mrs'' e'']. cbn [fst] in H2.
  destruct (shr_m mrs'') as [|q|q]; try lia; try reflexivity.
  destruct (e'' <=? emax - prec); reflexivity.
Qed.

Lemma binary_round_signed s m e :
  emin <= e -> signed s (binary_round prec emax s m e).
Proof.
  intros He. unfold binary_round.
  pose proof (shl_align_snd m e (fexp prec emax (Zpos (digits2_pos m) + e))) as Hs.
  destruct (shl_align m e _) as [mz ez]. cbn [snd] in Hs.
  apply binary_round_aux_signed; [lia|].
  pose proof (fexp_ge (Zpos (digits2_pos m) + e)). lia.
Qed.

(** The order of [SFcompare]. *)
Lemma lex_spec k k' :
  match lex k k' with
  | Lt => lexlt k k'
  | Eq => k = k'
  | Gt => lexlt k' k
  end.
Proof.
  destruct k as [[a b] c], k' as [[a' b'] c']. unfold lex, lexlt.
  destruct (Z.compare_spec a a'); [|lia|lia].
  destruct (Z.compare_spec b b'); [|lia|lia].
  destruct (Z.compare_spec c c'); [congruence|lia|lia].
Qed.

Lemma SFcompare_key x y :
  x <> S754_nan -> y <> S754_nan -> SFcompare x y = Some (lex (key x) (key y)).
Proof.
  intros Hx Hy.
  destruct x as [sx|sx| |sx mx ex], y as [sy|sy| |sy my ey]; try congruence;
    try (destruct sx; reflexivity); try (destruct sy; reflexivity);
    try (destruct sx, sy; reflexivity).
  destruct sx, sy; try reflexivity; cbn [SFcompare key lex].
  rewrite Z.compare_opp, (Z.compare_antisym ex ey).
  change (-1 ?= -1) with Eq. cbv iota.
  destruct (ex ?= ey); reflexivity.
Qed.

(** The canonical form of a finite number. *)
Lemma bounded_canonical m e :
  SpecFloat.bounded prec emax m e = true ->
  emin <= e /\ Zpos (digits2_pos m) <= prec
  /\ (emin < e -> Zpos (digits2_pos m) = prec).
Proof.
  unfold SpecFloat.bounded, canonical_mantissa, fexp, SpecFloat.emin, prec, emax.
  intros H. apply andb_prop in H as [H _]. apply Z.eqb_eq in H. lia.
Qed.

Lemma aligned_lt mx ex my ey :
  SpecFloat.bounded prec emax mx ex = true -> SpecFloat.bounded prec emax my ey = true ->
  ex < ey ->
  Zpos (fst (shl_align mx ex (Z.min ex ey))) < Zpos (fst (shl_align my ey (Z.min ex ey))).
Proof.
  intros Hx Hy Hlt.
  apply bounded_canonical in Hx as (Hex & Hdx & Hnx).
  apply bounded_canonical in Hy as (Hey & Hdy & Hny).
  pose proof (digits2_bounds mx) as [Hlx Hux].
  pose proof (digits2_bounds my) as [Hly Huy].
  rewrite !shl_align_fst by lia.
  replace (ex - Z.min ex ey) with 0 by lia.
  replace (ey - Z.min ex ey) with (ey - ex) by lia.
  rewrite Z.pow_0_r, Z.mul_1_r.
  assert (Hd : Zpos (digits2_pos my) = prec) by (apply Hny; lia).
  rewrite Hd in Hly.
  assert (H2 : 2 ^ 1 <= 2 ^ (ey - ex)) by (apply Z.pow_le_mono_r; lia).
  assert (H3 : 2 ^ Zpos (digits2_pos mx) <= 2 ^ prec) by (apply Z.pow_le_mono_r; lia).
  unfold prec in *. change (2 ^ 1) with 2 in H2.
  change (2 ^ (53 - 1)) with 4503599627370496 in Hly.
  change (2 ^ 53) with 9007199254740992 in H3. nia.
Qed.

Lemma aligned_eq mx my e :
  Zpos (fst (shl_align mx e (Z.min e e))) = Zpos mx
  /\ Zpos (fst (shl_align my e (Z.min e e))) = Zpos my.
Proof.
  rewrite !shl_align_fst by lia. replace (e - Z.min e e) with 0 by lia.
  rewrite Z.pow_0_r. lia.
Qed.

(** Two finite numbers in canonical form compare as their mantissas do
    once these are aligned on the smaller exponent. *)
Lemma SFcompare_aligned sx mx ex sy my ey :
  SpecFloat.bounded prec emax mx ex = true -> SpecFloat.bounded prec emax my ey = true ->
  SFcompare (S754_finite sx mx ex) (S754_finite sy my ey)
  = Some (cond_Zopp sx (Zpos (fst (shl_align mx ex (Z.min ex ey))))
          ?= cond_Zopp sy (Zpos (fst (shl_align my ey (Z.min ex ey))))).
Proof.
  intros Hx Hy.
  assert (Hcases : (ex < ey /\ (ex ?= ey) = Lt
                    /\ Zpos (fst (shl_align mx ex (Z.min ex ey)))
                       < Zpos (fst (shl_align my ey (Z.min ex ey))))
                   \/ (ex = ey /\ (ex ?= ey) = Eq
                       /\ Zpos (fst (shl_align mx ex (Z.min ex ey))) = Zpos mx
                       /\ Zpos (fst (shl_align my ey (Z.min ex ey))) = Zpos my)
                   \/ (ey < ex /\ (ex ?= ey) = Gt
                       /\ Zpos (fst (shl_align my ey (Z.min ex ey)))
                          < Zpos (fst (shl_align mx ex (Z.min ex ey))))).
  { destruct (Z.compare_spec ex ey) as [->|Hlt|Hgt].
    - right. left. pose proof (aligned_eq mx my ey). tauto.
    - left. pose proof (aligned_lt mx ex my ey Hx Hy Hlt). tauto.
    - right. right. pose proof (aligned_lt my ey mx ex Hy Hx Hgt) as H.
      rewrite (Z.min_comm ey ex) in H. tauto. }
  set (X := Zpos (fst (shl_align mx ex (Z.min ex ey)))) in *.
  set (Y := Zpos (fst (shl_align my ey (Z.min ex ey)))) in *.
  assert (HX : 0 < X) by (unfold X; lia).
  assert (HY : 0 < Y) by (unfold Y; lia).
  destruct sx, sy; cbn [SFcompare cond_Zopp]; f_equal; symmetry.
  - rewrite Z.compare_opp.
    destruct Hcases as [(_ & -> & H)|[(_ & -> & H1 & H2)|(_ & -> & H)]].
    + apply Z.compare_gt_iff. lia.
    + rewrite H1, H2. cbn [Z.compare]. apply Pos.compare_antisym.
    + apply Z.compare_lt_iff. lia.
  - destruct Hcases as [(_ & -> & H)|[(_ & -> & H1 & H2)|(_ & -> & H)]].
    + apply Z.compare_lt_iff. lia.
    + rewrite H1, H2. reflexivity.
    + apply Z.compare_gt_iff. lia.
Qed.

(** The sign of a difference: [x - y < 0] exactly when [x < y]. *)
Lemma SFsub_ltb x y :
  valid_binary x = true -> valid_binary y = true ->
  x <> S754_nan -> y <> S754_nan ->
  SFltb (SF64sub x y) (S754_zero false) = SFltb x y.
Proof.
  intros Vx Vy Hx Hy.
  destruct x as [sx|sx| |sx mx ex], y as [sy|sy| |sy my ey]; try congruence;
    try (destruct sx; reflexivity); try (destruct sy; reflexivity);
    try (destruct sx, sy; reflexivity).
  cbn [valid_binary] in Vx, Vy.
  unfold SFltb at 2. rewrite (SFcompare_aligned _ _ _ _ _ _ Vx Vy).
  unfold SF64sub, SFsub.
  set (X := cond_Zopp sx (Zpos (fst (shl_align mx ex (Z.min ex ey))))).
  set (Y := cond_Zopp sy (Zpos (fst (shl_align my ey (Z.min ex ey))))).
  assert (He : emin <= Z.min ex ey).
  { apply bounded_canonical in Vx as [? _]. apply bounded_canonical in Vy as [? _]. lia. }
  destruct (Z.compare_spec X Y) as [Heq|Hlt|Hgt].
  - replace (X - Y) with 0 by lia. reflexivity.
  - destruct (X - Y) as [|p|p] eqn:Hd; try lia. cbn [binary_normalize].
    pose proof (binary_round_signed true p (Z.min ex ey) He) as Hs.
    destruct (binary_round prec emax true p (Z.min ex ey)); cbn [signed] in Hs;
      try contradiction; subst; reflexivity.
  - destruct (X - Y) as [|p|p] eqn:Hd; try lia. cbn [binary_normalize].
    pose proof (binary_round_signed false p (Z.min ex ey) He) as Hs.
    destruct (binary_round prec emax false p (Z.min ex ey)); cbn [signed] in Hs;
      try contradiction; subst; reflexivity.
Qed.

Lemma SFdiv_not_nan x y :
  finite_or_zero x -> (exists s m e, y = S754_finite s m e) ->
  SF64div x y <> S754_nan.
Proof.
  intros Hx (sy & my & ey & ->).
  destruct x as [sx|sx| |sx mx ex]; try contradiction; [discriminate|].
  unfold SF64div, SFdiv, SFdiv_core_binary.
  set (m' := match ex - ey - _ with Z0 => _ | Zpos _ => _ | Zneg _ => _ end).
  assert (Hm' : 0 <= m').
  { unfold m'. destruct (ex - ey - _); [lia| |lia]. apply Z.shiftl_nonneg. lia. }
  pose proof (Z.div_pos m' (Zpos my) Hm' ltac:(lia)) as Hq.
  unfold Z.div in Hq. destruct (Z.div_eucl m' (Zpos my)) as [q r].
  pose proof (binary_round_aux_weakly_signed (xorb sx sy) q
                (Z.min (fexp prec emax (Zdigits2 (Zpos mx) + ex - (Zdigits2 (Zpos my) + ey)))
                       (ex - ey))
                (new_location (Zpos my) r) Hq) as Hs.
  intros Hnan. rewrite Hnan in Hs. exact Hs.
Qed.

(** Multiplication is commutative. *)
Lemma SFmul_comm x y : SF64mul x y = SF64mul y x.
Proof.
  destruct x as [sx|sx| |sx mx ex], y as [sy|sy| |sy my ey]; cbn;
    rewrite ?(xorb_comm sx sy), ?(Pos.mul_comm mx my), ?(Z.add_comm ex ey); reflexivity.
Qed.

End Rounding.

Section Doubles.
Import Float64.
Local Open Scope float_scope.

Lemma lex_refl k : lex k k = Eq.
Proof. destruct k as [[a b] c]. unfold lex. rewrite !Z.compare_refl. reflexivity. Qed.

Lemma is_nan_Prim2SF a : is_nan a = false <-> Prim2SF a <> S754_nan.
Proof.
  unfold is_nan. rewrite FloatAxioms.eqb_spec, negb_false_iff. unfold SFeqb. split.
  - intros H Hn. rewrite Hn in H. discriminate.
  - intros Hn. rewrite (SFcompare_key _ _ Hn Hn), lex_refl. reflexivity.
Qed.

(** The comparisons of two numbers, read on their ranks. *)
Lemma ltb_rank a b :
  is_nan a = false -> is_nan b = false ->
  (a <? b) = true <-> lexlt (rank a) (rank b).
Proof.
  intros Ha%is_nan_Prim2SF Hb%is_nan_Prim2SF.
  rewrite FloatAxioms.ltb_spec. unfold SFltb, rank. rewrite (SFcompare_key _ _ Ha Hb).
  pose proof (lex_spec (key (Prim2SF a)) (key (Prim2SF b))) as H.
  destruct (key (Prim2SF a)) as [[a1 a2] a3], (key (Prim2SF b)) as [[b1 b2] b3].
  destruct (lex (a1, a2, a3) (b1, b2, b3)); cbn [lexlt] in *; split; intros H';
    try reflexivity; try discriminate; try exact H.
  - inversion H; subst. lia.
  - lia.
Qed.

Lemma leb_rank a b :
  is_nan a = false -> is_nan b = false ->
  (a <=? b) = true <-> ~ lexlt (rank b) (rank a).
Proof.
  intros Ha%is_nan_Prim2SF Hb%is_nan_Prim2SF.
  rewrite FloatAxioms.leb_spec. unfold SFleb, rank. rewrite (SFcompare_key _ _ Ha Hb).
  pose proof (lex_spec (key (Prim2SF a)) (key (Prim2SF b))) as H.
  destruct (key (Prim2SF a)) as [[a1 a2] a3], (key (Prim2SF b)) as [[b1 b2] b3].
  destruct (lex (a1, a2, a3) (b1, b2, b3)); cbn [lexlt] in *; split; intros H';
    try reflexivity; try discriminate.
  - inversion H; subst. lia.
  - lia.
  - exfalso. apply H'. exact H.
Qed.

Lemma eqb_rank a b :
  (a =? b) = true <-> is_nan a = false /\ is_nan b = false /\ rank a = rank b.
Proof.
  rewrite FloatAxioms.eqb_spec, !is_nan_Prim2SF. unfold SFeqb, rank. split.
  - intros H.
    assert (Ha : Prim2SF a <> S754_nan) by (intros Hn; rewrite Hn in H; discriminate).
    assert (Hb : Prim2SF b <> S754_nan)
      by (intros Hn; rewrite Hn in H; destruct (Prim2SF a); discriminate).
    rewrite (SFcompare_key _ _ Ha Hb) in H.
    pose proof (lex_spec (key (Prim2SF a)) (key (Prim2SF b))) as Hl.
    destruct (lex _ _); try discriminate. auto.
  - intros (Ha & Hb & Hr). rewrite (SFcompare_key _ _ Ha Hb), Hr, lex_refl. reflexivity.
Qed.

(** [b - a < 0] tells that [b] is below [a]: the comparator of the
    engines orders two scores as [<] does, unless one is NaN. *)
Lemma sub_ltb_zero a b :
  is_nan a = false -> is_nan b = false -> (b - a <? 0) = (b <? a).
Proof.
  intros Ha%is_nan_Prim2SF Hb%is_nan_Prim2SF.
  rewrite !FloatAxioms.ltb_spec, FloatAxioms.sub_spec.
  change (Prim2SF 0) with (S754_zero false).
  apply SFsub_ltb; auto using FloatAxioms.Prim2SF_valid.
Qed.

Lemma float_mul_comm a b : a * b = b * a.
Proof. apply FloatAxioms.Prim2SF_inj. rewrite !FloatAxioms.mul_spec. apply SFmul_comm. Qed.

Lemma is_finite_Prim2SF a : is_finite a = true -> finite_or_zero (Prim2SF a).
Proof.
  unfold is_finite, is_infinity. rewrite negb_true_iff, orb_false_iff.
  intros [Hn Hi]. apply is_nan_Prim2SF in Hn.
  rewrite FloatAxioms.eqb_spec, FloatAxioms.abs_spec in Hi.
  change (Prim2SF infinity) with (S754_infinity false) in Hi.
  destruct (Prim2SF a); simpl; auto; discriminate.
Qed.

(** A quotient of finite numbers is a number when the divisor is not
    zero. *)
Lemma div_not_nan a b :
  is_finite a = true -> is_finite b = true -> (b =? 0) = false ->
  is_nan (a / b) = false.
Proof.
  intros Ha%is_finite_Prim2SF Hb%is_finite_Prim2SF Hz.
  apply is_nan_Prim2SF. rewrite FloatAxioms.div_spec. apply SFdiv_not_nan; [exact Ha|].
  rewrite FloatAxioms.eqb_spec in Hz. change (Prim2SF 0) with (S754_zero false) in Hz.
  destruct (Prim2SF b) as [s|s| |s m e]; try contradiction; [discriminate|eauto].
Qed.

End Doubles.

(** ** Sorting and slicing *)

Section SortByScore.
Import Types Spec.

Lemma sortInsert_Forall (P : SearchResult -> Prop) x l :
  P x -> Forall P l -> Forall P (JS.sortInsert byScoreDesc x l).
Proof.
  intros Hx Hl. induction Hl as [|y l Hy Hl IH]; simpl.
  - by constructor.
  - destruct (Rlt_dec _ _); repeat constructor; auto.
Qed.

Lemma sortInsert_sorted x l :
  sortedByScore l -> sortedByScore (JS.sortInsert byScoreDesc x l).
Proof.
  unfold sortedByScore.
  induction 1 as [|y l Hl IH Hy]; simpl.
  - repeat constructor.
  - destruct (Rlt_dec (byScoreDesc y x) 0) as [Hlt|Hge]; unfold byScoreDesc in *.
    + constructor; [exact IH|].
      apply sortInsert_Forall; [unfold descending; lra | exact Hy].
    + constructor; [by constructor|].
      constructor; [unfold descending; lra|].
      eapply Forall_impl; [exact Hy|].
      unfold descending. intros z Hz. lra.
Qed.

Lemma sort_sorted l : sortedByScore (JS.sort byScoreDesc l).
Proof.
  induction l as [|x l IH]; simpl.
  - constructor.
  - by apply sortInsert_sorted.
Qed.

Lemma sortInsert_Permutation x l : JS.sortInsert byScoreDesc x l ≡ₚ x :: l.
Proof.
  induction l as [|y l IH]; simpl; [done|].
  destruct (Rlt_dec _ _); [|done].
  rewrite IH. apply Permutation_swap.
Qed.

Lemma sort_Permutation l : JS.sort byScoreDesc l ≡ₚ l.
Proof.
  induction l as [|x l IH]; simpl; [done|].
  by rewrite sortInsert_Permutation, IH.
Qed.

Lemma length_sort l : length (JS.sort byScoreDesc l) = length l.
Proof. by rewrite sort_Permutation. Qed.

(** Stability: the results of any one score keep their relative order. *)
Lemma sortInsert_stable (s : R) x l :
  withScore s (JS.sortInsert byScoreDesc x l) = withScore s (x :: l).
Proof.
  unfold withScore.
  induction l as [|y l IH]; simpl; [done|].
  destruct (Rlt_dec (byScoreDesc y x) 0) as [Hlt|Hge]; [|done].
  unfold byScoreDesc in Hlt.
  rewrite (filter_cons _ y), IH, !filter_cons.
  repeat case_decide; try done; lra.
Qed.

Lemma sort_stable (s : R) l : withScore s (JS.sort byScoreDesc l) = withScore s l.
Proof.
  induction l as [|x l IH]; simpl; [done|].
  rewrite sortInsert_stable. unfold withScore in *. by rewrite !filter_cons, IH.
Qed.

End SortByScore.

Section Slice.
Import Spec.
Context {A : Type}.

Lemma slice_take (l : list A) (stop : Z) :
  JS.slice l 0 stop = take (sliceCount (length l) stop) l.
Proof.
  unfold JS.slice, sliceCount. simpl.
  replace (Z.min 0 (Z.of_nat (length l))) with 0%Z by lia.
  simpl. by rewrite Z.sub_0_r.
Qed.

Lemma sliceCount_le len stop : (sliceCount len stop <= len)%nat.
Proof. unfold sliceCount. destruct (Z.ltb_spec stop 0); lia. Qed.

Lemma length_slice (l : list A) (stop : Z) :
  length (JS.slice l 0 stop) = sliceCount (length l) stop.
Proof.
  rewrite slice_take, length_take. pose proof (sliceCount_le (length l) stop). lia.
Qed.

Lemma sliceCount_nonneg len stop :
  (0 <= stop)%Z -> sliceCount len stop = Nat.min (Z.to_nat stop) len.
Proof. unfold sliceCount. intros H. destruct (Z.ltb_spec stop 0); lia. Qed.

Lemma sliceCount_neg len stop :
  (stop < 0)%Z -> sliceCount len stop = (len - Z.to_nat (- stop))%nat.
Proof. unfold sliceCount. intros H. destruct (Z.ltb_spec stop 0); lia. Qed.

Lemma slice_prefix (l : list A) (stop : Z) : JS.slice l 0 stop `prefix_of` l.
Proof. rewrite slice_take. apply prefix_take. Qed.

Lemma slice_sorted (R : A -> A -> Prop) (l : list A) (stop : Z) :
  StronglySorted R l -> StronglySorted R (JS.slice l 0 stop).
Proof.
  rewrite slice_take. generalize (sliceCount (length l) stop) as n.
  intros n H. revert n. induction H as [|x l Hl IH Hx]; intros [|n]; simpl;
    try constructor; auto.
  apply Forall_take. exact Hx.
Qed.

Lemma filter_prefix (P : A -> Prop) `{!forall x, Decision (P x)} (l1 l2 : list A) :
  l1 `prefix_of` l2 -> filter P l1 `prefix_of` filter P l2.
Proof. intros [k ->]. rewrite filter_app. by apply prefix_app_r. Qed.

End Slice.

(** ** Sorting scores in double precision *)

Section SortDoubles.
Import Float64 Spec64.
Local Open Scope float_scope.

Lemma is_nan_true a : is_nan a = true -> Prim2SF a = S754_nan.
Proof.
  intros H. destruct (Prim2SF a) eqn:Ha; try reflexivity;
    assert (Hn : is_nan a = false) by (apply is_nan_Prim2SF; rewrite Ha; discriminate);
    congruence.
Qed.

(** The comparator places [b] before [a] only when both scores are
    numbers and [b] is the smaller one. *)
Lemma sub_ltb_zero_true a b :
  (b - a <? 0) = true -> is_nan a = false /\ is_nan b = false /\ (b <? a) = true.
Proof.
  intros H.
  destruct (is_nan a) eqn:Ha.
  { apply is_nan_true in Ha. rewrite FloatAxioms.ltb_spec, FloatAxioms.sub_spec, Ha in H.
    destruct (Prim2SF b); discriminate. }
  destruct (is_nan b) eqn:Hb.
  { apply is_nan_true in Hb. rewrite FloatAxioms.ltb_spec, FloatAxioms.sub_spec, Hb in H. discriminate. }
  by rewrite <- (sub_ltb_zero a b Ha Hb).
Qed.

Lemma leb_of_ltb a b :
  is_nan a = false -> is_nan b = false -> (a <? b) = true -> (a <=? b) = true.
Proof.
  intros Ha Hb H. apply (ltb_rank a b Ha Hb) in H. apply (leb_rank a b Ha Hb).
  destruct (rank a) as [[a1 a2] a3], (rank b) as [[b1 b2] b3]. cbn [lexlt] in *. lia.
Qed.

Lemma leb_of_not_ltb a b :
  is_nan a = false -> is_nan b = false -> (a <? b) = false -> (b <=? a) = true.
Proof.
  intros Ha Hb H. apply (leb_rank b a Hb Ha). intros Hlt.
  apply (ltb_rank a b Ha Hb) in Hlt. congruence.
Qed.

Lemma leb_trans a b c :
  is_nan a = false -> is_nan b = false -> is_nan c = false ->
  (a <=? b) = true -> (b <=? c) = true -> (a <=? c) = true.
Proof.
  intros Ha Hb Hc H1 H2.
  apply (leb_rank a b Ha Hb) in H1. apply (leb_rank b c Hb Hc) in H2.
  apply (leb_rank a c Ha Hc).
  destruct (rank a) as [[a1 a2] a3], (rank b) as [[b1 b2] b3], (rank c) as [[c1 c2] c3].
  cbn [lexlt] in *. lia.
Qed.

(** Two scores that are equal to a third one are not ordered by [<]. *)
Lemma ltb_eqb_absurd a b s :
  (a <? b) = true -> (a =? s) = true -> (b =? s) = true -> False.
Proof.
  intros Hlt Has Hbs.
  apply eqb_rank in Has as (Ha & _ & Hra). apply eqb_rank in Hbs as (Hb & _ & Hrb).
  apply (ltb_rank a b Ha Hb) in Hlt. rewrite Hra, Hrb in Hlt.
  destruct (rank s) as [[s1 s2] s3]. cbn [lexlt] in Hlt. lia.
Qed.

Lemma sortInsert64_Forall (P : SearchResult -> Prop) x l :
  P x -> Forall P l -> Forall P (sortInsert byScoreDesc x l).
Proof.
  intros Hx Hl. induction Hl as [|y l Hy Hl IH]; simpl.
  - by constructor.
  - destruct (byScoreDesc y x <? 0); repeat constructor; auto.
Qed.

Lemma sort64_Forall (P : SearchResult -> Prop) l :
  Forall P l -> Forall P (sort byScoreDesc l).
Proof.
  induction 1 as [|x l Hx Hl IH]; simpl; [constructor|].
  by apply sortInsert64_Forall.
Qed.

Lemma sortInsert64_sorted x l :
  is_nan (score x) = false -> numbers l ->
  sortedByScore l -> sortedByScore (sortInsert byScoreDesc x l).
Proof.
  unfold sortedByScore, numbers. intros Hx Hl Hs.
  induction Hs as [|y l Hs IH Hy]; simpl.
  - repeat constructor.
  - inversion Hl as [|? ? Hny Hnl]; subst.
    destruct (byScoreDesc y x <? 0) eqn:Hcmp; unfold byScoreDesc in Hcmp.
    + apply sub_ltb_zero_true in Hcmp as (_ & _ & Hlt).
      constructor; [by apply IH|].
      apply sortInsert64_Forall; [|exact Hy].
      unfold descending. by apply leb_of_ltb.
    + rewrite (sub_ltb_zero _ _ Hny Hx) in Hcmp.
      assert (Hyx : (score y <=? score x) = true) by (by apply leb_of_not_ltb).
      constructor; [by constructor|].
      constructor; [exact Hyx|].
      rewrite Forall_forall in Hy, Hnl. apply Forall_forall. intros z Hz.
      unfold descending in *. eapply (leb_trans _ (score y)); eauto.
Qed.

Lemma sort64_sorted l : numbers l -> sortedByScore (sort byScoreDesc l).
Proof.
  unfold numbers. induction 1 as [|x l Hx Hl IH]; simpl.
  - constructor.
  - apply sortInsert64_sorted; [done| |done]. by apply sort64_Forall.
Qed.

(** Stability: the results of any one score keep their relative order. *)
Lemma sortInsert64_stable (s : number) x l :
  withScore s (sortInsert byScoreDesc x l) = withScore s (x :: l).
Proof.
  unfold withScore.
  induction l as [|y l IH]; simpl; [done|].
  destruct (byScoreDesc y x <? 0) eqn:Hcmp; [|done].
  unfold byScoreDesc in Hcmp. apply sub_ltb_zero_true in Hcmp as (_ & _ & Hlt).
  rewrite (filter_cons _ y), IH, !filter_cons.
  repeat case_decide; try done.
  exfalso. eapply ltb_eqb_absurd; eauto.
Qed.

Lemma sort64_stable (s : number) l :
  withScore s (sort byScoreDesc l) = withScore s l.
Proof.
  induction l as [|x l IH]; simpl; [done|].
  rewrite sortInsert64_stable. unfold withScore in *. by rewrite !filter_cons, IH.
Qed.

(** The tail of [search] of the BM25 and the embedding engine. *)
Lemma ranked64_sorted_stable corpus topK :
  numbers corpus ->
  sortedByScore (JS.slice (sort byScoreDesc corpus) 0 topK)
  /\ stableWrt corpus (JS.slice (sort byScoreDesc corpus) 0 topK).
Proof.
  intros Hn. split.
  - by apply slice_sorted, sort64_sorted.
  - intros s. rewrite <- (sort64_stable s corpus).
    apply filter_prefix, slice_prefix.
Qed.

End SortDoubles.

(** ** What every engine does with the scored corpus *)

Section Ranking.
Import Types Spec.

Lemma ranked_sorted corpus topK : sortedByScore (ranked corpus topK).
Proof. apply slice_sorted, sort_sorted. Qed.

Lemma ranked_stable corpus topK : stableWrt corpus (ranked corpus topK).
Proof.
  intros s. rewrite <- (sort_stable s corpus).
  apply filter_prefix, slice_prefix.
Qed.

Lemma length_ranked corpus topK :
  length (ranked corpus topK) = sliceCount (length corpus) topK.
Proof. unfold ranked. by rewrite length_slice, length_sort. Qed.

Lemma sliceCount_mono n m topK :
  (n <= m)%nat -> (sliceCount n topK <= sliceCount m topK)%nat.
Proof. unfold sliceCount. intros H. destruct (Z.ltb_spec topK 0); lia. Qed.

Lemma sliceCount_bound n topK :
  (0 <= topK)%Z -> (Z.of_nat (sliceCount n topK) <= Z.min topK (Z.of_nat n))%Z.
Proof. intros H. rewrite sliceCount_nonneg by done. lia. Qed.

Lemma constant_sorted (l : list SearchResult) :
  Forall (fun r => score r = 0) l -> sortedByScore l.
Proof.
  unfold sortedByScore.
  induction 1 as [|x l Hx Hl IH]; constructor; [done|].
  eapply Forall_impl; [exact Hl|]. unfold descending. simpl. intros y Hy. lra.
Qed.

Lemma withScore_filter_positive s (l : list SearchResult) :
  withScore s (filter (fun r => 0 < score r) l) `prefix_of` withScore s l.
Proof.
  unfold withScore.
  induction l as [|x l IH]; [done|].
  rewrite (filter_cons (fun r => 0 < score r)).
  case_decide as Hpos.
  - rewrite !filter_cons. case_decide; [by apply prefix_cons|done].
  - rewrite (filter_cons _ x). case_decide as Hs; [|done].
    assert (Hs' : s <= 0) by lra.
    replace (filter (fun r => score r = s) (filter (fun r => 0 < score r) l))
      with (@nil SearchResult); [apply prefix_nil|].
    symmetry. clear -Hs'. induction l as [|y l IH]; [done|].
    rewrite (filter_cons (fun r => 0 < score r)). case_decide; [|done].
    rewrite filter_cons. case_decide; [lra|done].
Qed.

Lemma filter_positive_nil (l : list SearchResult) :
  Forall (fun r => 0 <= score r) l ->
  filter (fun r => 0 < score r) l = [] ->
  Forall (fun r => score r = 0) l.
Proof.
  induction 1 as [|x l Hx Hl IH]; [constructor|].
  rewrite filter_cons. case_decide as Hpos; [done|].
  intros Hnil. constructor; [lra|auto].
Qed.

Lemma filter_positive_zero (l : list SearchResult) :
  Forall (fun r => score r = 0) l -> filter (fun r => 0 < score r) l = [].
Proof.
  induction 1 as [|x l Hx Hl IH]; [done|].
  rewrite filter_cons. case_decide; [lra|done].
Qed.

End Ranking.

(** ** The regex engine *)

Section RegexFacts.
Import Types Spec.

Lemma regex_score_nonneg doc query : 0 <= Regex.calculateScore doc query.
Proof.
  unfold Regex.calculateScore.
  apply Rmult_le_pos; [apply pos_INR|].
  apply Rlt_le, Rinv_0_lt_compat, lt_0_INR. lia.
Qed.

Lemma regex_scored_nonneg self query :
  Forall (fun r => 0 <= score r) (Regex.scored self query).
Proof.
  unfold Regex.scored. apply Forall_map, Forall_forall. intros doc _.
  apply regex_score_nonneg.
Qed.

(** The normalised score is zero exactly when the accumulated score is. *)
Lemma regex_score_zero doc query :
  Regex.calculateScore doc query = 0 <-> Regex.rawScore doc query = 0%nat.
Proof.
  unfold Regex.calculateScore.
  assert (Hpos : 0 < INR (Nat.max (length (Regex.queryWords query)) 1))
    by (apply lt_0_INR; lia).
  split.
  - intros H. apply INR_eq. simpl.
    apply (Rmult_eq_compat_r (INR (Nat.max (length (Regex.queryWords query)) 1))) in H.
    unfold Rdiv in H. rewrite Rmult_assoc, Rinv_l, Rmult_1_r, Rmult_0_l in H by lra.
    exact H.
  - intros ->. simpl. unfold Rdiv. apply Rmult_0_l.
Qed.

(** The two branches of [search]. *)
Lemma regex_search_cases self query topK :
  Regex.initialized self = true ->
  let corpus := Regex.scored self query in
  (Forall (fun r => score r = 0) corpus
   /\ Regex.search self query topK = JS.Ok (JS.slice corpus 0 topK))
  \/ (filter (fun r => 0 < score r) corpus <> []
      /\ Regex.search self query topK
         = JS.Ok (ranked (filter (fun r => 0 < score r) corpus) topK)).
Proof.
  intros Hinit corpus. unfold Regex.search. rewrite Hinit. fold corpus.
  rewrite length_sort.
  destruct (filter (fun r => 0 < score r) corpus) as [|r rs] eqn:Hf; simpl.
  - left. split; [|done].
    apply filter_positive_nil; [apply regex_scored_nonneg|done].
  - right. by split.
Qed.

End RegexFacts.

(** ** Every engine: order and length of the results *)

Section EngineResults.
Import Types Spec Service.

Lemma mapM_length {A B : Type} (f : A -> JS.result B) l ys :
  JS.mapM f l = JS.Ok ys -> length ys = length l.
Proof.
  revert ys. induction l as [|x l IH]; simpl; intros ys H.
  - by inversion H.
  - destruct (f x) as [y|e]; simpl in H; [|done].
    destruct (JS.mapM f l) as [ys'|e]; simpl in H; [|done].
    inversion H; subst. simpl. f_equal. by apply IH.
Qed.

(** What [search] returns, engine by engine, once the engine is ready:
    the error of the scoring if there is one, and otherwise a list
    that is sorted, stable with respect to the scored corpus and no
    longer than what [slice] keeps of the corpus. *)
Lemma engineSearch_spec ollama engine query topK :
  engineIsReady engine = true ->
  match engineScored ollama engine query with
  | JS.Ok corpus =>
      exists results,
        engineSearch ollama engine query topK = JS.Ok results
        /\ sortedByScore results
        /\ stableWrt corpus results
        /\ (length results <= sliceCount (length corpus) topK)%nat
        /\ length corpus = engineCorpusSize engine
  | JS.Err e => engineSearch ollama engine query topK = JS.Err e
  end.
Proof.
  destruct engine as [e|e|e]; simpl; intros Hready.
  - unfold BM25.search. unfold BM25.isReady in Hready. rewrite Hready.
    eexists. split; [reflexivity|]. fold (ranked (BM25.scored e query) topK).
    split; [apply ranked_sorted|]. split; [apply ranked_stable|].
    rewrite length_ranked. split; [lia|].
    unfold BM25.scored. by rewrite length_map.
  - unfold Embedding.search. unfold Embedding.isReady in Hready. rewrite Hready.
    destruct (Embedding.scored ollama e query) as [corpus|err] eqn:Hs; simpl; [|done].
    eexists. split; [reflexivity|]. fold (ranked corpus topK).
    split; [apply ranked_sorted|]. split; [apply ranked_stable|].
    rewrite length_ranked. split; [lia|].
    unfold Embedding.scored in Hs.
    destruct (Embedding.generateEmbedding ollama e query); simpl in Hs; [|done].
    by apply mapM_length in Hs.
  - unfold Regex.isReady in Hready.
    destruct (regex_search_cases e query topK Hready) as [[Hzero ->]|[Hne ->]].
    + eexists. split; [reflexivity|].
      split; [apply slice_sorted, constant_sorted, Hzero|].
      split; [intros s; apply filter_prefix, slice_prefix|].
      rewrite length_slice. split; [lia|].
      unfold Regex.scored. by rewrite length_map.
    + eexists. split; [reflexivity|].
      split; [apply ranked_sorted|].
      split.
      * intros s. etrans; [apply ranked_stable|]. apply withScore_filter_positive.
      * rewrite length_ranked. split.
        -- apply sliceCount_mono, length_filter.
        -- unfold Regex.scored. by rewrite length_map.
Qed.

(** C2, as amended.  For each of the three engines, once it is ready,
    for every query and every [topK]: when no score of the corpus is
    NaN, [search] returns a list that is sorted by score in
    non-increasing order, in which the results of equal score appear in
    the order of the corpus.  The BM25 and the embedding engine are
    read in double precision; the scores of the regex engine are
    quotients of two counts, which are never NaN.  When the scoring of
    the embedding engine fails, [search] fails with the same error. *)
Theorem search_sorted_and_stable :
  (forall (self : BM25Float.BM25SearchEngine) query topK,
     BM25Float.initialized self = true ->
     Spec64.numbers (BM25Float.scored self query) ->
     exists results,
       BM25Float.search self query topK = JS.Ok results
       /\ Spec64.sortedByScore results
       /\ Spec64.stableWrt (BM25Float.scored self query) results)
  /\ (forall ollama (self : EmbeddingFloat.EmbeddingSearchEngine) query topK,
        EmbeddingFloat.initialized self = true ->
        match EmbeddingFloat.scored ollama self query with
        | JS.Ok corpus =>
            Spec64.numbers corpus ->
            exists results,
              EmbeddingFloat.search ollama self query topK = JS.Ok results
              /\ Spec64.sortedByScore results
              /\ Spec64.stableWrt corpus results
        | JS.Err e => EmbeddingFloat.search ollama self query topK = JS.Err e
        end)
  /\ (forall (self : Regex.RegexSearchEngine) query topK,
        Regex.initialized self = true ->
        exists results,
          Regex.search self query topK = JS.Ok results
          /\ sortedByScore results
          /\ stableWrt (Regex.scored self query) results).
Proof.
  split; [|split].
  - intros self query topK Hinit Hn. unfold BM25Float.search. rewrite Hinit.
    eexists. split; [reflexivity|]. by apply ranked64_sorted_stable.
  - intros ollama self query topK Hinit. unfold EmbeddingFloat.search. rewrite Hinit.
    destruct (EmbeddingFloat.scored ollama self query) as [corpus|e]; simpl; [|done].
    intros Hn. eexists. split; [reflexivity|]. by apply ranked64_sorted_stable.
  - intros self query topK Hinit.
    pose proof (engineSearch_spec (fun _ _ => None) (RegexEngine self) query topK Hinit) as H.
    simpl in H. destruct H as (results & ? & ? & ? & _). eauto.
Qed.

(** C3.  For every engine that is ready, every query and every [topK]
    that is not negative ([topK] is the maximum number of results to
    return), the list that [search] returns has at most
    [min(topK, corpus size)] elements. *)
Theorem search_length_bound ollama engine query topK results :
  engineIsReady engine = true ->
  (0 <= topK)%Z ->
  engineSearch ollama engine query topK = JS.Ok results ->
  (Z.of_nat (length results) <= Z.min topK (Z.of_nat (engineCorpusSize engine)))%Z.
Proof.
  intros Hready Hk Hs.
  pose proof (engineSearch_spec ollama engine query topK Hready) as H.
  destruct (engineScored ollama engine query) as [corpus|e]; [|congruence].
  destruct H as (results' & Hs' & _ & _ & Hlen & Hsize).
  assert (results' = results) as -> by congruence.
  rewrite <- Hsize.
  pose proof (sliceCount_bound (length corpus) topK Hk). lia.
Qed.

End EngineResults.

(** ** The BM25 engine *)

Section BM25Facts.
Import Types Spec.

Lemma foldl_sum {A : Type} (g : A -> R) (l : list A) (a : R) :
  foldl (fun acc x => acc + g x) a l = a + sumR (map g l).
Proof.
  revert a. induction l as [|x l IH]; intros a; simpl; [lra|].
  rewrite IH. lra.
Qed.

(** *** Term frequencies *)

Lemma termFrequencies_foldl tokens (m : gmap string nat) term :
  default 0%nat
    (foldl (fun frequencies token =>
              <[token := (default 0 (frequencies !! token) + 1)%nat]> frequencies)
           m tokens !! term)
  = (default 0 (m !! term) + length (filter (fun t => t = term) tokens))%nat.
Proof.
  revert m. induction tokens as [|t tokens IH]; intros m; simpl; [lia|].
  rewrite IH, lookup_insert, filter_cons.
  repeat case_decide; subst; simpl; try done; lia.
Qed.

Lemma termFrequencies_count tokens term :
  default 0%nat (BM25.calculateTermFrequencies tokens !! term)
  = length (filter (fun t => t = term) tokens).
Proof.
  unfold BM25.calculateTermFrequencies. rewrite termFrequencies_foldl.
  by rewrite lookup_empty.
Qed.

Lemma indexed_tf doc term :
  indexed doc -> default 0%nat (BM25.termFrequencies doc !! term) = tf doc term.
Proof. intros [-> _]. apply termFrequencies_count. Qed.

Lemma tf_zero doc term : tf doc term = 0%nat <-> term ∉ BM25.tokens doc.
Proof.
  unfold tf. rewrite length_zero_iff_nil. split.
  - intros Hnil Hin.
    assert (H : term ∈ filter (fun t => t = term) (BM25.tokens doc))
      by (by apply list_elem_of_filter).
    rewrite Hnil in H. by apply not_elem_of_nil in H.
  - intros Hnot. induction (BM25.tokens doc) as [|t l IH]; [done|].
    apply not_elem_of_cons in Hnot as [Hne Hnot].
    rewrite filter_cons. case_decide; [congruence|auto].
Qed.

(** *** Document counts *)

Lemma setAdd_foldl_elem (l set : list string) x :
  x ∈ foldl BM25.setAdd set l <-> x ∈ set \/ x ∈ l.
Proof.
  revert set. induction l as [|y l IH]; intros set; simpl.
  - rewrite elem_of_nil. tauto.
  - rewrite IH, elem_of_cons. unfold BM25.setAdd.
    case_decide as Hy; [|rewrite elem_of_app, list_elem_of_singleton].
    + split; [tauto|]. intros [H|[->|H]]; auto.
    + tauto.
Qed.

Lemma setAdd_foldl_NoDup (l set : list string) :
  NoDup set -> NoDup (foldl BM25.setAdd set l).
Proof.
  revert set. induction l as [|y l IH]; intros set Hset; simpl; [done|].
  apply IH. unfold BM25.setAdd. case_decide; [done|].
  apply NoDup_app. split_and!; [done| |apply NoDup_singleton].
  intros z Hz Hz'. apply list_elem_of_singleton in Hz'. by subst.
Qed.

Lemma uniqueTerms_elem tokens x : x ∈ BM25.uniqueTerms tokens <-> x ∈ tokens.
Proof.
  unfold BM25.uniqueTerms. rewrite setAdd_foldl_elem, elem_of_nil. tauto.
Qed.

Lemma uniqueTerms_NoDup tokens : NoDup (BM25.uniqueTerms tokens).
Proof. apply setAdd_foldl_NoDup, NoDup_nil_2. Qed.

Lemma increments_lookup (l : list string) (m : gmap string nat) term :
  NoDup l ->
  foldl (fun counts t => <[t := (default 0 (counts !! t) + 1)%nat]> counts) m l !! term
  = if decide (term ∈ l) then Some (default 0 (m !! term) + 1)%nat else m !! term.
Proof.
  intros Hnd. revert m. induction Hnd as [|x l Hx Hnd IH]; intros m; simpl.
  - destruct (decide (term ∈ [])) as [H|_]; [by apply elem_of_nil in H|done].
  - rewrite IH, lookup_insert.
    destruct (decide (x = term)) as [->|Hne].
    + rewrite (decide_False (P := term ∈ l)) by done.
      by rewrite decide_True by left.
    + destruct (decide (term ∈ l)) as [Hl|Hl].
      * by rewrite decide_True by (by right).
      * rewrite decide_False; [done|].
        rewrite elem_of_cons. intros [?|?]; congruence.
Qed.

Lemma countDocument_lookup (m : gmap string nat) doc term :
  BM25.countDocument m doc !! term
  = if decide (term ∈ BM25.tokens doc)
    then Some (default 0 (m !! term) + 1)%nat else m !! term.
Proof.
  unfold BM25.countDocument.
  rewrite increments_lookup by apply uniqueTerms_NoDup.
  repeat case_decide; try done; rewrite uniqueTerms_elem in *; done.
Qed.

Lemma termDocCounts_foldl docs (m : gmap string nat) term :
  foldl BM25.countDocument m docs !! term
  = if decide (df docs term = 0%nat) then m !! term
    else Some (default 0 (m !! term) + df docs term)%nat.
Proof.
  unfold df. revert m. induction docs as [|doc docs IH]; intros m; simpl; [done|].
  rewrite IH, countDocument_lookup, filter_cons.
  repeat case_decide; simpl in *; try done; try lia; f_equal; lia.
Qed.

Lemma termDocCounts_lookup docs term :
  BM25.termDocCounts docs !! term
  = if decide (df docs term = 0%nat) then None else Some (df docs term).
Proof.
  unfold BM25.termDocCounts. rewrite termDocCounts_foldl, lookup_empty.
  by case_decide.
Qed.

(** *** Inverse document frequencies *)

Lemma calculateIDF_lookup docs idf0 term :
  BM25.calculateIDF docs idf0 !! term
  = match BM25.termDocCounts docs !! term with
    | Some docFreq => Some (BM25.idfValue (length docs) docFreq)
    | None => idf0 !! term
    end.
Proof.
  unfold BM25.calculateIDF. revert term.
  apply (map_fold_weak_ind
           (fun acc counts => forall term,
                acc !! term = match counts !! term with
                              | Some docFreq => Some (BM25.idfValue (length docs) docFreq)
                              | None => idf0 !! term
                              end)).
  - intros term. by rewrite lookup_empty.
  - intros i x m r Hi IH term. rewrite !lookup_insert.
    case_decide; [done|apply IH].
Qed.

Lemma df_le docs term : (df docs term <= length docs)%nat.
Proof. unfold df. apply length_filter. Qed.

Lemma df_pos docs doc term :
  doc ∈ docs -> term ∈ BM25.tokens doc -> (0 < df docs term)%nat.
Proof.
  intros Hdoc Hterm. unfold df.
  assert (H : doc ∈ filter (fun d => term ∈ BM25.tokens d) docs)
    by (by apply list_elem_of_filter).
  destruct (filter _ docs); [by apply elem_of_nil in H|simpl; lia].
Qed.

(** The stored value for a term of the corpus is the value of the
    specification. *)
Lemma idf_stored docs idf0 doc term :
  doc ∈ docs -> term ∈ BM25.tokens doc ->
  default 0 (BM25.calculateIDF docs idf0 !! term) = Spec.idf docs term.
Proof.
  intros Hdoc Hterm. pose proof (df_pos docs doc term Hdoc Hterm).
  rewrite calculateIDF_lookup, termDocCounts_lookup.
  case_decide; [lia|]. done.
Qed.

End BM25Facts.

Section BM25Score.
Import Types Spec.

Lemma indexDocument_indexed tool : indexed (BM25.indexDocument tool).
Proof. by split. Qed.

Lemma initialize_indexed self tools config :
  Forall indexed (BM25.documents (BM25.initialize self tools config)).
Proof.
  simpl. apply Forall_map, Forall_forall. intros tool _.
  apply indexDocument_indexed.
Qed.

Lemma totalLength_foldl docs (n : nat) :
  INR (foldl (fun sum doc => (sum + BM25.docLength doc)%nat) n docs)
  = INR n + sumR (map (fun doc => INR (BM25.docLength doc)) docs).
Proof.
  revert n. induction docs as [|doc docs IH]; intros n; simpl; [lra|].
  rewrite IH, plus_INR. lra.
Qed.

Lemma totalLength_sum docs :
  Forall indexed docs ->
  INR (BM25.totalLength docs) = sumR (map (fun doc => INR (docLen doc)) docs).
Proof.
  intros Hdocs. unfold BM25.totalLength. rewrite totalLength_foldl. simpl.
  rewrite Rplus_0_l. f_equal.
  induction Hdocs as [|doc docs [_ Hlen] _ IH]; simpl; [done|].
  unfold docLen at 1. by rewrite Hlen, IH.
Qed.

(** The stored average is the average of the specification as soon as
    there is a document. *)
Lemma initialize_avgDocLength self tools config :
  tools <> [] ->
  BM25.avgDocLength (BM25.initialize self tools config)
  = avgDocLen (BM25.documents (BM25.initialize self tools config)).
Proof.
  intros Hne. unfold avgDocLen.
  rewrite <- totalLength_sum by apply initialize_indexed. simpl.
  rewrite length_map. destruct tools; [done|]. simpl length.
  by replace (Nat.max (S (length tools)) 1) with (S (length tools)) by lia.
Qed.




End BM25Score.

Section BM25Invariants.
Import Types Spec.








(** In a freshly initialised engine, a document of the corpus that
    holds a term of the query makes the average length positive: the
    quotient by [avgDocLength] in [calculateScore] is never a quotient
    by zero. *)
Lemma bm25_scoring_divisor_positive self0 tools config doc term :
  let self := BM25.initialize self0 tools config in
  doc ∈ BM25.documents self ->
  default 0%nat (BM25.termFrequencies doc !! term) <> 0%nat ->
  0 < BM25.avgDocLength self.
Proof.
  intros self Hdoc Htf.
  assert (Hidx : indexed doc).
  { pose proof (initialize_indexed self0 tools config) as H.
    rewrite Forall_forall in H. by apply H. }
  rewrite indexed_tf in Htf by done.
  assert (Hlen : (0 < docLen doc)%nat).
  { unfold docLen. unfold tf in Htf.
    pose proof (length_filter (fun t => t = term) (BM25.tokens doc)). lia. }
  assert (Hne : tools <> []).
  { intros ->. simpl in Hdoc. by apply elem_of_nil in Hdoc. }
  replace (BM25.avgDocLength self) with (avgDocLen (BM25.documents self))
    by (symmetry; apply (initialize_avgDocLength self0 tools config Hne)).
  unfold avgDocLen.
  assert (Hsum : INR (docLen doc)
                 <= sumR (map (fun d => INR (docLen d)) (BM25.documents self))).
  { clear -Hdoc. induction (BM25.documents self) as [|d docs IH];
      [by apply elem_of_nil in Hdoc|].
    simpl. assert (Hnn : 0 <= sumR (map (fun d => INR (docLen d)) docs)).
    { clear. induction docs as [|d' docs IH]; simpl; [lra|].
      pose proof (pos_INR (docLen d')). lra. }
    apply elem_of_cons in Hdoc as [->|Hin]; [lra|].
    pose proof (pos_INR (docLen d)). specialize (IH Hin). lra. }
  apply lt_0_INR in Hlen.
  apply Rmult_lt_0_compat; [lra|].
  apply Rinv_0_lt_compat, lt_0_INR.
  destruct (BM25.documents self); [by apply elem_of_nil in Hdoc|simpl; lia].
Qed.

(** C5, as amended.  After [initialize] with an empty list of tools the
    stored average document length is the number 0: the guard makes the
    divisor [max(N, 1) = 1], so the average is 0/1 and not the NaN that
    0/0 is in double precision.  There is no document, and every later
    [search] returns the empty list without scoring anything. *)
Theorem bm25_empty_corpus log self config :
  let self' := BM25Float.initialize log self [] config in
  BM25Float.avgDocLength self' = 0%float
  /\ BM25Float.documents self' = []
  /\ forall query topK, BM25Float.search self' query topK = JS.Ok [].
Proof.
  split; [|split].
  - reflexivity.
  - reflexivity.
  - intros query topK. unfold BM25Float.search. simpl.
    unfold BM25Float.scored. simpl. f_equal. unfold JS.slice. simpl.
    by rewrite take_nil.
Qed.

End BM25Invariants.

(** ** The regex engine: the fallback *)

Section RegexFallback.
Import Types Spec.

(** C4.  For an initialised regex engine, a query for which every
    document scores 0 and a [topK] that is not negative, [search] raises
    no error and returns the first [topK] documents in corpus order (all
    of them when there are fewer); the list is not empty when the corpus
    is not empty and [topK] is at least 1. *)
Theorem regex_no_match_fallback self query topK :
  Regex.initialized self = true ->
  (0 <= topK)%Z ->
  (forall doc, doc ∈ Regex.documents self -> Regex.calculateScore doc query = 0) ->
  let results :=
    map (Regex.toResult query) (take (Z.to_nat topK) (Regex.documents self)) in
  Regex.search self query topK = JS.Ok results
  /\ ((1 <= topK)%Z -> Regex.documents self <> [] -> results <> []).
Proof.
  intros Hinit Hk Hzero results. split.
  - assert (Hall : Forall (fun r => score r = 0) (Regex.scored self query)).
    { unfold Regex.scored. apply Forall_map, Forall_forall. intros doc Hdoc.
      simpl. by apply Hzero. }
    destruct (regex_search_cases self query topK Hinit) as [[_ ->]|[Hne _]].
    + f_equal. rewrite slice_take. unfold Regex.scored, results.
      rewrite length_map, sliceCount_nonneg by done.
      rewrite fmap_take.
      destruct (Nat.min_spec (Z.to_nat topK) (length (Regex.documents self)))
        as [[_ ->]|[Hge ->]]; [done|].
      by rewrite !take_ge by (rewrite ?length_fmap, ?length_map; lia).
    + by rewrite (filter_positive_zero _ Hall) in Hne.
  - intros Hk1 Hne. unfold results.
    destruct (Regex.documents self) as [|doc docs]; [done|].
    replace (Z.to_nat topK) with (S (Z.to_nat topK - 1)) by lia. done.
Qed.

End RegexFallback.

(** ** The embedding engine: cosine similarity *)

Section Cosine.
Import Float64.
Local Open Scope float_scope.

Lemma eqb_zero_Prim2SF x : (x =? 0) = true -> exists s, Prim2SF x = S754_zero s.
Proof.
  rewrite FloatAxioms.eqb_spec. change (Prim2SF 0) with (S754_zero false).
  destruct (Prim2SF x) as [s|[]| |[] m e]; try discriminate. eauto.
Qed.

(** Zero times a finite number is zero. *)
Lemma mul_zero_finite x y :
  (x =? 0) = true -> is_finite y = true ->
  (x * y =? 0) = true /\ (y * x =? 0) = true.
Proof.
  intros [s Hx]%eqb_zero_Prim2SF Hy%is_finite_Prim2SF.
  rewrite !FloatAxioms.eqb_spec, !FloatAxioms.mul_spec, Hx.
  change (Prim2SF 0) with (S754_zero false).
  destruct (Prim2SF y); try contradiction; split; reflexivity.
Qed.

(** C8, as amended.  For vectors of equal length, [cosineSimilarity]
    in double precision returns 0 when the computed product of the two
    norms is zero, and the quotient of the computed dot product by that
    product otherwise.  The product is zero when one computed norm is
    zero and the other is finite.  The value returned is not NaN
    whenever the computed dot product and the computed product of the
    norms are finite. *)
Theorem cosine_similarity_guarded (a b : list number) :
  length a = length b ->
  let dot := EmbeddingFloat.dotProduct a b in
  let normA := PrimFloat.sqrt (EmbeddingFloat.squaredNorm a) in
  let normB := PrimFloat.sqrt (EmbeddingFloat.squaredNorm b) in
  ((normA * normB =? 0) = true -> EmbeddingFloat.cosineSimilarity a b = JS.Ok 0)
  /\ ((normA * normB =? 0) = false ->
      EmbeddingFloat.cosineSimilarity a b = JS.Ok (dot / (normA * normB)))
  /\ ((normA =? 0) = true /\ is_finite normB = true
      \/ (normB =? 0) = true /\ is_finite normA = true ->
      EmbeddingFloat.cosineSimilarity a b = JS.Ok 0)
  /\ (is_finite dot = true -> is_finite (normA * normB) = true ->
      exists s, EmbeddingFloat.cosineSimilarity a b = JS.Ok s /\ is_nan s = false).
Proof.
  intros Hlen dot normA normB.
  unfold EmbeddingFloat.cosineSimilarity, EmbeddingFloat.normProduct.
  rewrite decide_True by done. fold normA normB dot.
  split; [|split; [|split]].
  - by intros ->.
  - by intros ->.
  - intros [[Hz Hf]|[Hz Hf]].
    + by rewrite (proj1 (mul_zero_finite normA normB Hz Hf)).
    + by rewrite (proj2 (mul_zero_finite normB normA Hz Hf)).
  - intros Hdot Hden. destruct (normA * normB =? 0) eqn:Hz.
    + by exists 0.
    + eexists. split; [reflexivity|]. by apply div_not_nan.
Qed.

End Cosine.

(** ** Embedding formats *)

Section FormatFacts.
Import Types Spec Formats.
Local Open Scope string_scope.

Lemma length_append (s t : string) :
  String.length (s ++ t) = (String.length s + String.length t)%nat.
Proof. induction s as [|c s IH]; simpl; [done|]. by rewrite IH. Qed.

Lemma length_mapChars f s : String.length (JS.mapChars f s) = String.length s.
Proof. induction s as [|c s IH]; simpl; [done|]. by rewrite IH. Qed.

Lemma length_join_le sep1 sep2 (l1 l2 : list string) :
  String.length sep1 = String.length sep2 ->
  Forall2 (fun s t => (String.length s <= String.length t)%nat) l1 l2 ->
  (String.length (JS.join sep1 l1) <= String.length (JS.join sep2 l2))%nat.
Proof.
  intros Hsep H. unfold JS.join.
  induction H as [|s t l1 l2 Hst Hl IH]; simpl; [done|].
  destruct Hl as [|s' t' l1 l2 Hst' Hl]; [done|].
  rewrite !length_append, Hsep. lia.
Qed.

Lemma estimate_le tool f g :
  (String.length (formatToolForEmbedding tool f)
   <= String.length (formatToolForEmbedding tool g))%nat ->
  (estimateFormatTokens tool f <= estimateFormatTokens tool g)%nat.
Proof. intros H. unfold estimateFormatTokens. apply Nat.Div0.div_le_mono. lia. Qed.

Lemma minimal_le_standard tool :
  (estimateFormatTokens tool minimal <= estimateFormatTokens tool standard)%nat.
Proof.
  apply estimate_le. simpl. unfold formatMinimal, formatStandard.
  rewrite !length_append. lia.
Qed.

Lemma standard_le_rich tool :
  (estimateFormatTokens tool standard <= estimateFormatTokens tool rich)%nat.
Proof.
  apply estimate_le. simpl. unfold formatStandard, formatRich.
  destruct (String.eqb _ ""); rewrite !length_append; simpl; lia.
Qed.

Lemma verboseParam_object entry :
  snd entry <> SchemaOther ->
  exists text, verboseParam entry = [text]
               /\ (String.length (fst entry) <= String.length text)%nat.
Proof.
  destruct entry as [key [[desc|]|]]; simpl; intros H; [| |done].
  - destruct (String.eqb desc ""); eexists; (split; [done|]);
      rewrite ?length_append; lia.
  - by eexists.
Qed.

Lemma verbose_params_object (props : list (string * SchemaValue)) :
  Forall (fun entry => snd entry <> SchemaOther) props ->
  Forall2 (fun s t => (String.length s <= String.length t)%nat)
          (map fst props) (flat_map verboseParam props).
Proof.
  induction 1 as [|entry props Hentry _ IH]; simpl; [constructor|].
  destruct (verboseParam_object entry Hentry) as (text & -> & Hlen).
  simpl. by constructor.
Qed.

(** When every property of the schema is an object, the verbose text
    is at least as long as the rich one. *)
Lemma rich_le_verbose tool :
  objectSchema tool ->
  (estimateFormatTokens tool rich <= estimateFormatTokens tool verbose)%nat.
Proof.
  intros Hobj. apply estimate_le. simpl. unfold formatRich, formatVerbose, keys.
  pose proof (verbose_params_object _ Hobj) as Hparams.
  pose proof (length_join_le ", " "; " _ _ eq_refl Hparams) as Hjoin.
  destruct (flat_map verboseParam (properties tool)) as [|p ps] eqn:Hv.
  - apply Forall2_nil_inv_r in Hparams. rewrite Hparams. simpl. lia.
  - destruct (String.eqb _ ""); rewrite !length_append; simpl in *; lia.
Qed.

(** The ordering holds along the whole chain for such tools. *)
Lemma format_tokens_monotone tool :
  objectSchema tool ->
  (estimateFormatTokens tool minimal <= estimateFormatTokens tool standard)%nat
  /\ (estimateFormatTokens tool standard <= estimateFormatTokens tool rich)%nat
  /\ (estimateFormatTokens tool rich <= estimateFormatTokens tool verbose)%nat.
Proof.
  intros Hobj.
  split; [apply minimal_le_standard|split; [apply standard_le_rich|]].
  by apply rich_le_verbose.
Qed.

(** C6 fails on the code.  For a tool with a property whose schema value
    is not an object, [formatVerbose] leaves the property out while
    [formatRich] lists it: the verbose text is estimated at 11 tokens,
    the rich one at 16. *)
Theorem verbose_below_rich_on_non_object_schema :
  estimateFormatTokens Examples.booleanSchemaTool rich = 16%nat
  /\ estimateFormatTokens Examples.booleanSchemaTool verbose = 11%nat
  /\ ~ (estimateFormatTokens Examples.booleanSchemaTool rich
        <= estimateFormatTokens Examples.booleanSchemaTool verbose)%nat
  /\ formatToolForEmbedding Examples.booleanSchemaTool rich
     = "read file - read_file: Read a file from disk. Parameters: path"
  /\ formatToolForEmbedding Examples.booleanSchemaTool verbose
     = "read file - read_file: Read a file from disk".
Proof. vm_compute. repeat split; try done. lia. Qed.

End FormatFacts.

(** ** The search service *)

Section ServiceFacts.
Import Types Spec Service.
Local Open Scope string_scope.

Lemma fanOut_tools start self tools config :
  Service.tools (snd (fanOut start self tools config)) = tools.
Proof. done. Qed.

Lemma lexicalService_bm25 :
  mapGet (engines Examples.lexicalService) bm25
  = Some (BM25Engine Examples.bm25Engine).
Proof. reflexivity. Qed.

Lemma bm25_search_length self query topK :
  BM25.initialized self = true ->
  exists results,
    BM25.search self query topK = JS.Ok results
    /\ length results = sliceCount (length (BM25.documents self)) topK.
Proof.
  intros Hinit. unfold BM25.search. rewrite Hinit. eexists. split; [done|].
  fold (ranked (BM25.scored self query) topK).
  rewrite length_ranked. unfold BM25.scored. by rewrite length_map.
Qed.

(** C9.  [search] treats a [topK] of 0 like an absent one: both
    requests are answered as the request with [topK = 5] is.  In the
    service loaded with the three tools of the scenario, the request
    with [topK = 0] is answered with three results, not with none. *)
Theorem zero_topK_means_default ollama self query method :
  Service.search ollama self {| query := query; topK := Some 0%Z; method := method |}
  = Service.search ollama self {| query := query; topK := Some 5%Z; method := method |}
  /\ Service.search ollama self {| query := query; topK := None; method := method |}
     = Service.search ollama self {| query := query; topK := Some 5%Z; method := method |}
  /\ exists response,
       Service.search Examples.unavailable Examples.lexicalService
         {| query := "read a file from disk"; topK := Some 0%Z; method := Some bm25 |}
       = JS.Ok response
       /\ length (results response) = 3%nat.
Proof.
  split; [done|split; [done|]].
  unfold Service.search.
  cbn [Types.method Types.topK Types.query default from_option resolveTopK].
  unfold Datatypes.id.
  rewrite lexicalService_bm25.
  change (engineIsReady (BM25Engine Examples.bm25Engine)) with true.
  cbn [engineSearch Z.eqb].
  destruct (bm25_search_length Examples.bm25Engine "read a file from disk" 5 eq_refl)
    as (results & -> & Hlen).
  cbn [JS.bind]. eexists. split; [reflexivity|]. cbn [Types.results].
  rewrite Hlen. reflexivity.
Qed.

(** C10.  [initialize] and [reload] assign [this.tools] before any
    engine is started: when the returned promise is rejected, the
    service still reports the new list of tools, its count and its
    names. *)
Theorem tools_kept_after_failed_load ollama self tools config (reloading : bool) e :
  let load := if reloading then Service.reload else Service.initialize in
  fst (load ollama self tools config) = JS.Err e ->
  let self' := snd (load ollama self tools config) in
  getAllTools self' = tools
  /\ getToolsCount self' = length tools
  /\ getToolNames self' = map name tools.
Proof.
  intros load _ self'. unfold getAllTools, getToolsCount, getToolNames.
  assert (Htools : Service.tools self' = tools) by (by destruct reloading).
  by rewrite Htools.
Qed.

End ServiceFacts.

(** ** The theorems at concrete inputs *)

Section Instances.
Import Types Spec Service.
Local Open Scope string_scope.


Lemma search_sorted_and_stable_witness :
  (BM25Float.initialized Examples.doubleEngine = true
   /\ Spec64.numbers (BM25Float.scored Examples.doubleEngine "disk")
   /\ exists results,
        BM25Float.search Examples.doubleEngine "disk" 2 = JS.Ok results
        /\ Spec64.sortedByScore results
        /\ Spec64.stableWrt (BM25Float.scored Examples.doubleEngine "disk") results)
  /\ (EmbeddingFloat.initialized Examples.vectorEngine = true
      /\ exists corpus results,
           EmbeddingFloat.scored Examples.vectorProvider Examples.vectorEngine "file"
           = JS.Ok corpus
           /\ Spec64.numbers corpus
           /\ EmbeddingFloat.search Examples.vectorProvider Examples.vectorEngine "file" 2
              = JS.Ok results
           /\ Spec64.sortedByScore results
           /\ Spec64.stableWrt corpus results)
  /\ (Regex.initialized Examples.regexEngine = true
      /\ exists results,
           Regex.search Examples.regexEngine "read file" 2 = JS.Ok results
           /\ sortedByScore results
           /\ stableWrt (Regex.scored Examples.regexEngine "read file") results).
Proof.
  destruct search_sorted_and_stable as (Hbm25 & Hembedding & Hregex).
  split; [|split].
  - assert (Hn : Spec64.numbers (BM25Float.scored Examples.doubleEngine "disk")).
    { vm_compute. repeat constructor. }
    split; [reflexivity|]. split; [exact Hn|].
    exact (Hbm25 Examples.doubleEngine "disk" 2%Z eq_refl Hn).
  - split; [reflexivity|].
    pose proof (Hembedding Examples.vectorProvider Examples.vectorEngine "file" 2%Z eq_refl)
      as H.
    destruct (EmbeddingFloat.scored Examples.vectorProvider Examples.vectorEngine "file")
      as [corpus|e] eqn:Hs; [|vm_compute in Hs; discriminate].
    assert (Hn : Spec64.numbers corpus).
    { vm_compute in Hs. injection Hs as <-. repeat constructor. }
    destruct (H Hn) as (results & ? & ? & ?).
    exists corpus, results. auto.
  - split; [reflexivity|].
    exact (Hregex Examples.regexEngine "read file" 2%Z eq_refl).
Defined.

(** C2 fails on the code when a score is NaN.  With the configuration
    [{ bm25: { k1: -1, b: 0 } }] the document that holds the term of the
    query scores 0/0: the comparator returns NaN for every pair that
    involves it, the list is left in corpus order, and the NaN stays in
    front of the two scores 0. *)
Lemma search_nan_counterexample :
  BM25Float.initialized Examples.nanEngine = true
  /\ exists results,
       BM25Float.search Examples.nanEngine "disk" 3 = JS.Ok results
       /\ map Float64.score results = [nan; 0; 0]%float
       /\ ~ Spec64.sortedByScore results.
Proof.
  split; [reflexivity|].
  match eval vm_compute in (BM25Float.search Examples.nanEngine "disk" 3) with
  | JS.Ok ?results => exists results
  end.
  split; [vm_compute; reflexivity|]. split; [reflexivity|].
  intros H. inversion H as [|? ? _ Hall]. inversion Hall as [|? ? Hd _].
  vm_compute in Hd. discriminate.
Qed.

Lemma search_length_bound_witness :
  engineIsReady (BM25Engine Examples.bm25Engine) = true
  /\ (0 <= 2)%Z
  /\ engineSearch Examples.unavailable (BM25Engine Examples.bm25Engine) "file" 2
     = JS.Ok (ranked (BM25.scored Examples.bm25Engine "file") 2)
  /\ (Z.of_nat (length (ranked (BM25.scored Examples.bm25Engine "file") 2))
      <= Z.min 2 (Z.of_nat (engineCorpusSize (BM25Engine Examples.bm25Engine))))%Z.
Proof.
  split; [reflexivity|]. split; [lia|]. split; [reflexivity|].
  exact (search_length_bound Examples.unavailable (BM25Engine Examples.bm25Engine)
           "file" 2 _ eq_refl ltac:(lia) eq_refl).
Defined.

Lemma regexEngine_no_match doc :
  doc ∈ Regex.documents Examples.regexEngine -> Regex.rawScore doc "zzz" = 0%nat.
Proof.
  unfold Examples.regexEngine, Regex.initialize, Examples.corpus. cbn [Regex.documents map].
  rewrite !elem_of_cons, elem_of_nil.
  intros [->|[->|[->|[]]]]; vm_compute; reflexivity.
Qed.

Lemma regex_no_match_fallback_witness :
  Regex.initialized Examples.regexEngine = true
  /\ (0 <= 2)%Z
  /\ (forall doc, doc ∈ Regex.documents Examples.regexEngine ->
        Regex.calculateScore doc "zzz" = 0)
  /\ Regex.search Examples.regexEngine "zzz" 2
     = JS.Ok (map (Regex.toResult "zzz")
                  (take 2 (Regex.documents Examples.regexEngine)))
  /\ map (Regex.toResult "zzz") (take 2 (Regex.documents Examples.regexEngine)) <> [].
Proof.
  assert (Hzero : forall doc, doc ∈ Regex.documents Examples.regexEngine ->
                    Regex.calculateScore doc "zzz" = 0).
  { intros doc Hdoc. apply regex_score_zero, regexEngine_no_match, Hdoc. }
  split; [reflexivity|]. split; [lia|]. split; [exact Hzero|].
  destruct (regex_no_match_fallback Examples.regexEngine "zzz" 2
              eq_refl ltac:(lia) Hzero) as [Hsearch Hne].
  split; [exact Hsearch|]. apply Hne; [lia|discriminate].
Defined.

(** C5 fails on the code: the stored average of an empty corpus is the
    number 0, which is no non-zero default. *)
Lemma bm25_empty_average_is_zero :
  BM25Float.avgDocLength
    (BM25Float.initialize (Examples.mathLog Examples.log83) BM25Float.new [] None)
  = 0%float.
Proof. reflexivity. Qed.



Lemma cosine_similarity_guarded_witness :
  length [3; 4]%float = length [4; 3]%float
  /\ EmbeddingFloat.cosineSimilarity [3; 4]%float [4; 3]%float = JS.Ok 0.96%float
  /\ exists s,
       EmbeddingFloat.cosineSimilarity [3; 4]%float [4; 3]%float = JS.Ok s
       /\ is_nan s = false.
Proof.
  split; [reflexivity|].
  destruct (cosine_similarity_guarded [3; 4]%float [4; 3]%float eq_refl)
    as (_ & Hquotient & _ & Hnumber).
  split.
  - exact (Hquotient eq_refl).
  - exact (Hnumber eq_refl eq_refl).
Defined.

(** C8 fails on the code when the squares overflow or underflow.  The
    squares of 1e200 overflow: the dot product and the
    product of the norms are both infinite and their quotient is NaN.
    The squares of 1e-200 underflow to 0: the similarity of the vector
    with itself is 0 although its norm is not zero. *)
Lemma cosine_similarity_counterexample :
  (EmbeddingFloat.cosineSimilarity [1e200] [1e200] = JS.Ok nan
   /\ EmbeddingFloat.cosineSimilarity [1e-200] [1e-200] = JS.Ok 0)%float.
Proof. split; vm_compute; reflexivity. Qed.

Lemma tools_kept_after_failed_load_witness :
  fst (Service.initialize Examples.unavailable Examples.service Examples.corpus None)
  = JS.Err JS.ProviderUnavailable
  /\ getAllTools
       (snd (Service.initialize Examples.unavailable Examples.service
               Examples.corpus None))
     = Examples.corpus
  /\ getToolsCount
       (snd (Service.initialize Examples.unavailable Examples.service
               Examples.corpus None))
     = 3%nat
  /\ getToolNames
       (snd (Service.initialize Examples.unavailable Examples.service
               Examples.corpus None))
     = ["read_file"; "write_file"; "list_directory"].
Proof.
  split; [reflexivity|].
  exact (tools_kept_after_failed_load Examples.unavailable Examples.service
           Examples.corpus None false JS.ProviderUnavailable eq_refl).
Defined.

End Instances.

(** ** The embedding evaluated on the scenarios of the specification *)

Section Evaluation.
Import Types Spec Service.
Local Open Scope string_scope.

Example tokenize_example :
  BM25.tokenize "read_file: Read a  file-from DISK! x"
  = ["read"; "file"; "read"; "file"; "from"; "disk"].
Proof. reflexivity. Qed.

Example split_keeps_empty_pieces :
  JS.split JS.isSpace true "  a  b " = [""; "a"; "b"; ""]
  /\ JS.split JS.isSpace true "" = [""]
  /\ JS.split (fun c => JS.isUnderscore c || JS.isHyphen c) false "a__b-c_"
     = ["a"; ""; "b"; "c"; ""].
Proof. repeat split; reflexivity. Qed.

(** [\bread\b] matches "read" twice: not inside "read_file" (the
    underscore is a word character) and not inside "reads". *)
Example word_boundary_example :
  JS.countWordMatches 0 None "read file read_file reads read" "read" = 2%nat.
Proof. reflexivity. Qed.

Example slice_examples :
  JS.slice [1; 2; 3]%nat 0 2 = [1; 2]%nat
  /\ JS.slice [1; 2; 3]%nat 0 5 = [1; 2; 3]%nat
  /\ JS.slice [1; 2; 3]%nat 0 0 = []
  /\ JS.slice [1; 2; 3]%nat 0 (-1) = [1; 2]%nat
  /\ JS.slice [1; 2; 3]%nat 0 (-5) = [].
Proof. repeat split; reflexivity. Qed.

Example document_text_example :
  BM25.buildDocumentText Examples.readFile
  = "read file read_file Read a file from disk"
  /\ Regex.buildSearchText Examples.readFile
     = "read_file read file read a file from disk"
  /\ Regex.extractNameParts "list_directory" = ["list"; "directory"].
Proof. repeat split; reflexivity. Qed.

(** The scenario "query [list_directory] (verbatim), heuristic ranker":
    100 for the exact name, 5 for each of the two name parts the word
    contains, 3 for the one word-boundary match, 1 for the substring. *)
Example exact_name_scores :
  map (fun tool => Regex.rawScore (Regex.indexDocument tool) "list_directory")
      Examples.corpus
  = [0; 0; 114]%nat.
Proof. vm_compute. reflexivity. Qed.

Example formats_example :
  let tool := {| name := "read_file"; description := "Read a file";
                 properties := [("path", SchemaObject (Some "The path"));
                                ("encoding", SchemaObject None)];
                 required := Some ["path"] |} in
  Formats.formatToolForEmbedding tool minimal = "Read a file"
  /\ Formats.formatToolForEmbedding tool standard = "read file: Read a file"
  /\ Formats.formatToolForEmbedding tool rich
     = "read file - read_file: Read a file. Parameters: path, encoding"
  /\ Formats.formatToolForEmbedding tool verbose
     = "read file - read_file: Read a file. Parameters: path: The path; encoding"
  /\ map (Formats.estimateFormatTokens tool) [minimal; standard; rich; verbose]
     = [3; 6; 16; 18]%nat.
Proof. vm_compute. repeat split; reflexivity. Qed.

(** The scenario "query [read a file from disk], BM25 ranker" in
    double precision, and the cosine similarity of three pairs of
    vectors: a vector is not always at similarity 1 with itself. *)
Example double_precision_examples :
  (map Float64.score (BM25Float.scored Examples.doubleEngine "read a file from disk")
   = [4.316068953858013; 0.7749163779678796; 0]
   /\ BM25Float.avgDocLength Examples.doubleEngine = 7.666666666666667
   /\ EmbeddingFloat.cosineSimilarity [3; 4] [4; 3] = JS.Ok 0.96
   /\ EmbeddingFloat.cosineSimilarity [0.1; 0.6] [0.1; 0.6] = JS.Ok 1.0000000000000002
   /\ EmbeddingFloat.cosineSimilarity [3; 7] [3; 7] = JS.Ok 0.9999999999999999)%float.
Proof. repeat split; vm_compute; reflexivity. Qed.

(** With the default parameters (k1 = 1.5, b = 0.75) and the corpus of
    the scenario, the score in double precision of a document of 20
    tokens for the query "disk" does not decrease when "disk" takes one
    more of the 20 places, from none to all of them. *)
Example default_parameters_tf_monotone :
  forallb (fun n =>
             (BM25Float.calculateScore Examples.doubleEngine
                (Examples.diskDocument n) ["disk"]
              <=? BM25Float.calculateScore Examples.doubleEngine
                    (Examples.diskDocument (S n)) ["disk"])%float)
          (seq 0 20)
  = true.
Proof. vm_compute. reflexivity. Qed.

(** Registering an engine twice keeps one entry per method. *)
Example registry_example :
  getAvailableMethods Examples.service = [embedding; bm25; regex]
  /\ getAvailableMethods (registerEngine Examples.service (BM25Engine BM25.new))
     = [embedding; bm25; regex]
  /\ isEngineReady Examples.service bm25 = false
  /\ isEngineReady Examples.lexicalService bm25 = true
  /\ isEngineReady Examples.lexicalService embedding = false.
Proof. repeat split; reflexivity. Qed.

End Evaluation.

(** * Further properties of the code *)

(** ** The registry of the search service *)

Section Registry.
Import Types Spec Service.

Lemma mapGet_mapSet entries key value key' :
  mapGet (mapSet entries key value) key'
  = if decide (key' = key) then Some value else mapGet entries key'.
Proof.
  induction entries as [|[k v] entries IH]; simpl.
  - repeat case_decide; congruence.
  - destruct (decide (k = key)) as [->|Hk]; simpl.
    + repeat case_decide; congruence.
    + rewrite IH. repeat case_decide; congruence.
Qed.

Lemma mapSet_keys entries key value :
  map fst (mapSet entries key value)
  = if decide (key ∈ map fst entries) then map fst entries
    else map fst entries ++ [key].
Proof.
  induction entries as [|[k v] entries IH]; cbn [mapSet map fst].
  - destruct (decide (key ∈ [])) as [H|_]; [by apply elem_of_nil in H|done].
  - destruct (decide (k = key)) as [->|Hk]; cbn [map fst].
    + destruct (decide (key ∈ key :: map fst entries)) as [_|H]; [done|].
      exfalso. apply H. left.
    + rewrite IH. destruct (decide (key ∈ map fst entries)) as [Hin|Hin].
      * destruct (decide (key ∈ k :: map fst entries)) as [_|H]; [done|].
        exfalso. apply H. by right.
      * destruct (decide (key ∈ k :: map fst entries)) as [H|_]; [|done].
        apply elem_of_cons in H as [?|?]; congruence.
Qed.

Lemma mapGet_None entries key :
  mapGet entries key = None <-> key ∉ map fst entries.
Proof.
  induction entries as [|[k v] entries IH]; simpl.
  - split; [intros _; apply not_elem_of_nil|done].
  - rewrite not_elem_of_cons. case_decide as Hk; subst.
    + split; [done|]. intros [? _]. congruence.
    + rewrite IH. split; [intros ?; split; congruence|tauto].
Qed.

Lemma mapGet_Some_elem entries key engine :
  mapGet entries key = Some engine -> (key, engine) ∈ entries.
Proof.
  induction entries as [|[k v] entries IH]; simpl; [done|].
  case_decide as Hk; subst.
  - intros [= ->]. left.
  - intros H. right. auto.
Qed.

(** X1.  [registerEngine] followed by [getEngine]: the engine just
    registered is found under its own method, and the entry of every
    other method is the one it was. *)
Theorem register_then_get self engine method :
  getEngine (registerEngine self engine) method
  = if decide (method = engineMethod engine) then Some engine
    else getEngine self method.
Proof. unfold getEngine, registerEngine. simpl. apply mapGet_mapSet. Qed.

(** X2.  [registerEngine] never reorders the registry and never
    duplicates a method: a method that is registered already keeps its
    place in [getAvailableMethods], a new one is appended. *)
Theorem register_methods self engine :
  getAvailableMethods (registerEngine self engine)
  = if decide (engineMethod engine ∈ getAvailableMethods self)
    then getAvailableMethods self
    else getAvailableMethods self ++ [engineMethod engine].
Proof. unfold getAvailableMethods, registerEngine. simpl. apply mapSet_keys. Qed.

(** X3.  [setDefaultMethod] fails exactly for a method that is not
    registered; when it succeeds, a later request that names no method
    is answered as the same request naming that method was before. *)
Theorem setDefaultMethod_redirects ollama self method :
  match setDefaultMethod self method with
  | JS.Ok self' =>
      getEngine self method <> None
      /\ getAvailableMethods self' = getAvailableMethods self
      /\ forall query topK,
           search ollama self' {| query := query; topK := topK; Types.method := None |}
           = search ollama self
               {| query := query; topK := topK; Types.method := Some method |}
  | JS.Err e => e = JS.MethodNotRegistered /\ getEngine self method = None
  end.
Proof.
  unfold setDefaultMethod, getEngine.
  destruct (mapGet (engines self) method) as [engine|] eqn:Hget; [|done].
  split; [done|]. split; [done|]. intros query topK.
  unfold search. simpl. by rewrite Hget.
Qed.

End Registry.

(** ** Loading the engines through the service *)

Section Loading.
Import Types Spec Service.

Lemma mapM_Err {A B : Type} (f : A -> JS.result B) l e :
  JS.mapM f l = JS.Err e -> exists x, x ∈ l /\ f x = JS.Err e.
Proof.
  induction l as [|x l IH]; simpl; [done|].
  destruct (f x) as [y|e'] eqn:Hx; simpl.
  - destruct (JS.mapM f l) as [ys|e'']; simpl; [done|].
    intros [= ->]. destruct (IH eq_refl) as (x' & Hin & Hx').
    exists x'. split; [by right|done].
  - intros [= ->]. exists x. split; [left|done].
Qed.

(** The errors of an engine's [search] are the engine's own. *)
Lemma engineSearch_error ollama engine query topK e :
  engineSearch ollama engine query topK = JS.Err e ->
  e <> JS.MethodNotRegistered /\ e <> JS.EngineNotReady.
Proof.
  destruct engine as [b|em|r]; simpl.
  - unfold BM25.search. destruct (BM25.initialized b); [done|]. by intros [= <-].
  - unfold Embedding.search. destruct (Embedding.initialized em); [|by intros [= <-]].
    destruct (Embedding.scored ollama em query) as [corpus|e'] eqn:Hs; simpl; [done|].
    intros [= ->]. unfold Embedding.scored, Embedding.generateEmbedding in Hs.
    destruct (ollama _ _) as [vectors|]; simpl in Hs; [|by injection Hs as <-].
    apply mapM_Err in Hs as (indexed & _ & Hx). unfold Embedding.toResult in Hx.
    destruct (vectors !! 0%nat) as [a|]; [|by injection Hx as <-].
    destruct (Embedding.embedding indexed) as [v|]; [|by injection Hx as <-].
    unfold Embedding.cosineSimilarity in Hx.
    destruct (decide (length a = length v)); simpl in Hx; [|by injection Hx as <-].
    destruct (decide _); simpl in Hx; [done|].
    destruct (Embedding.quotient _ _); [done|]. by injection Hx as <-.
  - unfold Regex.search. destruct (Regex.initialized r); [|by intros [= <-]].
    by destruct (_ =? _)%nat.
Qed.

(** X4.  The two errors of the service's own: [search] fails with
    "method not registered" exactly when the resolved method has no
    engine, and with "engine not initialized" exactly when its engine is
    registered but not ready; no engine error is mistaken for either. *)
Theorem search_error_kinds ollama self request :
  let method := default (defaultMethod self) (Types.method request) in
  (search ollama self request = JS.Err JS.MethodNotRegistered
   <-> getEngine self method = None)
  /\ (search ollama self request = JS.Err JS.EngineNotReady
      <-> exists engine, getEngine self method = Some engine
                         /\ engineIsReady engine = false).
Proof.
  intros method. unfold search, getEngine. fold method.
  destruct (mapGet (engines self) method) as [engine|].
  - destruct (engineIsReady engine) eqn:Hready.
    + destruct (engineSearch ollama engine (query request) (resolveTopK (topK request)))
        as [results|e] eqn:Hs; simpl.
      * split; split; try done. intros (engine' & [= <-] & ?). congruence.
      * destruct (engineSearch_error _ _ _ _ _ Hs) as [H1 H2].
        split; split; try done; try congruence.
        intros (engine' & [= <-] & ?). congruence.
    + split; split; try done. eauto.
  - split; split; try done. intros (engine' & ? & _). done.
Qed.

Lemma promiseAll_Ok outcomes :
  promiseAll outcomes = JS.Ok tt -> Forall (fun o => exists u, o = JS.Ok u) outcomes.
Proof.
  induction outcomes as [|[u|e] outcomes IH]; simpl; [constructor| |done].
  intros H. constructor; eauto.
Qed.

Lemma fanOut_get start self tools config method :
  getEngine (snd (fanOut start self tools config)) method
  = (fun engine => snd (start engine tools config)) <$> getEngine self method.
Proof.
  unfold getEngine, fanOut. simpl.
  induction (engines self) as [|[k v] entries IH]; simpl; [done|].
  case_decide; [done|apply IH].
Qed.

Lemma fanOut_outcome start self tools config method engine :
  fst (fanOut start self tools config) = JS.Ok tt ->
  getEngine self method = Some engine ->
  exists u, fst (start engine tools config) = JS.Ok u.
Proof.
  unfold fanOut, getEngine. simpl. intros Hall Hget.
  apply promiseAll_Ok in Hall. apply mapGet_Some_elem in Hget.
  rewrite Forall_forall in Hall. apply Hall.
  apply list_elem_of_fmap.
  exists (method, start engine tools config). split; [done|].
  apply list_elem_of_fmap. exists (method, engine). done.
Qed.

Lemma engineInitialize_tools ollama engine tools config :
  engineGetAllTools (snd (engineInitialize ollama engine tools config)) = tools.
Proof.
  destruct engine as [b|em|r]; simpl; [done| |done].
  unfold Embedding.initialize.
  by destruct (Embedding.generateEmbeddings _ _ _).
Qed.

Lemma engineReload_tools ollama engine tools config :
  engineGetAllTools (snd (engineReload ollama engine tools config)) = tools.
Proof.
  destruct engine as [b|em|r]; simpl; [done| |done].
  unfold Embedding.reload, Embedding.initialize.
  by destruct (Embedding.generateEmbeddings _ _ _).
Qed.

Lemma engineInitialize_ready ollama engine tools config u :
  fst (engineInitialize ollama engine tools config) = JS.Ok u ->
  engineIsReady (snd (engineInitialize ollama engine tools config)) = true.
Proof.
  destruct engine as [b|em|r]; simpl; [done| |done].
  unfold Embedding.initialize.
  by destruct (Embedding.generateEmbeddings _ _ _).
Qed.

Lemma engineReload_ready ollama engine tools config u :
  fst (engineReload ollama engine tools config) = JS.Ok u ->
  engineIsReady (snd (engineReload ollama engine tools config)) = true.
Proof.
  destruct engine as [b|em|r]; simpl; [done| |done].
  unfold Embedding.reload, Embedding.initialize.
  by destruct (Embedding.generateEmbeddings _ _ _).
Qed.

(** X5.  When the promise of [initialize] or [reload] is fulfilled,
    every registered engine is ready and holds the new tools. *)
Theorem load_fulfilled_all_ready ollama self tools config (reloading : bool)
        method engine :
  let load := if reloading then Service.reload else Service.initialize in
  fst (load ollama self tools config) = JS.Ok tt ->
  getEngine (snd (load ollama self tools config)) method = Some engine ->
  engineIsReady engine = true /\ engineGetAllTools engine = tools.
Proof.
  destruct reloading; cbv zeta; unfold Service.reload, Service.initialize;
    intros Hok Hget; rewrite fanOut_get in Hget;
    destruct (getEngine self method) as [engine0|] eqn:Hget0; try done;
    injection Hget as <-;
    destruct (fanOut_outcome _ _ _ _ _ _ Hok Hget0) as [u Hu].
  - split; [by eapply engineReload_ready|apply engineReload_tools].
  - split; [by eapply engineInitialize_ready|apply engineInitialize_tools].
Qed.

(** X6.  After [initialize] or [reload], fulfilled or rejected, every
    registered engine reports the new tools, and the BM25 and the regex
    engine are ready: a failure of the embedding provider does not keep
    the other engines from being loaded. *)
Theorem load_reaches_every_engine ollama self tools config (reloading : bool)
        method engine :
  let load := if reloading then Service.reload else Service.initialize in
  getEngine (snd (load ollama self tools config)) method = Some engine ->
  engineGetAllTools engine = tools
  /\ match engine with
     | EmbeddingEngine _ => True
     | _ => engineIsReady engine = true
     end.
Proof.
  destruct reloading; cbv zeta; unfold Service.reload, Service.initialize;
    intros Hget; rewrite fanOut_get in Hget;
    destruct (getEngine self method) as [engine0|] eqn:Hget0; try done;
    injection Hget as <-.
  - split; [apply engineReload_tools|].
    destruct engine0 as [b|em|r]; simpl; [done| |done].
    by destruct (Embedding.reload ollama em tools config).
  - split; [apply engineInitialize_tools|].
    destruct engine0 as [b|em|r]; simpl; [done| |done].
    by destruct (Embedding.initialize ollama em tools config).
Qed.

Lemma mapGet_replace entries method engine' key :
  mapGet (map (fun entry => if decide (fst entry = method)
                            then (fst entry, engine') else entry) entries) key
  = if decide (key = method)
    then (fun _ => engine') <$> mapGet entries method
    else mapGet entries key.
Proof.
  induction entries as [|[k v] entries IH]; cbn [map mapGet fst].
  - by case_decide.
  - destruct (decide (k = method)) as [->|Hk]; cbn [mapGet].
    + destruct (decide (method = key)) as [<-|Hne].
      * by rewrite ?decide_True.
      * rewrite IH. by rewrite !decide_False by congruence.
    + destruct (decide (k = key)) as [<-|Hne].
      * by rewrite ?decide_False.
      * by rewrite IH.
Qed.

(** X8.  [initializeEngine] looks the method up before it assigns
    [this.tools]: for a method that is not registered it fails and
    leaves the service as it was; otherwise the service reports the new
    tools and the engine of that method is the only one that is
    initialised, the others keep what they had. *)
Theorem initializeEngine_spec ollama self method tools config :
  match getEngine self method with
  | None =>
      initializeEngine ollama self method tools config
      = (JS.Err JS.MethodNotRegistered, self)
  | Some engine =>
      let self' := snd (initializeEngine ollama self method tools config) in
      fst (initializeEngine ollama self method tools config)
      = fst (engineInitialize ollama engine tools config)
      /\ getAllTools self' = tools
      /\ forall key,
           getEngine self' key
           = if decide (key = method)
             then Some (snd (engineInitialize ollama engine tools config))
             else getEngine self key
  end.
Proof.
  unfold initializeEngine, getEngine.
  destruct (mapGet (engines self) method) as [engine|] eqn:Hget; [|done].
  destruct (engineInitialize ollama engine tools config) as [outcome engine'].
  cbn [fst snd]. split; [done|]. split; [done|]. intros key. cbn [engines].
  rewrite mapGet_replace, Hget. done.
Qed.

End Loading.

(** ** Strings and tokens *)

(** A statement about every code unit is checked on the 256 of them. *)
Ltac each_char c := destruct c as [[] [] [] [] [] [] [] []]; vm_compute; try done.

Section Tokens.
Import Types Spec.
Local Open Scope string_scope.

Lemma mapChars_compose f g s : JS.mapChars f (JS.mapChars g s) = JS.mapChars (fun c => f (g c)) s.
Proof. induction s as [|c s IH]; simpl; [done|]. by rewrite IH. Qed.

Lemma mapChars_ext f g s : (forall c, f c = g c) -> JS.mapChars f s = JS.mapChars g s.
Proof. intros H. induction s as [|c s IH]; simpl; [done|]. by rewrite H, IH. Qed.

Lemma allChars_mapChars class f s :
  (forall c, class (f c) = true) -> allChars class (JS.mapChars f s) = true.
Proof. intros H. induction s as [|c s IH]; simpl; [done|]. by rewrite H, IH. Qed.

Lemma lowerChar_idempotent c : JS.lowerChar (JS.lowerChar c) = JS.lowerChar c.
Proof. each_char c. Qed.

Lemma toLowerCase_idempotent s : JS.toLowerCase (JS.toLowerCase s) = JS.toLowerCase s.
Proof.
  unfold JS.toLowerCase. rewrite mapChars_compose.
  apply mapChars_ext, lowerChar_idempotent.
Qed.

(** The pieces of [split] hold the code units that are no separators. *)
Lemma split_pieces sep runs class s :
  allChars (fun c => sep c || class c) s = true ->
  Forall (fun piece => allChars class piece = true) (JS.split sep runs s).
Proof.
  induction s as [|c s IH]; simpl; intros H.
  - by repeat constructor.
  - apply andb_prop in H as [Hc Hs]. specialize (IH Hs).
    destruct (sep c) eqn:Hsep.
    + destruct (runs && JS.startsWithSep sep s); [done|]. by constructor.
    + simpl in Hc. destruct (JS.split sep runs s) as [|piece pieces].
      * repeat constructor. simpl. by rewrite Hc.
      * inversion IH; subst. constructor; [|done]. simpl. by rewrite Hc.
Qed.

(** The text that [tokenize] splits. *)
Lemma tokenize_cleaned text :
  BM25.tokenize text
  = List.filter (fun token => (1 <? String.length token)%nat)
      (JS.split JS.isSpace true
         (JS.mapChars
            (fun c =>
               let l := JS.lowerChar c in
               let u := if JS.isUnderscore l || JS.isHyphen l then " "%char else l in
               if negb (JS.isWordChar u || JS.isSpace u) then " "%char else u)
            text)).
Proof.
  unfold BM25.tokenize, JS.replaceWithSpace, JS.toLowerCase.
  by rewrite !mapChars_compose.
Qed.

(** X9.  Every token that [tokenize] returns has at least two code units,
    all of them lower-case letters or digits. *)
Theorem tokenize_tokens text :
  Forall (fun token => (2 <= String.length token)%nat
                       /\ allChars lowerAlnum token = true)
         (BM25.tokenize text).
Proof.
  rewrite tokenize_cleaned.
  match goal with
  | |- Forall _ (List.filter _ ?pieces) =>
      assert (Hpieces : Forall (fun piece => allChars lowerAlnum piece = true) pieces)
  end.
  { apply split_pieces, allChars_mapChars. intros c. each_char c. }
  apply Forall_forall. intros token Hin.
  apply list_elem_of_In, filter_In in Hin as [Hin Hlen].
  split; [by apply Nat.ltb_lt in Hlen|].
  rewrite Forall_forall in Hpieces. apply Hpieces. by apply list_elem_of_In.
Qed.

Lemma tokenize_toLowerCase text :
  BM25.tokenize (JS.toLowerCase text) = BM25.tokenize text.
Proof.
  rewrite !tokenize_cleaned. unfold JS.toLowerCase.
  rewrite !mapChars_compose.
  do 2 f_equal. apply mapChars_ext. intros c. each_char c.
Qed.

Lemma tokenize_separators text :
  BM25.tokenize
    (JS.replaceWithSpace (fun c => JS.isUnderscore c || JS.isHyphen c) text)
  = BM25.tokenize text.
Proof.
  rewrite !tokenize_cleaned. unfold JS.replaceWithSpace.
  rewrite !mapChars_compose.
  do 2 f_equal. apply mapChars_ext. intros c. each_char c.
Qed.

(** X10.  [tokenize] does not tell letter case apart, nor an underscore
    or a hyphen from a space: "Read_File", "read-file" and "read file"
    have the same tokens. *)
Theorem tokenize_normalises text :
  BM25.tokenize (JS.toLowerCase text) = BM25.tokenize text
  /\ BM25.tokenize
       (JS.replaceWithSpace (fun c => JS.isUnderscore c || JS.isHyphen c) text)
     = BM25.tokenize text.
Proof. split; [apply tokenize_toLowerCase|apply tokenize_separators]. Qed.

End Tokens.

(** ** More of the BM25 engine *)

Section BM25More.
Import Types Spec.
Local Open Scope string_scope.

Lemma termFrequencies_foldl_None tokens (m : gmap string nat) term :
  foldl (fun frequencies token =>
           <[token := (default 0 (frequencies !! token) + 1)%nat]> frequencies)
        m tokens !! term = None
  <-> m !! term = None /\ term ∉ tokens.
Proof.
  revert m. induction tokens as [|t tokens IH]; intros m; simpl.
  - split; [intros ?; split; [done|apply not_elem_of_nil]|by intros [? _]].
  - rewrite IH, lookup_insert, not_elem_of_cons.
    destruct (decide (t = term)) as [->|Hne].
    + split; [by intros [? _]|by intros [_ [? _]]].
    + split; [intros [? ?]|by intros [? [? ?]]].
      split; [done|]. split; [congruence|done].
Qed.

(** X11.  [calculateTermFrequencies] maps every token of the list to the
    number of its occurrences and has no entry for anything else. *)
Theorem termFrequencies_lookup tokens term :
  BM25.calculateTermFrequencies tokens !! term
  = if decide (term ∈ tokens)
    then Some (length (filter (fun t => t = term) tokens))
    else None.
Proof.
  pose proof (termFrequencies_count tokens term) as Hcount.
  pose proof (termFrequencies_foldl_None tokens ∅ term) as Hnone.
  fold (BM25.calculateTermFrequencies tokens) in Hnone.
  rewrite lookup_empty in Hnone.
  destruct (decide (term ∈ tokens)) as [Hin|Hnot].
  - destruct (BM25.calculateTermFrequencies tokens !! term) as [n|].
    + simpl in Hcount. by rewrite Hcount.
    + exfalso. by apply Hnone.
  - by apply Hnone.
Qed.

Lemma idfValue_pos docCount docFreq :
  (docFreq <= docCount)%nat -> 0 < BM25.idfValue docCount docFreq.
Proof.
  intros Hle. unfold BM25.idfValue.
  apply le_INR in Hle. pose proof (pos_INR docFreq) as Hpos.
  assert (Hq : 0 < (INR docCount - INR docFreq + 0.5) / (INR docFreq + 0.5)).
  { apply Rmult_lt_0_compat; [lra|]. apply Rinv_0_lt_compat. lra. }
  rewrite <- ln_1. apply ln_increasing; lra.
Qed.

Lemma idfValue_antitone docCount d1 d2 :
  (d1 <= d2)%nat -> (d2 <= docCount)%nat ->
  BM25.idfValue docCount d2 <= BM25.idfValue docCount d1.
Proof.
  intros H12 H2. unfold BM25.idfValue.
  apply le_INR in H12, H2.
  pose proof (pos_INR d1) as Hp1. pose proof (pos_INR d2) as Hp2.
  set (N := INR docCount) in *. set (x := INR d1) in *. set (y := INR d2) in *.
  assert (Hy : 0 < (N - y + 0.5) / (y + 0.5)).
  { apply Rmult_lt_0_compat; [lra|]. apply Rinv_0_lt_compat. lra. }
  assert (Hle : (N - y + 0.5) / (y + 0.5) <= (N - x + 0.5) / (x + 0.5)).
  { apply Rmult_le_compat; try lra.
    - apply Rlt_le, Rinv_0_lt_compat. lra.
    - apply Rinv_le_contravar; lra. }
  destruct Hle as [Hlt|Heq].
  - apply Rlt_le, ln_increasing; lra.
  - rewrite Heq. lra.
Qed.

Lemma initialize_idf_lookup self0 tools config term :
  (0 < df (BM25.documents (BM25.initialize self0 tools config)) term)%nat ->
  default 0 (BM25.idf (BM25.initialize self0 tools config) !! term)
  = BM25.idfValue (length (BM25.documents (BM25.initialize self0 tools config)))
                  (df (BM25.documents (BM25.initialize self0 tools config)) term).
Proof.
  intros Hdf. simpl BM25.idf.
  rewrite calculateIDF_lookup, termDocCounts_lookup.
  case_decide as Hz; [simpl in *; lia|done].
Qed.

(** X12.  After [initialize], the stored inverse document frequency of a
    term of the corpus is positive, and a term that occurs in fewer
    documents never has a smaller one. *)
Theorem idf_rarer_terms_weigh_more self0 tools config rare common :
  let self := BM25.initialize self0 tools config in
  (0 < df (BM25.documents self) rare)%nat ->
  (df (BM25.documents self) rare <= df (BM25.documents self) common)%nat ->
  0 < default 0 (BM25.idf self !! common)
  /\ default 0 (BM25.idf self !! common) <= default 0 (BM25.idf self !! rare).
Proof.
  intros self Hrare Hle. subst self.
  rewrite (initialize_idf_lookup self0 tools config rare Hrare).
  rewrite (initialize_idf_lookup self0 tools config common) by lia.
  split.
  - apply idfValue_pos, df_le.
  - apply idfValue_antitone; [done|apply df_le].
Qed.

End BM25More.

Section BM25Search.
Import Types Spec.
Local Open Scope string_scope.

(** A document that has none of the tokens of the query scores 0. *)
Lemma calculateScore_disjoint self doc queryTokens :
  (forall term, term ∈ queryTokens ->
     default 0%nat (BM25.termFrequencies doc !! term) = 0%nat) ->
  BM25.calculateScore self doc queryTokens = 0.
Proof.
  unfold BM25.calculateScore. generalize 0 as acc.
  induction queryTokens as [|term queryTokens IH]; intros acc Hq; [done|].
  cbn [foldl]. cbv zeta. rewrite (Hq term) by left. simpl.
  apply IH. intros t Ht. apply Hq. by right.
Qed.

Lemma sort_all_zero (l : list SearchResult) :
  Forall (fun r => score r = 0) l -> JS.sort byScoreDesc l = l.
Proof.
  induction 1 as [|x l Hx Hl IH]; simpl; [done|].
  rewrite IH. destruct Hl as [|y l Hy Hl]; simpl; [done|].
  destruct (Rlt_dec (byScoreDesc y x) 0) as [Hlt|_]; [|done].
  unfold byScoreDesc in Hlt. lra.
Qed.

(** X14.  When no token of the query occurs in any document (an empty
    query, for one), [search] of an initialised BM25 engine does not
    return an empty list: it returns the first [min(topK, corpus size)]
    tools in corpus order, each with score 0. *)
Theorem bm25_no_match_returns_corpus_prefix self query topK :
  BM25.initialized self = true ->
  (0 <= topK)%Z ->
  (forall doc term, doc ∈ BM25.documents self -> term ∈ BM25.tokenize query ->
     default 0%nat (BM25.termFrequencies doc !! term) = 0%nat) ->
  BM25.search self query topK
  = JS.Ok (map (fun doc => {| result_name := name (BM25.tool doc);
                              result_description := description (BM25.tool doc);
                              score := 0 |})
               (take (Nat.min (Z.to_nat topK) (length (BM25.documents self)))
                     (BM25.documents self))).
Proof.
  intros Hinit Hk Hnone. unfold BM25.search. rewrite Hinit. f_equal.
  assert (Hscored : BM25.scored self query
                    = map (fun doc => {| result_name := name (BM25.tool doc);
                                         result_description := description (BM25.tool doc);
                                         score := 0 |})
                          (BM25.documents self)).
  { unfold BM25.scored. apply map_ext_in. intros doc Hdoc.
    unfold BM25.toResult. f_equal. apply calculateScore_disjoint.
    intros term Hterm. apply Hnone; [by apply list_elem_of_In|done]. }
  rewrite Hscored, sort_all_zero.
  - rewrite slice_take, length_map, sliceCount_nonneg by done. by rewrite fmap_take.
  - apply Forall_map, Forall_forall. done.
Qed.

(** The score of a document of the corpus reads the stored frequencies
    only at the terms of the document. *)
Lemma calculateScore_same_idf self1 self2 doc queryTokens :
  BM25.params self1 = BM25.params self2 ->
  BM25.avgDocLength self1 = BM25.avgDocLength self2 ->
  (forall term, default 0%nat (BM25.termFrequencies doc !! term) <> 0%nat ->
     default 0 (BM25.idf self1 !! term) = default 0 (BM25.idf self2 !! term)) ->
  BM25.calculateScore self1 doc queryTokens = BM25.calculateScore self2 doc queryTokens.
Proof.
  intros Hp Ha Hidf. unfold BM25.calculateScore. rewrite Hp, Ha.
  match goal with
  | |- foldl ?step1 0 _ = foldl ?step2 0 _ =>
      assert (Hgen : forall acc, foldl step1 acc queryTokens = foldl step2 acc queryTokens)
  end.
  { induction queryTokens as [|term queryTokens IH]; intros acc; [done|].
    cbn [foldl]. rewrite <- IH. f_equal. cbv zeta.
    destruct (Nat.eqb_spec (default 0%nat (BM25.termFrequencies doc !! term)) 0)
      as [|Hnz]; [done|].
    by rewrite (Hidf term Hnz). }
  apply Hgen.
Qed.

(** X15.  [initialize] does not clear the stored inverse document
    frequencies as [reload] does, but the entries that stay never reach
    a score: after either call [search] returns the same results for
    every query and [topK]. *)
Theorem initialize_searches_like_reload self tools config query topK :
  BM25.search (BM25.initialize self tools config) query topK
  = BM25.search (BM25.reload self tools config) query topK.
Proof.
  unfold BM25.search. simpl BM25.initialized. cbv iota. do 3 f_equal.
  unfold BM25.scored. simpl BM25.documents.
  apply map_ext_in. intros doc Hdoc. apply list_elem_of_In in Hdoc.
  unfold BM25.toResult. f_equal.
  apply calculateScore_same_idf; [done|done|].
  intros term Htf.
  assert (Hidx : indexed doc).
  { apply list_elem_of_fmap in Hdoc as (tool & -> & _). apply indexDocument_indexed. }
  rewrite indexed_tf in Htf by done.
  assert (Hterm : term ∈ BM25.tokens doc).
  { destruct (decide (term ∈ BM25.tokens doc)) as [|Hnot]; [done|].
    by apply tf_zero in Hnot. }
  simpl BM25.idf. unfold BM25.reload. simpl BM25.idf.
  by rewrite !(idf_stored _ _ doc term).
Qed.

(** X16.  Whenever [calculateScore] reaches its quotients for a document
    of a freshly initialised corpus (the term occurs in the document),
    neither divisor is zero when k1 >= 0 and 0 <= b <= 1: the average
    document length and the BM25 denominator are both positive. *)
Theorem bm25_divisors_positive self0 tools config doc term :
  let self := BM25.initialize self0 tools config in
  doc ∈ BM25.documents self ->
  default 0%nat (BM25.termFrequencies doc !! term) <> 0%nat ->
  0 <= BM25.k1 (BM25.params self) ->
  0 <= BM25.b (BM25.params self) <= 1 ->
  0 < BM25.avgDocLength self
  /\ 0 < INR (default 0%nat (BM25.termFrequencies doc !! term))
         + BM25.k1 (BM25.params self)
           * (1 - BM25.b (BM25.params self)
              + BM25.b (BM25.params self) * INR (BM25.docLength doc)
                / BM25.avgDocLength self).
Proof.
  intros self Hdoc Htf Hk [Hb0 Hb1].
  pose proof (bm25_scoring_divisor_positive self0 tools config doc term Hdoc Htf) as Havg.
  fold self in Havg. split; [exact Havg|].
  assert (Hn : 0 < INR (default 0%nat (BM25.termFrequencies doc !! term)))
    by (apply lt_0_INR; lia).
  pose proof (pos_INR (BM25.docLength doc)) as HL.
  assert (0 <= BM25.b (BM25.params self) * INR (BM25.docLength doc)
               / BM25.avgDocLength self).
  { apply Rmult_le_pos; [apply Rmult_le_pos; lra|].
    apply Rlt_le, Rinv_0_lt_compat, Havg. }
  assert (0 <= BM25.k1 (BM25.params self)
               * (1 - BM25.b (BM25.params self)
                  + BM25.b (BM25.params self) * INR (BM25.docLength doc)
                    / BM25.avgDocLength self)).
  { apply Rmult_le_pos; lra. }
  lra.
Qed.

End BM25Search.

(** ** More of the regex engine *)

Section RegexMore.
Import Types Spec.
Local Open Scope string_scope.

Lemma split_no_separator sep runs s :
  allChars (fun c => negb (sep c)) s = true -> JS.split sep runs s = [s].
Proof.
  induction s as [|c s IH]; simpl; [done|].
  intros H. apply andb_prop in H as [Hc Hs].
  apply negb_true_iff in Hc. by rewrite Hc, IH.
Qed.

Lemma replaceRuns_no_space s : noSpace s = true -> Regex.replaceRuns s = s.
Proof.
  unfold noSpace. induction s as [|c s IH]; simpl; [done|].
  intros H. apply andb_prop in H as [Hc Hs].
  apply negb_true_iff in Hc. by rewrite Hc, IH.
Qed.

Lemma noSpace_toLowerCase s : noSpace (JS.toLowerCase s) = noSpace s.
Proof.
  unfold noSpace, JS.toLowerCase. induction s as [|c s IH]; simpl; [done|].
  rewrite IH. f_equal. each_char c.
Qed.

Lemma queryWords_no_space query :
  noSpace query = true -> (length (Regex.queryWords query) <= 1)%nat.
Proof.
  intros H. unfold Regex.queryWords.
  rewrite split_no_separator by (by rewrite <- noSpace_toLowerCase in H).
  cbn [List.filter].
  destruct (1 <? String.length (JS.toLowerCase query))%nat; simpl; lia.
Qed.

(** X17.  A query that is a tool's name, in any letter case, gives that
    tool a score of at least 100 when the name has no white space. *)
Theorem regex_exact_name_scores_100 doc query :
  noSpace (name (Regex.tool doc)) = true ->
  JS.toLowerCase query = JS.toLowerCase (name (Regex.tool doc)) ->
  100 <= Regex.calculateScore doc query.
Proof.
  intros Hname Hquery.
  assert (Hq : noSpace query = true).
  { by rewrite <- noSpace_toLowerCase, Hquery, noSpace_toLowerCase. }
  unfold Regex.calculateScore.
  assert (Hraw : (100 <= Regex.rawScore doc query)%nat).
  { unfold Regex.rawScore. rewrite Hquery.
    rewrite replaceRuns_no_space by (by rewrite noSpace_toLowerCase).
    rewrite String.eqb_refl. lia. }
  pose proof (queryWords_no_space query Hq).
  replace (Nat.max (length (Regex.queryWords query)) 1) with 1%nat by lia.
  simpl INR at 2. unfold Rdiv. rewrite Rinv_1, Rmult_1_r.
  apply le_INR in Hraw. simpl in Hraw. lra.
Qed.

(** X18.  The results of an initialised regex engine are never a mix:
    either every result has a positive score, or no document of the
    corpus matches and the results are the head of the corpus, all with
    score 0. *)
Theorem regex_results_all_or_nothing self query topK :
  Regex.initialized self = true ->
  exists results,
    Regex.search self query topK = JS.Ok results
    /\ (Forall (fun r => 0 < score r) results
        \/ (Forall (fun r => score r = 0) (Regex.scored self query)
            /\ results = JS.slice (Regex.scored self query) 0 topK)).
Proof.
  intros Hinit.
  destruct (regex_search_cases self query topK Hinit) as [[Hzero ->]|[_ ->]].
  - eexists. split; [done|]. by right.
  - eexists. split; [done|]. left.
    apply Forall_forall. intros r Hr.
    destruct (slice_prefix
                (JS.sort byScoreDesc
                   (filter (fun r => 0 < score r) (Regex.scored self query))) topK)
      as [rest Hrest].
    assert (Hin : r ∈ JS.sort byScoreDesc
                        (filter (fun r => 0 < score r) (Regex.scored self query))).
    { rewrite Hrest. apply elem_of_app. by left. }
    rewrite sort_Permutation in Hin. rename Hin into Hr'. clear Hr. rename Hr' into Hr.
    by apply list_elem_of_filter in Hr as [? _].
Qed.

Lemma regex_score_ignores_case doc query :
  Regex.calculateScore doc (JS.toLowerCase query) = Regex.calculateScore doc query.
Proof.
  unfold Regex.calculateScore, Regex.rawScore, Regex.queryWords.
  by rewrite toLowerCase_idempotent.
Qed.

(** X19.  The two lexical engines do not tell the letter case of the
    query apart: [search] of the lower-cased query returns what [search]
    of the query returns. *)
Theorem search_ignores_case (bm25Engine : BM25.BM25SearchEngine)
        (regexEngine : Regex.RegexSearchEngine) query topK :
  BM25.search bm25Engine (JS.toLowerCase query) topK = BM25.search bm25Engine query topK
  /\ Regex.search regexEngine (JS.toLowerCase query) topK
     = Regex.search regexEngine query topK.
Proof.
  split.
  - unfold BM25.search, BM25.scored.
    by rewrite tokenize_toLowerCase.
  - unfold Regex.search, Regex.scored.
    assert (H : map (Regex.toResult (JS.toLowerCase query)) (Regex.documents regexEngine)
                = map (Regex.toResult query) (Regex.documents regexEngine)).
    { apply map_ext. intros doc. unfold Regex.toResult.
      by rewrite regex_score_ignores_case. }
    by rewrite H.
Qed.

End RegexMore.

(** ** More of the embedding engine *)

Section CosineMore.
Import Float64.
Local Open Scope float_scope.

Lemma dotProduct_foldl_comm (a b : list number) (acc : number) :
  foldl (fun acc xy => acc + fst xy * snd xy) acc (zip a b)
  = foldl (fun acc xy => acc + fst xy * snd xy) acc (zip b a).
Proof.
  revert b acc. induction a as [|x a IH]; intros [|y b] acc; simpl; try done.
  rewrite (float_mul_comm x y). apply IH.
Qed.

(** X21.  In double precision, the cosine similarity does not depend
    on the order of its two arguments: the same number is returned, or
    the same error is thrown. *)
Theorem cosine_similarity_symmetric (a b : list number) :
  EmbeddingFloat.cosineSimilarity a b = EmbeddingFloat.cosineSimilarity b a.
Proof.
  unfold EmbeddingFloat.cosineSimilarity, EmbeddingFloat.normProduct,
    EmbeddingFloat.dotProduct.
  destruct (decide (length a = length b)) as [Hlen|Hlen].
  - rewrite (decide_True (P := length b = length a)) by done.
    rewrite (float_mul_comm (PrimFloat.sqrt (EmbeddingFloat.squaredNorm b))).
    by rewrite (dotProduct_foldl_comm b a).
  - by rewrite (decide_False (P := length b = length a)) by congruence.
Qed.

End CosineMore.

Section EmbeddingEngine.
Import Types Spec.
Local Open Scope string_scope.

Lemma mapM_fails {A B : Type} (f : A -> JS.result B) l x :
  x ∈ l -> (exists e, f x = JS.Err e) -> exists e, JS.mapM f l = JS.Err e.
Proof.
  intros Hin [e Hx]. induction l as [|y l IH]; [by apply elem_of_nil in Hin|].
  simpl. destruct (f y) as [v|e'] eqn:Hy; simpl; [|eauto].
  apply elem_of_cons in Hin as [->|Hin]; [congruence|].
  destruct (IH Hin) as [e'' ->]. simpl. eauto.
Qed.

(** X23.  When the promise of [initialize] is rejected, the index and the
    readiness of the embedding engine are what they were, but
    [getAllTools] already reports the new tools; [reload] of the same
    tools is rejected with the same error and leaves the engine not
    ready, so that every later [search] throws "not initialized". *)
Theorem embedding_failed_load ollama self tools config e :
  fst (Embedding.initialize ollama self tools config) = JS.Err e ->
  let failed := snd (Embedding.initialize ollama self tools config) in
  let reloaded := snd (Embedding.reload ollama self tools config) in
  Embedding.indexedTools failed = Embedding.indexedTools self
  /\ Embedding.isReady failed = Embedding.isReady self
  /\ Embedding.getAllTools failed = tools
  /\ fst (Embedding.reload ollama self tools config) = JS.Err e
  /\ Embedding.isReady reloaded = false
  /\ forall query topK,
       Embedding.search ollama reloaded query topK
       = JS.Err (JS.NotInitialized "Embedding").
Proof.
  unfold Embedding.reload, Embedding.initialize.
  unfold Embedding.applyConfig at 1 2 3. cbn [Embedding.currentModel Embedding.currentFormat].
  destruct (Embedding.generateEmbeddings ollama _ _) as [vectors|e'] eqn:Hgen;
    cbn [fst snd]; [done|].
  intros [= ->].
  unfold Embedding.applyConfig in *. cbn [Embedding.currentModel Embedding.currentFormat] in *.
  unfold Embedding.generateEmbeddings in *.
  cbn [Embedding.currentModel Embedding.currentFormat] in *.
  destruct (ollama _ _) as [vectors|]; [done|].
  injection Hgen as <-. cbn [fst snd].
  repeat split; try done.
Qed.

(** X24.  [initialize] does not check the provider's response: when it
    holds fewer vectors than there are tools, the promise is fulfilled
    and the engine reports ready, but every [search] fails. *)
Theorem embedding_short_response_breaks_search ollama self tools config embeddings :
  let self1 := Embedding.applyConfig self tools config in
  ollama (Embedding.currentModel self1)
         (map (fun tool => Formats.formatToolForEmbedding tool
                             (Embedding.currentFormat self1)) tools)
  = Some embeddings ->
  (length embeddings < length tools)%nat ->
  let self' := snd (Embedding.initialize ollama self tools config) in
  fst (Embedding.initialize ollama self tools config) = JS.Ok tt
  /\ Embedding.isReady self' = true
  /\ forall query topK, exists e, Embedding.search ollama self' query topK = JS.Err e.
Proof.
  intros self1 Hresp Hshort. unfold Embedding.initialize. fold self1.
  unfold Embedding.generateEmbeddings. rewrite Hresp. cbn [fst snd].
  split; [done|]. split; [done|]. intros query topK.
  unfold Embedding.search. cbn [Embedding.initialized].
  unfold Embedding.scored.
  destruct (Embedding.generateEmbedding ollama _ query) as [queryEmbedding|e]; simpl;
    [|eauto].
  cbn [Embedding.indexedTools].
  destruct (lookup_lt_is_Some_2 tools (length embeddings) Hshort) as [tool Htool].
  match goal with
  | |- context [JS.mapM ?f ?l] =>
      destruct (mapM_fails f l
                  {| Embedding.tool := tool;
                     Embedding.embedding := None;
                     Embedding.formattedText :=
                       default "" (map (fun tool => Formats.formatToolForEmbedding tool
                                                      (Embedding.currentFormat self1)) tools
                                   !! length embeddings) |}) as [e ->]
  end.
  - apply list_elem_of_lookup. exists (length embeddings).
    rewrite list_lookup_imap, Htool. simpl. f_equal. f_equal.
    by apply lookup_ge_None_2.
  - unfold Embedding.toResult. simpl. destruct queryEmbedding; eauto.
  - simpl. eauto.
Qed.

(** X25.  An initialised engine whose first indexed vector has another
    length than the vector of the query fails with the error of
    [cosineSimilarity]: vectors of another model or dimension are
    refused, not compared. *)
Theorem embedding_dimension_mismatch ollama self query topK first rest v a others :
  Embedding.initialized self = true ->
  Embedding.indexedTools self = first :: rest ->
  Embedding.embedding first = Some v ->
  ollama (Embedding.currentModel self) [query] = Some (a :: others) ->
  length a <> length v ->
  Embedding.search ollama self query topK = JS.Err JS.VectorLengthMismatch.
Proof.
  intros Hinit Hindex Hv Hq Hlen.
  unfold Embedding.search, Embedding.scored, Embedding.generateEmbedding.
  rewrite Hinit, Hq, Hindex. simpl.
  unfold Embedding.toResult. rewrite Hv. unfold Embedding.cosineSimilarity.
  by rewrite decide_False.
Qed.

End EmbeddingEngine.

(** ** More of the embedding formats *)

Section FormatsMore.
Import Types Spec Formats.
Local Open Scope string_scope.

(** X26.  For every tool the estimated token count does not decrease
    from the minimal to the standard and from the standard to the rich
    format. *)
Theorem format_tokens_up_to_rich tool :
  (estimateFormatTokens tool minimal <= estimateFormatTokens tool standard)%nat
  /\ (estimateFormatTokens tool standard <= estimateFormatTokens tool rich)%nat.
Proof. split; [apply minimal_le_standard|apply standard_le_rich]. Qed.

(** X27.  When every property of the schema is an object, the verbose
    format is estimated at no fewer tokens than the rich one. *)
Theorem format_tokens_rich_to_verbose tool :
  objectSchema tool ->
  (estimateFormatTokens tool rich <= estimateFormatTokens tool verbose)%nat.
Proof. apply rich_le_verbose. Qed.

Lemma prefix_refl w : String.prefix w w = true.
Proof.
  induction w as [|c w IH]; simpl; [done|].
  destruct (ascii_dec c c); [done|congruence].
Qed.

Lemma prefix_append w s t :
  String.prefix w s = true -> String.prefix w (s ++ t) = true.
Proof.
  revert w. induction s as [|d s IH]; intros [|c w]; simpl; try done.
  - by destruct t.
  - destruct (ascii_dec c d); [apply IH|done].
Qed.

Lemma includes_refl w : JS.includes w w = true.
Proof. destruct w; cbn [JS.includes]; by rewrite prefix_refl. Qed.

Lemma includes_append_l s t w :
  JS.includes s w = true -> JS.includes (s ++ t) w = true.
Proof.
  induction s as [|c s IH].
  - cbn [JS.includes]. rewrite orb_false_r. intros H.
    destruct w; [by destruct t|done].
  - change (String c s ++ t) with (String c (s ++ t)).
    cbn [JS.includes]. intros H. apply orb_prop in H as [H|H].
    + pose proof (prefix_append _ (String c s) t H) as Hp.
      change (String c s ++ t) with (String c (s ++ t)) in Hp. by rewrite Hp.
    + rewrite (IH H). apply orb_true_r.
Qed.

Lemma includes_append_r s t w :
  JS.includes t w = true -> JS.includes (s ++ t) w = true.
Proof.
  intros H. induction s as [|c s IH]; [done|].
  change (String c s ++ t) with (String c (s ++ t)).
  cbn [JS.includes]. rewrite IH. apply orb_true_r.
Qed.

(** X28.  Whatever the format, the text that is embedded for a tool
    contains the tool's description. *)
Theorem format_keeps_description tool format :
  JS.includes (formatToolForEmbedding tool format) (description tool) = true.
Proof.
  assert (Hbase : forall prefix,
             JS.includes (prefix ++ description tool) (description tool) = true).
  { intros prefix. apply includes_append_r, includes_refl. }
  destruct format; simpl.
  - apply includes_refl.
  - unfold formatStandard. apply includes_append_r, Hbase.
  - unfold formatRich.
    destruct (String.eqb _ ""); [|apply includes_append_l];
      do 3 apply includes_append_r; apply Hbase.
  - unfold formatVerbose.
    destruct (flat_map verboseParam (properties tool)); [|apply includes_append_l];
      do 3 apply includes_append_r; apply Hbase.
  - unfold formatStructured.
    destruct (map (structuredParam tool) (properties tool)); [|apply includes_append_l];
      do 3 apply includes_append_r; apply Hbase.
Qed.

End FormatsMore.

(** ** The description rewriter *)

Section RewriterFacts.
Import Types Spec Rewriter.
Local Open Scope string_scope.
Variable hashString : string -> string.

(** X29.  [cacheDescription] followed by [getCachedDescription]: the
    tool itself gets the description just cached; a tool of the same
    name gets it exactly when its description has the same hash (an
    edited description invalidates the entry); for every other name
    the answer is what it was. *)
Theorem cache_then_get self tool newDescription now other :
  getCachedDescription hashString
    (cacheDescription hashString self tool newDescription now) tool
  = Some newDescription
  /\ getCachedDescription hashString
       (cacheDescription hashString self tool newDescription now) other
     = if decide (name other = name tool)
       then if String.eqb (hashString (description tool))
                          (hashString (description other))
            then Some newDescription else None
       else getCachedDescription hashString self other.
Proof.
  unfold getCachedDescription, cacheDescription. cbn [cache entries].
  split.
  - by rewrite lookup_insert_eq, String.eqb_refl.
  - rewrite lookup_insert.
    destruct (decide (name tool = name other)) as [Heq|Hne].
    + by rewrite decide_True.
    + rewrite decide_False by congruence.
      by destruct (cache self).
Qed.

Lemma applyCached_idempotent self tool :
  applyCached hashString self (applyCached hashString self tool)
  = applyCached hashString self tool.
Proof.
  unfold applyCached at 2.
  destruct (getCachedDescription hashString self tool) as [cached|] eqn:Hget.
  - destruct (String.eqb_spec cached "") as [->|Hne].
    + unfold applyCached. by rewrite Hget.
    + unfold applyCached, getCachedDescription in *.
      cbn [applyRewrittenDescription name description].
      destruct (cache self) as [c|]; [|done].
      destruct (entries c !! name tool) as [entry|]; [|done].
      destruct (String.eqb (originalHash entry) (hashString (description tool)));
        [|done].
      injection Hget as Hget.
      rewrite Hget.
      destruct (String.eqb (originalHash entry) (hashString cached)); cbv iota;
        destruct (String.eqb_spec cached "") as [|_]; done.
  - unfold applyCached. by rewrite Hget.
Qed.

(** X30.  [applyCache] changes descriptions only: the tools keep their
    number, names and schemas; and applying the cache twice is applying
    it once. *)
Theorem applyCache_preserves self tools :
  map name (applyCache hashString self tools) = map name tools
  /\ map properties (applyCache hashString self tools) = map properties tools
  /\ applyCache hashString self (applyCache hashString self tools)
     = applyCache hashString self tools.
Proof.
  unfold applyCache. rewrite !map_map. split; [|split].
  - apply map_ext. intros tool. unfold applyCached.
    destruct (getCachedDescription _ _ _) as [cached|]; [|done].
    by destruct (String.eqb cached "").
  - apply map_ext. intros tool. unfold applyCached.
    destruct (getCachedDescription _ _ _) as [cached|]; [|done].
    by destruct (String.eqb cached "").
  - apply map_ext. intros tool. apply applyCached_idempotent.
Qed.

End RewriterFacts.

(** ** Requests through the service *)

Section ServiceRequests.
Import Types Spec Service.
Local Open Scope string_scope.

(** X7.  A request answered by the service names the method that was
    resolved, and holds no more results than the resolved [topK] when
    that is positive: at most 5 when the request has no [topK] or a
    [topK] of 0. *)
Theorem service_search_bound ollama self request response :
  search ollama self request = JS.Ok response ->
  response_method response = default (defaultMethod self) (Types.method request)
  /\ ((0 < resolveTopK (topK request))%Z ->
      (Z.of_nat (length (results response)) <= resolveTopK (topK request))%Z)
  /\ (topK request = None \/ topK request = Some 0%Z ->
      (length (results response) <= 5)%nat).
Proof.
  unfold search.
  destruct (mapGet (engines self) _) as [engine|]; [|done].
  destruct (engineIsReady engine) eqn:Hready; [|done].
  destruct (engineSearch ollama engine (query request) (resolveTopK (topK request)))
    as [results|e] eqn:Hs; simpl; [|done].
  intros [= <-]. cbn [response_method Types.results]. split; [done|].
  pose proof (engineSearch_spec ollama engine (query request)
                (resolveTopK (topK request)) Hready) as H.
  destruct (engineScored ollama engine (query request)) as [corpus|e]; [|congruence].
  destruct H as (results' & Hs' & _ & _ & Hlen & _).
  assert (results' = results) as -> by congruence.
  assert (Hpos : (0 < resolveTopK (topK request))%Z ->
                 (Z.of_nat (length results) <= resolveTopK (topK request))%Z).
  { intros Hk. pose proof (sliceCount_bound (length corpus) _ (Z.lt_le_incl _ _ Hk)). lia. }
  split; [exact Hpos|].
  intros [Hnone|Hzero].
  - rewrite Hnone in Hpos. simpl in Hpos. lia.
  - rewrite Hzero in Hpos. simpl in Hpos. lia.
Qed.

End ServiceRequests.

(** ** The further properties at concrete inputs *)

Section MoreInstances.
Import Types Spec Service.
Local Open Scope string_scope.

Lemma service_search_bound_witness :
  search Examples.unavailable Examples.lexicalService
         {| query := "file"; topK := None; Types.method := Some bm25 |}
  = JS.Ok {| results := ranked (BM25.scored Examples.bm25Engine "file") 5;
             response_method := bm25 |}
  /\ (length (ranked (BM25.scored Examples.bm25Engine "file") 5) <= 5)%nat.
Proof.
  assert (H : search Examples.unavailable Examples.lexicalService
                     {| query := "file"; topK := None; Types.method := Some bm25 |}
              = JS.Ok {| results := ranked (BM25.scored Examples.bm25Engine "file") 5;
                         response_method := bm25 |}) by reflexivity.
  split; [exact H|].
  exact (proj2 (proj2 (service_search_bound _ _ _ _ H)) (or_introl eq_refl)).
Defined.

Lemma load_fulfilled_all_ready_witness :
  fst (Service.initialize Examples.unavailable
         (registerEngine (registerEngine Service.new (BM25Engine BM25.new))
                         (RegexEngine Regex.new))
         Examples.corpus None) = JS.Ok tt
  /\ getEngine Examples.lexicalService bm25 = Some (BM25Engine Examples.bm25Engine)
  /\ engineIsReady (BM25Engine Examples.bm25Engine) = true
  /\ engineGetAllTools (BM25Engine Examples.bm25Engine) = Examples.corpus.
Proof.
  split; [reflexivity|]. split; [reflexivity|].
  exact (load_fulfilled_all_ready Examples.unavailable
           (registerEngine (registerEngine Service.new (BM25Engine BM25.new))
                           (RegexEngine Regex.new))
           Examples.corpus None false bm25 (BM25Engine Examples.bm25Engine)
           eq_refl eq_refl).
Defined.

Lemma load_reaches_every_engine_witness :
  fst (Service.initialize Examples.unavailable Examples.service Examples.corpus None)
  = JS.Err JS.ProviderUnavailable
  /\ getEngine
       (snd (Service.initialize Examples.unavailable Examples.service
               Examples.corpus None)) bm25
     = Some (BM25Engine Examples.bm25Engine)
  /\ engineGetAllTools (BM25Engine Examples.bm25Engine) = Examples.corpus
  /\ engineIsReady (BM25Engine Examples.bm25Engine) = true.
Proof.
  split; [reflexivity|]. split; [reflexivity|].
  exact (load_reaches_every_engine Examples.unavailable Examples.service
           Examples.corpus None false bm25 (BM25Engine Examples.bm25Engine) eq_refl).
Defined.

Lemma corpus_df :
  df (BM25.documents (BM25.initialize BM25.new Examples.corpus None)) "read" = 1%nat
  /\ df (BM25.documents (BM25.initialize BM25.new Examples.corpus None)) "file" = 2%nat.
Proof.
  change (BM25.documents (BM25.initialize BM25.new Examples.corpus None))
    with (map BM25.indexDocument Examples.corpus).
  split; vm_compute; reflexivity.
Qed.

Lemma idf_rarer_terms_weigh_more_witness :
  0 < default 0 (BM25.idf (BM25.initialize BM25.new Examples.corpus None) !! "file")
  /\ default 0 (BM25.idf (BM25.initialize BM25.new Examples.corpus None) !! "file")
     <= default 0 (BM25.idf (BM25.initialize BM25.new Examples.corpus None) !! "read").
Proof.
  apply (idf_rarer_terms_weigh_more BM25.new Examples.corpus None "read" "file").
  - rewrite (proj1 corpus_df). lia.
  - rewrite (proj1 corpus_df), (proj2 corpus_df). lia.
Defined.

Lemma bm25Engine_no_match doc term :
  doc ∈ BM25.documents Examples.bm25Engine -> term ∈ BM25.tokenize "zzz" ->
  default 0%nat (BM25.termFrequencies doc !! term) = 0%nat.
Proof.
  change (BM25.documents Examples.bm25Engine)
    with (map BM25.indexDocument Examples.corpus).
  change (BM25.tokenize "zzz") with ["zzz"].
  unfold Examples.corpus. cbn [map].
  rewrite !elem_of_cons, !elem_of_nil.
  intros [->|[->|[->|[]]]] [->|[]]; vm_compute; reflexivity.
Qed.

Lemma bm25_no_match_returns_corpus_prefix_witness :
  BM25.search Examples.bm25Engine "zzz" 2
  = JS.Ok (map (fun doc => {| result_name := name (BM25.tool doc);
                              result_description := description (BM25.tool doc);
                              score := 0 |})
               (take 2 (BM25.documents Examples.bm25Engine))).
Proof.
  exact (bm25_no_match_returns_corpus_prefix Examples.bm25Engine "zzz" 2
           eq_refl ltac:(lia) bm25Engine_no_match).
Defined.

Lemma readFile_has_file :
  default 0%nat (BM25.termFrequencies (BM25.indexDocument Examples.readFile) !! "file")
  <> 0%nat.
Proof. vm_compute. lia. Qed.

Lemma bm25_divisors_positive_witness :
  0 < BM25.avgDocLength (BM25.initialize BM25.new Examples.corpus None).
Proof.
  refine (proj1 (bm25_divisors_positive BM25.new Examples.corpus None
                   (BM25.indexDocument Examples.readFile) "file" _ readFile_has_file _ _)).
  - apply list_elem_of_here.
  - simpl. lra.
  - simpl. lra.
Defined.

Lemma regex_exact_name_scores_100_witness :
  100 <= Regex.calculateScore (Regex.indexDocument Examples.listDirectory)
                              "List_Directory".
Proof.
  apply regex_exact_name_scores_100; reflexivity.
Defined.

Lemma regex_results_all_or_nothing_witness :
  exists results,
    Regex.search Examples.regexEngine "read file" 2 = JS.Ok results
    /\ (Forall (fun r => 0 < score r) results
        \/ (Forall (fun r => score r = 0) (Regex.scored Examples.regexEngine "read file")
            /\ results = JS.slice (Regex.scored Examples.regexEngine "read file") 0 2)).
Proof.
  exact (regex_results_all_or_nothing Examples.regexEngine "read file" 2 eq_refl).
Defined.

Lemma embedding_failed_load_witness :
  fst (Embedding.initialize Examples.unavailable (Embedding.new None None None)
         Examples.corpus None) = JS.Err JS.ProviderUnavailable
  /\ Embedding.getAllTools
       (snd (Embedding.initialize Examples.unavailable (Embedding.new None None None)
               Examples.corpus None)) = Examples.corpus
  /\ Embedding.isReady
       (snd (Embedding.reload Examples.unavailable (Embedding.new None None None)
               Examples.corpus None)) = false.
Proof.
  split; [reflexivity|].
  pose proof (embedding_failed_load Examples.unavailable (Embedding.new None None None)
                Examples.corpus None JS.ProviderUnavailable eq_refl)
    as (_ & _ & Htools & _ & Hready & _).
  split; [exact Htools|exact Hready].
Defined.

Lemma embedding_short_response_breaks_search_witness :
  fst (Embedding.initialize Examples.emptyResponse (Embedding.new None None None)
         Examples.corpus None) = JS.Ok tt
  /\ exists e,
       Embedding.search Examples.emptyResponse
         (snd (Embedding.initialize Examples.emptyResponse (Embedding.new None None None)
                 Examples.corpus None))
         "read a file" 3 = JS.Err e.
Proof.
  pose proof (embedding_short_response_breaks_search Examples.emptyResponse
                (Embedding.new None None None) Examples.corpus None []
                eq_refl ltac:(simpl; lia)) as (Hok & _ & Hsearch).
  split; [exact Hok|exact (Hsearch "read a file" 3%Z)].
Defined.

Lemma embedding_dimension_mismatch_witness :
  Embedding.search Examples.lengthProvider Examples.embeddingEngine "ab" 1
  = JS.Err JS.VectorLengthMismatch.
Proof.
  eapply (embedding_dimension_mismatch Examples.lengthProvider Examples.embeddingEngine
            "ab" 1 _ [] _ [1; 1] []).
  - reflexivity.
  - reflexivity.
  - reflexivity.
  - reflexivity.
  - rewrite repeat_length. vm_compute. lia.
Defined.

Lemma format_tokens_rich_to_verbose_witness :
  (Formats.estimateFormatTokens Examples.describedTool rich
   <= Formats.estimateFormatTokens Examples.describedTool verbose)%nat.
Proof.
  apply format_tokens_rich_to_verbose.
  unfold objectSchema. simpl. repeat constructor; discriminate.
Defined.

End MoreInstances.
